(** * Reddit image scraper: a shallow embedding of [reddit_image_scraper.py]

    The development follows the source file top to bottom:
    - Python values as they reach the program (JSON listing payloads,
      strings, the [RedditPost] dataclass, [ScraperConfig]);
    - the pure helpers ([filename], [_is_image_url], [_extract_image_url],
      [_parse_post], [_build_url]);
    - the listing phase ([_make_request], [fetch_posts]) over a scripted
      server and an event trace;
    - the download phase ([_download_image], [download_all]) over a finite
      map standing for the output directory.

    Conventions.  A Python [str] is a Stdlib [string]; one [ascii] is one
    character.  JSON numbers are integers (no fractional numbers).  An
    uncaught Python exception is [Crash]: the program never distinguishes
    exception classes once they escape a function, so one constructor is
    enough.  Functions of the Python standard library whose behaviour is
    not fixed by this repository ([urllib.parse.urlparse], [Path.stem],
    [str()] of a non-string) and the room that the interpreter's
    recursion limit leaves to the retries of [_make_request] are taken
    through the class [PyLib]. *)

From Stdlib Require Import ZArith QArith List Bool Ascii String DecimalString Lia.
From stdpp Require Import base gmap strings list.
Import ListNotations.

#[local] Set Warnings "-clear-no-such-hyp".

Local Open Scope string_scope.
Local Open Scope list_scope.
Local Open Scope Z_scope.

(** ** Uncaught exceptions *)

Inductive res (A : Type) : Type :=
| Ret (a : A)
| Crash.
Arguments Ret {A} a.
Arguments Crash {A}.

Definition rbind {A B} (m : res A) (k : A -> res B) : res B :=
  match m with
  | Ret a => k a
  | Crash => Crash
  end.

Notation "'let*' x ':=' m 'in' k" := (rbind m (fun x => k))
  (at level 10, x name, m at level 100, k at level 200).

(** ** JSON values as [json.loads] builds them

    A [JDict] lists its items in insertion order; [json.loads] leaves no
    duplicate key. *)

#[warnings="-register-all"]
Inductive json : Type :=
| JNull
| JBool (b : bool)
| JInt (n : Z)
| JStr (s : string)
| JList (l : list json)
| JDict (d : list (string * json)).

(** Python truth value testing. *)
Definition truthy (j : json) : bool :=
  match j with
  | JNull => false
  | JBool b => b
  | JInt n => negb (n =? 0)
  | JStr s => negb (String.eqb s "")
  | JList l => match l with [] => false | _ => true end
  | JDict d => match d with [] => false | _ => true end
  end.

Fixpoint assoc (k : string) (d : list (string * json)) : option json :=
  match d with
  | [] => None
  | (k', v) :: rest => if String.eqb k k' then Some v else assoc k rest
  end.

(** [obj.get(k, default)]: only a dict has [get]. *)
Definition py_get (obj : json) (k : string) (default : json) : res json :=
  match obj with
  | JDict d => Ret (match assoc k d with Some v => v | None => default end)
  | _ => Crash
  end.

(** The field [k] is absent from the record [obj]. *)
Definition lacks (obj : json) (k : string) : Prop :=
  match obj with
  | JDict d => assoc k d = None
  | _ => False
  end.

(** ** String helpers ([str] methods used by the source) *)

Fixpoint prefixb (p s : string) : bool :=
  match p, s with
  | EmptyString, _ => true
  | String a p', String b s' => Ascii.eqb a b && prefixb p' s'
  | String _ _, EmptyString => false
  end.

(** [needle in s] on strings. *)
Fixpoint contains (needle s : string) : bool :=
  prefixb needle s ||
  match s with
  | EmptyString => false
  | String _ s' => contains needle s'
  end.

(** [s.endswith(suffix)]. *)
Fixpoint endswith (s suffix : string) : bool :=
  String.eqb s suffix ||
  match s with
  | EmptyString => false
  | String _ s' => endswith s' suffix
  end.

(** [s.startswith(p)]. *)
Definition startswith (s p : string) : bool := prefixb p s.

(** [str.lower] on the characters a byte can hold: A-Z, and the Latin-1
    capitals U+00C0..U+00DE except the multiplication sign U+00D7. *)
Definition lower_char (c : ascii) : ascii :=
  let n := nat_of_ascii c in
  if ((65 <=? n)%nat && (n <=? 90)%nat)
     || ((192 <=? n)%nat && (n <=? 222)%nat && negb (n =? 215)%nat)
  then ascii_of_nat (n + 32) else c.

Fixpoint lower (s : string) : string :=
  match s with
  | EmptyString => EmptyString
  | String c s' => String (lower_char c) (lower s')
  end.

(** [s[:n]]. *)
Fixpoint take_str (n : nat) (s : string) : string :=
  match n, s with
  | O, _ => EmptyString
  | S _, EmptyString => EmptyString
  | S n', String c s' => String c (take_str n' s')
  end.

(** Characters removed by [str.strip()]: the white space of the byte
    range. *)
Definition is_space (c : ascii) : bool :=
  let n := nat_of_ascii c in
  ((9 <=? n)%nat && (n <=? 13)%nat) || ((28 <=? n)%nat && (n <=? 32)%nat)
  || (n =? 133)%nat || (n =? 160)%nat.

Fixpoint lstrip (s : string) : string :=
  match s with
  | EmptyString => EmptyString
  | String c s' => if is_space c then lstrip s' else s
  end.

Fixpoint rstrip (s : string) : string :=
  match s with
  | EmptyString => EmptyString
  | String c s' =>
      match rstrip s' with
      | EmptyString => if is_space c then EmptyString else String c EmptyString
      | r => String c r
      end
  end.

Definition strip (s : string) : string := rstrip (lstrip s).

(** [s.replace('&amp;', '&')]: occurrences are replaced left to right
    without overlap; [skip] counts the characters of an occurrence still
    to be dropped. *)
Fixpoint unescape_from (skip : nat) (s : string) : string :=
  match s with
  | EmptyString => EmptyString
  | String c s' =>
      match skip with
      | S k => unescape_from k s'
      | O => if prefixb "&amp;" s
             then String "&" (unescape_from 4 s')
             else String c (unescape_from 0 s')
      end
  end.

Definition unescape_amp (s : string) : string := unescape_from 0 s.

(** [re.sub] with the class of characters illegal in a file name (less
    than, greater than, colon, double quote, slash, backslash, bar,
    question mark, star) and the empty replacement: those characters are
    dropped.  The double quote is character 34. *)
Definition illegal_char (c : ascii) : bool :=
  existsb (Ascii.eqb c)
    ["<"; ">"; ":"; ascii_of_nat 34; "/"; "\"; "|"; "?"; "*"]%char.

Fixpoint remove_illegal (s : string) : string :=
  match s with
  | EmptyString => EmptyString
  | String c s' =>
      if illegal_char c then remove_illegal s' else String c (remove_illegal s')
  end.

(** [s.split(sep)[0]]: the text before the first [sep], all of [s] when
    there is none. *)
Fixpoint split_head (sep : ascii) (s : string) : string :=
  match s with
  | EmptyString => EmptyString
  | String c s' =>
      if Ascii.eqb c sep then EmptyString else String c (split_head sep s')
  end.


(** ** The answers of the listing server

    What [urlopen] and [json.loads] make of one request, as the [try]
    block of [_make_request] sees it. *)

Inductive response : Type :=
| Resp200 (body : json)      (* a 2xx answer whose body [json.loads] accepts *)
| RespHTTPError (code : Z)   (* [urllib.error.HTTPError] *)
| RespURLError               (* [urllib.error.URLError]: no connection, timeout *)
| RespBadJSON                (* [json.JSONDecodeError] *)
| RespOtherError.            (* any other exception raised in the [try] *)

(** ** Library functions and the interpreter taken as an interface

    [urlparse] gives the [netloc] and [path] components (it raises
    [ValueError] on some inputs, hence [res]); [path_stem] is
    [pathlib.Path.stem] of a file name; [py_str] is [str()] of a JSON value
    that is not a string.

    [_make_request] retries by calling itself, so every 429 in a row
    nests one more call, and the interpreter's recursion limit
    ([sys.getrecursionlimit()], 1000 frames by default) bounds the
    nesting.  The [try] block needs more frames than the call itself, so
    the limit is always hit inside a [try] block, where [except Exception]
    catches the [RecursionError].  [send_depth] is the deepest nesting at
    which the [try] block still gets its request out; [handle_depth r] is
    the deepest nesting at which it also gets through the answer [r] (for
    an [HTTPError], up to the handler).  The call made by [fetch_posts]
    has nesting 0. *)

Record url_parts : Type := { netloc : string; path : string }.

Class PyLib : Type := {
  urlparse : string -> res url_parts;
  path_stem : string -> string;
  py_str : json -> string;
  send_depth : nat;
  handle_depth : response -> nat
}.

(** ** Configuration and posts *)

Record ScraperConfig : Type := {
  cfg_subreddit : string;
  cfg_output_dir : string;
  cfg_limit : Z;
  cfg_sort : string;
  cfg_time_filter : string;
  cfg_min_width : Z;
  cfg_min_height : Z;
  cfg_min_score : Z;
  cfg_include_nsfw : bool;
  cfg_max_workers : Z;
  cfg_delay : Q;
  cfg_skip_existing : bool;
  cfg_verbose : bool
}.

(** The dataclass does not check its annotations: apart from [url], which
    [_extract_image_url] always delivers as a string, a field holds
    whatever JSON value [_parse_post] read. *)
Record RedditPost : Type := {
  post_id : json;
  post_title : json;
  post_author : json;
  post_subreddit : json;
  post_url : string;
  post_permalink : json;
  post_score : json;
  post_created_utc : json;
  post_is_nsfw : json;
  post_width : json;
  post_height : json
}.

(** Dynamic operations on JSON values. *)

(** [needle in container] with a string on the left. *)
Definition py_in (needle : string) (container : json) : res bool :=
  match container with
  | JStr s => Ret (contains needle s)
  | JList l =>
      Ret (existsb (fun x => match x with
                             | JStr s => String.eqb s needle
                             | _ => false
                             end) l)
  | JDict d => Ret (match assoc needle d with Some _ => true | None => false end)
  | _ => Crash
  end.

(** [obj[k]] with a string key: a dict answers, every other value raises. *)
Definition py_item (obj : json) (k : string) : res json :=
  match obj with
  | JDict d => match assoc k d with Some v => Ret v | None => Crash end
  | _ => Crash
  end.

(** [seq[0]]: a dict has no key [0] (JSON keys are strings). *)
Definition py_first (seq : json) : res json :=
  match seq with
  | JList (x :: _) => Ret x
  | JStr (String c _) => Ret (JStr (String c EmptyString))
  | _ => Crash
  end.

(** [list(d.values())[0]] for a non-empty [d]. *)
Definition py_first_value (d : json) : res json :=
  match d with
  | JDict ((_, v) :: _) => Ret v
  | _ => Crash
  end.

(** [v.replace('&amp;', '&')]: only a string has [replace]. *)
Definition py_unescape (v : json) : res string :=
  match v with
  | JStr s => Ret (unescape_amp s)
  | _ => Crash
  end.

(** [v < m] for an integer [m]; [bool] is a subclass of [int]. *)
Definition py_lt (v : json) (m : Z) : res bool :=
  match v with
  | JInt a => Ret (a <? m)
  | JBool b => Ret ((if b then 1 else 0) <? m)
  | _ => Crash
  end.

(** [v + '.jpg']. *)
Definition py_add_str (v : json) (s : string) : res string :=
  match v with
  | JStr u => Ret (u +:+ s)
  | _ => Crash
  end.

Section Scraper.

Context `{Lib : PyLib}.

(** ** [RedditPost.filename] *)

Definition FILE_EXTENSIONS : list string :=
  [".jpg"; ".jpeg"; ".png"; ".gif"; ".webp"; ".mp4"].

Definition _get_extension (p : RedditPost) : res string :=
  let* parsed := urlparse (post_url p) in
  let path := lower (path parsed) in
  Ret (match find (endswith path) FILE_EXTENSIONS with
       | Some ext => ext
       | None => ".jpg"
       end).

(** An f-string field: a string as it is, another value through [str()]. *)
Definition format_field (v : json) : string :=
  match v with
  | JStr s => s
  | _ => py_str v
  end.

Definition safe_title (title : string) : string :=
  strip (take_str 80 (remove_illegal title)).

Definition filename (p : RedditPost) : res string :=
  match post_title p with
  | JStr title =>
      let* ext := _get_extension p in
      Ret (format_field (post_id p) +:+ "_" +:+ safe_title title +:+ ext)
  | _ => Crash
  end.

(** ** [_is_image_url] and [_extract_image_url] *)

Definition IMAGE_DOMAINS : list string :=
  ["i.redd.it"; "i.imgur.com"; "imgur.com"; "preview.redd.it";
   "external-preview.redd.it"].

Definition IMAGE_EXTENSIONS : list string :=
  [".jpg"; ".jpeg"; ".png"; ".gif"; ".webp"].

Definition _is_image_url (url : json) : res bool :=
  if negb (truthy url) then Ret false
  else match url with
       | JStr u =>
           let* parsed := urlparse u in
           if existsb (String.eqb (netloc parsed)) IMAGE_DOMAINS then Ret true
           else Ret (existsb (endswith (lower (path parsed))) IMAGE_EXTENSIONS)
       | _ => Crash
       end.

(** Lines 263-269: the first item of a gallery. *)
Definition gallery_first (post_data : json) : res (option string) :=
  let* is_gallery := py_get post_data "is_gallery" JNull in
  if truthy is_gallery then
    let* media_metadata := py_get post_data "media_metadata" (JDict []) in
    if truthy media_metadata then
      let* first_item := py_first_value media_metadata in
      let* has_s := py_in "s" first_item in
      if has_s then
        let* s := py_item first_item "s" in
        let* u := py_get s "u" (JStr "") in
        let* r := py_unescape u in
        Ret (Some r)
      else Ret None
    else Ret None
  else Ret None.

(** Lines 272-276 and 325-329: [preview.images[0].source] when the entry
    has a non-empty preview with a non-empty image list. *)
Definition preview_source (post_data : json) : res (option json) :=
  let* preview := py_get post_data "preview" (JDict []) in
  if truthy preview then
    let* images := py_get preview "images" (JList []) in
    if truthy images then
      let* image0 := py_first images in
      let* source := py_get image0 "source" (JDict []) in
      Ret (Some source)
    else Ret None
  else Ret None.

(** Lines 272-279: the rendered preview. *)
Definition preview_image (post_data : json) : res (option string) :=
  let* src := preview_source post_data in
  match src with
  | Some source =>
      let* u := py_get source "url" (JStr "") in
      let* preview_url := py_unescape u in
      if String.eqb preview_url "" then Ret None else Ret (Some preview_url)
  | None => Ret None
  end.

(** Lines 282-285: [.jpg] appended to an imgur link. *)
Definition imgur_guess (url : json) : res (option string) :=
  let* has_imgur := py_in "imgur.com" url in
  if has_imgur then
    let* img := _is_image_url url in
    if negb img then
      let* album := py_in "/a/" url in
      if negb album then
        let* gallery := py_in "/gallery/" url in
        if negb gallery then
          let* r := py_add_str url ".jpg" in
          Ret (Some r)
        else Ret None
      else Ret None
    else Ret None
  else Ret None.

Definition _extract_image_url (post_data : json) : res (option string) :=
  let* url := py_get post_data "url" (JStr "") in
  let* direct := _is_image_url url in
  if direct then
    match url with
    | JStr u => Ret (Some u)
    | _ => Crash
    end
  else
    let* g := gallery_first post_data in
    match g with
    | Some u => Ret (Some u)
    | None =>
        let* p := preview_image post_data in
        match p with
        | Some u => Ret (Some u)
        | None => imgur_guess url
        end
    end.

(** ** [_parse_post] *)

Definition below_minimum (v : json) (minimum : Z) : res bool :=
  if truthy v && negb (minimum =? 0) then py_lt v minimum else Ret false.

Definition _parse_post (cfg : ScraperConfig) (post_data : json)
  : res (option RedditPost) :=
  let* data := py_get post_data "data" (JDict []) in
  let* is_self := py_get data "is_self" (JBool true) in
  if truthy is_self then Ret None else
  let* is_video := py_get data "is_video" (JBool true) in
  if truthy is_video then Ret None else
  let* over_18 := py_get data "over_18" (JBool true) in
  if truthy over_18 && negb (cfg_include_nsfw cfg) then Ret None else
  let* image_url := _extract_image_url data in
  match image_url with
  | None => Ret None
  | Some EmptyString => Ret None
  | Some image_url =>
      let* score := py_get data "score" (JInt 0) in
      let* low := py_lt score (cfg_min_score cfg) in
      if low then Ret None else
      let* src := preview_source data in
      let* dims :=
        match src with
        | Some source =>
            let* w := py_get source "width" (JInt 0) in
            let* h := py_get source "height" (JInt 0) in
            Ret (w, h)
        | None => Ret (JInt 0, JInt 0)
        end in
      let* narrow := below_minimum (fst dims) (cfg_min_width cfg) in
      if narrow then Ret None else
      let* short := below_minimum (snd dims) (cfg_min_height cfg) in
      if short then Ret None else
      let* id := py_get data "id" (JStr "") in
      let* title := py_get data "title" (JStr "Untitled") in
      let* author := py_get data "author" (JStr "unknown") in
      let* subreddit := py_get data "subreddit" (JStr (cfg_subreddit cfg)) in
      let* permalink := py_get data "permalink" (JStr "") in
      let* created_utc := py_get data "created_utc" (JInt 0) in
      let* is_nsfw := py_get data "over_18" (JBool true) in
      Ret (Some {| post_id := id;
                   post_title := title;
                   post_author := author;
                   post_subreddit := subreddit;
                   post_url := image_url;
                   post_permalink := permalink;
                   post_score := score;
                   post_created_utc := created_utc;
                   post_is_nsfw := is_nsfw;
                   post_width := fst dims;
                   post_height := snd dims |})
  end.

(** ** [_build_url]

    The URL is kept as its base and its parameter dict in insertion order;
    [urlencode] renders the dict and is not needed further. *)

Record query : Type := { q_base : string; q_params : list (string * json) }.

Definition _build_url (cfg : ScraperConfig) (after : json) : query :=
  {| q_base := "https://www.reddit.com/r/" +:+ cfg_subreddit cfg +:+ "/"
               +:+ cfg_sort cfg +:+ ".json";
     q_params :=
       [("limit", JInt (Z.min 100 (cfg_limit cfg))); ("raw_json", JInt 1)]
       ++ (if String.eqb (cfg_sort cfg) "top"
           then [("t", JStr (cfg_time_filter cfg))] else [])
       ++ (if truthy after then [("after", after)] else []) |}.

End Scraper.

(** ** Hashable values: the members of [self.downloaded] and [self.failed]

    [True] and [1] are the same set member, as are [False] and [0]; a list
    or a dict is unhashable. *)

Inductive pykey : Type :=
| KNone
| KInt (n : Z)
| KStr (s : string).

#[global] Instance pykey_eq_dec : EqDecision pykey.
Proof. solve_decision. Defined.

#[global] Instance pykey_countable : Countable pykey.
Proof.
  refine (inj_countable'
            (fun k => match k with
                      | KNone => inl ()
                      | KInt n => inr (inl n)
                      | KStr s => inr (inr s)
                      end)
            (fun x => match x with
                      | inl _ => KNone
                      | inr (inl n) => KInt n
                      | inr (inr s) => KStr s
                      end) _).
  intros []; reflexivity.
Defined.

Definition py_hash_key (v : json) : res pykey :=
  match v with
  | JNull => Ret KNone
  | JBool b => Ret (KInt (if b then 1 else 0))
  | JInt n => Ret (KInt n)
  | JStr s => Ret (KStr s)
  | _ => Crash
  end.

(** [for x in v]: a list gives its items, a dict its keys, a string its
    characters; nothing else is iterable. *)
Fixpoint chars (s : string) : list json :=
  match s with
  | EmptyString => []
  | String c s' => JStr (String c EmptyString) :: chars s'
  end.

Definition py_iter (v : json) : res (list json) :=
  match v with
  | JList l => Ret l
  | JDict d => Ret (map (fun kv => JStr (fst kv)) d)
  | JStr s => Ret (chars s)
  | _ => Crash
  end.

(** ** The listing phase: [_make_request] and [fetch_posts]

    The server is a script: the answers it will give to the successive
    requests that reach it, in order.  Once the script is used up nothing
    answers any more ([URLError]).  What the client does to the outside is
    recorded as a chronological list of events: the requests that leave
    it and its pauses. *)

Inductive event : Type :=
| EvRequest (url : query)
| EvSleep (seconds : Q).

Section Listing.

Context `{Lib : PyLib}.

(** The result is the decoded body or [None] ([JNull]), the rest of the
    script, and the events emitted.  [level] is the nesting of the call:
    the number of calls of [_make_request] that wait for this one.  When
    the recursion limit is hit before the request is out, nothing is sent
    and the answer stays in the script; when it is hit while the answer
    is read or decoded, the answer is lost.  Both times [except
    Exception] returns [None]. *)
Fixpoint _make_request (level : nat) (url : query) (script : list response)
  : json * list response * list event :=
  if (send_depth <? level)%nat then (JNull, script, [])
  else
    match script with
    | [] => (JNull, [], [EvRequest url])
    | r :: rest =>
        if (handle_depth r <? level)%nat then (JNull, rest, [EvRequest url])
        else
          match r with
          | Resp200 body => (body, rest, [EvRequest url])
          | RespHTTPError code =>
              if code =? 429 then
                let '(data, rest', evs) := _make_request (S level) url rest in
                (data, rest', EvRequest url :: EvSleep 60 :: evs)
              else (JNull, rest, [EvRequest url])
          | _ => (JNull, rest, [EvRequest url])
          end
    end.

(** The locals of [fetch_posts] that the [for] loop updates, with the
    counter [stats['skipped']]. *)
Record fetch_state : Type := {
  posts : list RedditPost;
  fetched : Z;
  skipped : Z
}.

(** Lines 383-396: the [for] loop over the children of one page. *)
Fixpoint scan_children (cfg : ScraperConfig) (downloaded : gset pykey)
    (children : list json) (st : fetch_state) : res fetch_state :=
  match children with
  | [] => Ret st
  | child :: rest =>
      if fetched st >=? cfg_limit cfg then Ret st
      else
        let* post := _parse_post cfg child in
        match post with
        | Some p =>
            let* k := py_hash_key (post_id p) in
            if bool_decide (k ∈ downloaded)
            then scan_children cfg downloaded rest
                   {| posts := posts st; fetched := fetched st;
                      skipped := skipped st + 1 |}
            else scan_children cfg downloaded rest
                   {| posts := posts st ++ [p]; fetched := fetched st + 1;
                      skipped := skipped st |}
        | None => scan_children cfg downloaded rest st
        end
  end.

(** What a run of the listing phase leaves behind: the locals at the
    [return] (the returned list is [posts]; [stats['found']] is its
    length) or an uncaught exception, the unused part of the script, and
    the events. *)
Record fetch_result : Type := {
  final : res fetch_state;
  script_left : list response;
  trace : list event
}.

Definition finish (st : fetch_state) (script : list response)
    (tr : list event) : option fetch_result :=
  Some {| final := Ret st; script_left := script; trace := tr |}.

Definition crashed (script : list response) (tr : list event)
  : option fetch_result :=
  Some {| final := Crash; script_left := script; trace := tr |}.

(** Lines 367-404: the [while] loop.  [None] means that [fuel] iterations
    were not enough; [fetch_posts] below always supplies enough. *)
Fixpoint fetch_loop (fuel : nat) (cfg : ScraperConfig)
    (downloaded : gset pykey) (script : list response) (after : json)
    (st : fetch_state) (tr : list event) : option fetch_result :=
  if fetched st <? cfg_limit cfg then
    match fuel with
    | O => None
    | S fuel' =>
        let url := _build_url cfg after in
        let '(data, script', evs) := _make_request 0 url script in
        let tr' := tr ++ evs in
        if negb (truthy data) then finish st script' tr'
        else
          match (let* inner := py_get data "data" (JDict []) in
                 py_get inner "children" (JList [])) with
          | Crash => crashed script' tr'
          | Ret children =>
              if negb (truthy children) then finish st script' tr'
              else
                match (let* items := py_iter children in
                       let* st' := scan_children cfg downloaded items st in
                       let* inner := py_get data "data" (JDict []) in
                       let* after' := py_get inner "after" JNull in
                       Ret (st', after')) with
                | Crash => crashed script' tr'
                | Ret (st', after') =>
                    if negb (truthy after') then finish st' script' tr'
                    else fetch_loop fuel' cfg downloaded script' after' st'
                           (tr' ++ [EvSleep (cfg_delay cfg)])
                end
          end
    end
  else finish st script tr.

Definition fetch_posts (cfg : ScraperConfig) (downloaded : gset pykey)
    (script : list response) : option fetch_result :=
  fetch_loop (S (length script)) cfg downloaded script JNull
    {| posts := []; fetched := 0; skipped := 0 |} [].

End Listing.

(** ** The dedup index: [__init__] and [_load_existing_files]

    The output directory is listed as its entries; [glob] also yields
    sub-directories, which [is_file] filters out. *)

Record dir_entry : Type := { entry_name : string; entry_is_file : bool }.

Section Dedup.

Context `{Lib : PyLib}.

Definition recovered_id (name : string) : string :=
  split_head "_" (path_stem name).

Definition _load_existing_files (listing : list dir_entry)
    (downloaded : gset pykey) : gset pykey :=
  foldl (fun acc file =>
           if entry_is_file file
           then acc ∪ {[ KStr (recovered_id (entry_name file)) ]}
           else acc)
        downloaded listing.

(** [self.downloaded] as [__init__] leaves it. *)
Definition init_downloaded (cfg : ScraperConfig) (listing : list dir_entry)
  : gset pykey :=
  if cfg_skip_existing cfg then _load_existing_files listing ∅ else ∅.

End Dedup.

(** ** The download phase: [_download_image] and [download_all]

    The output directory is a finite map from file name to content.  The
    asset server answers each URL either by an error ([urlopen] raises: no
    connection, timeout, a status that is not 2xx) or by headers and a body
    whose reading may itself fail.  [can_stat] tells whether the file
    system accepts the path of a file that is not there: for a path it
    refuses (a name longer than it allows, a directory that may not be
    searched) [filepath.exists()] raises [OSError] instead of returning
    [False].  [can_open] tells whether [open(filepath, 'wb')] succeeds. *)

Inductive read_result : Type :=
| ReadOk (body : list Byte.byte)
| ReadError.

Inductive download_response : Type :=
| DlError
| DlOpened (content_type : option string) (body : read_result).

Record download_env : Type := {
  serve : string -> download_response;
  can_stat : string -> bool;
  can_open : string -> bool
}.

Record run_state : Type := {
  downloaded : gset pykey;
  failed : gset pykey;
  stat_downloaded : Z;
  stat_failed : Z
}.

Section Download.

Context `{Lib : PyLib}.

(** Lines 421-425 run outside the [try]: an exception of [post.filename]
    or of [filepath.exists()] leaves the function. *)
Definition _download_image (env : download_env)
    (files : gmap string (list Byte.byte)) (post : RedditPost)
  : res (bool * gmap string (list Byte.byte)) :=
  let* name := filename post in
  if bool_decide (is_Some (files !! name)) then Ret (true, files)
  else if negb (can_stat env name) then Crash
  else
    match serve env (post_url post) with
    | DlError => Ret (false, files)
    | DlOpened content_type body =>
        if negb (startswith (default "" content_type) "image/")
        then Ret (false, files)
        else if negb (can_open env name) then Ret (false, files)
        else match body with
             | ReadError => Ret (false, <[name := []]> files)
             | ReadOk b => Ret (true, <[name := b]> files)
             end
    end.

(** Lines 477-496: what the main thread does with one completed future.
    An exception raised inside the [try], also by [set.add] after the
    counter was incremented, lands in the [except] clause. *)
Definition collect (post : RedditPost) (outcome : res bool) (rs : run_state)
  : run_state :=
  match outcome with
  | Ret true =>
      let rs1 := {| downloaded := downloaded rs; failed := failed rs;
                    stat_downloaded := stat_downloaded rs + 1;
                    stat_failed := stat_failed rs |} in
      match py_hash_key (post_id post) with
      | Ret k => {| downloaded := downloaded rs1 ∪ {[ k ]};
                    failed := failed rs1;
                    stat_downloaded := stat_downloaded rs1;
                    stat_failed := stat_failed rs1 |}
      | Crash => {| downloaded := downloaded rs1; failed := failed rs1;
                    stat_downloaded := stat_downloaded rs1;
                    stat_failed := stat_failed rs1 + 1 |}
      end
  | Ret false =>
      let rs1 := {| downloaded := downloaded rs; failed := failed rs;
                    stat_downloaded := stat_downloaded rs;
                    stat_failed := stat_failed rs + 1 |} in
      match py_hash_key (post_id post) with
      | Ret k => {| downloaded := downloaded rs1;
                    failed := failed rs1 ∪ {[ k ]};
                    stat_downloaded := stat_downloaded rs1;
                    stat_failed := stat_failed rs1 |}
      | Crash => {| downloaded := downloaded rs1; failed := failed rs1;
                    stat_downloaded := stat_downloaded rs1;
                    stat_failed := stat_failed rs1 + 1 |}
      end
  | Crash =>
      {| downloaded := downloaded rs; failed := failed rs;
         stat_downloaded := stat_downloaded rs;
         stat_failed := stat_failed rs + 1 |}
  end.

(** The thread pool.  Every submitted task is pending until a worker runs
    it; it then waits as a completed future until the main thread collects
    it.  A worker's call of [_download_image] is taken as one step; which
    pending task runs next and which completed future [as_completed]
    yields next is not determined. *)
Record pool : Type := {
  pending : list RedditPost;
  completed : list (RedditPost * res bool);
  files : gmap string (list Byte.byte);
  state : run_state
}.

Definition run_task (env : download_env)
    (files : gmap string (list Byte.byte)) (post : RedditPost)
  : res bool * gmap string (list Byte.byte) :=
  match _download_image env files post with
  | Ret (ok, files') => (Ret ok, files')
  | Crash => (Crash, files)
  end.

Inductive pool_step (env : download_env) : pool -> pool -> Prop :=
| step_run before post after done fs rs :
    pool_step env
      {| pending := before ++ post :: after; completed := done;
         files := fs; state := rs |}
      {| pending := before ++ after;
         completed := done ++ [(post, fst (run_task env fs post))];
         files := snd (run_task env fs post); state := rs |}
| step_collect todo before post outcome after fs rs :
    pool_step env
      {| pending := todo; completed := before ++ (post, outcome) :: after;
         files := fs; state := rs |}
      {| pending := todo; completed := before ++ after;
         files := fs; state := collect post outcome rs |}.

(** [download_all posts] takes the directory and the run state from
    [(fs, rs)] to [(fs', rs')] along some schedule.  With no post the
    function returns at once, which is the empty schedule. *)
Definition download_all (env : download_env) (posts : list RedditPost)
    (fs : gmap string (list Byte.byte)) (rs : run_state)
    (fs' : gmap string (list Byte.byte)) (rs' : run_state) : Prop :=
  rtc (pool_step env)
    {| pending := posts; completed := []; files := fs; state := rs |}
    {| pending := []; completed := []; files := fs'; state := rs' |}.

(** The schedule of a pool with one worker whose futures are collected as
    soon as they complete: an executable instance. *)
Fixpoint download_all_seq (env : download_env) (posts : list RedditPost)
    (fs : gmap string (list Byte.byte)) (rs : run_state)
  : gmap string (list Byte.byte) * run_state :=
  match posts with
  | [] => (fs, rs)
  | post :: rest =>
      let '(outcome, fs') := run_task env fs post in
      download_all_seq env rest fs' (collect post outcome rs)
  end.

End Download.

(** ** [run] and [print_summary]

    [__init__] starts with all counters at zero, the dedup set seeded from
    the directory listing and no failure recorded.  [run] fetches, then
    downloads, then prints the four counters.  An exception of the listing
    phase escapes [run]; the download phase raises none. *)

Record summary : Type := {
  sum_found : Z;
  sum_downloaded : Z;
  sum_skipped : Z;
  sum_failed : Z
}.

Section Run.

Context `{Lib : PyLib}.

Definition init_state (cfg : ScraperConfig) (listing : list dir_entry)
  : run_state :=
  {| downloaded := init_downloaded cfg listing; failed := ∅;
     stat_downloaded := 0; stat_failed := 0 |}.

(** [run] relates the directory listing seen by [__init__], the answers of
    the listing server, the asset server and the directory to what
    [print_summary] shows and to the directory at the end. *)
Definition run (cfg : ScraperConfig) (listing : list dir_entry)
    (script : list response) (env : download_env)
    (fs : gmap string (list Byte.byte))
    (outcome : res (summary * gmap string (list Byte.byte))) : Prop :=
  exists r,
    fetch_posts cfg (init_downloaded cfg listing) script = Some r
    /\ match final r with
       | Crash => outcome = Crash
       | Ret st =>
           exists fs' rs',
             download_all env (posts st) fs (init_state cfg listing) fs' rs'
             /\ outcome
                = Ret ({| sum_found := Z.of_nat (length (posts st));
                          sum_downloaded := stat_downloaded rs';
                          sum_skipped := skipped st;
                          sum_failed := stat_failed rs' |}, fs')
       end.

End Run.

(** ** [main]: from the parsed arguments to the configuration

    [argparse] delivers the arguments; [main] copies them, removes every
    [r/] from the subreddit name and negates the two switches.  [delay] is
    not an argument and keeps its dataclass default. *)

(** [s.replace(old, new)] for a non-empty [old]: occurrences are replaced
    left to right without overlap; [skip] counts the characters of an
    occurrence still to be dropped. *)
Fixpoint replace_from (old new : string) (skip : nat) (s : string) : string :=
  match s with
  | EmptyString => EmptyString
  | String c s' =>
      match skip with
      | S k => replace_from old new k s'
      | O => if prefixb old s
             then new +:+ replace_from old new (String.length old - 1) s'
             else String c (replace_from old new 0 s')
      end
  end.

Definition py_replace (old new s : string) : string := replace_from old new 0 s.

Record cli_args : Type := {
  arg_subreddit : string;
  arg_output : string;
  arg_limit : Z;
  arg_sort : string;
  arg_time : string;
  arg_min_score : Z;
  arg_min_width : Z;
  arg_min_height : Z;
  arg_nsfw : bool;
  arg_no_skip : bool;
  arg_workers : Z;
  arg_quiet : bool
}.

Definition config_of_args (args : cli_args) : ScraperConfig :=
  {| cfg_subreddit := py_replace "r/" "" (arg_subreddit args);
     cfg_output_dir := arg_output args;
     cfg_limit := arg_limit args;
     cfg_sort := arg_sort args;
     cfg_time_filter := arg_time args;
     cfg_min_width := arg_min_width args;
     cfg_min_height := arg_min_height args;
     cfg_min_score := arg_min_score args;
     cfg_include_nsfw := arg_nsfw args;
     cfg_max_workers := arg_workers args;
     cfg_delay := 1 # 2;
     cfg_skip_existing := negb (arg_no_skip args);
     cfg_verbose := negb (arg_quiet args) |}.

(** ** A reference instance of the library interface

    It implements the documented behaviour on the inputs the examples
    use: URLs of the form [scheme://netloc/path?query#fragment] (no
    parameters, no bracketed hosts, so it never raises), the stem of a
    file name as the text before its last dot when that dot is neither the
    first nor the last character, and [str()] of [None], booleans and
    integers; containers are printed without escaping their strings.  The
    two depths are those of CPython 3.11 with its default recursion limit
    when the file is run as a program: the request still leaves at
    nesting 975, where a 429 is still handled but a page is not read any
    more. *)

Definition is_scheme_char (c : ascii) : bool :=
  let n := nat_of_ascii c in
  ((97 <=? n)%nat && (n <=? 122)%nat) || ((65 <=? n)%nat && (n <=? 90)%nat)
  || ((48 <=? n)%nat && (n <=? 57)%nat)
  || existsb (Ascii.eqb c) ["+"; "-"; "."]%char.

Definition is_alpha (c : ascii) : bool :=
  let n := nat_of_ascii c in
  ((97 <=? n)%nat && (n <=? 122)%nat) || ((65 <=? n)%nat && (n <=? 90)%nat).

(** The text before the first character satisfying [stop], and the rest
    starting at that character. *)
Fixpoint break_at (stop : ascii -> bool) (s : string) : string * string :=
  match s with
  | EmptyString => (EmptyString, EmptyString)
  | String c s' =>
      if stop c then (EmptyString, s)
      else let '(a, b) := break_at stop s' in (String c a, b)
  end.

Fixpoint all_chars (ok : ascii -> bool) (s : string) : bool :=
  match s with
  | EmptyString => true
  | String c s' => ok c && all_chars ok s'
  end.

Definition drop_scheme (url : string) : string :=
  match break_at (Ascii.eqb ":") url with
  | (String c pre, String _ rest) =>
      if is_alpha c && all_chars is_scheme_char pre then rest else url
  | _ => url
  end.

Definition urlparse_ref (url : string) : res url_parts :=
  let rest := drop_scheme url in
  let '(host, rest') :=
    match rest with
    | String "/" (String "/" r) =>
        break_at (fun c => existsb (Ascii.eqb c) ["/"; "?"; "#"]%char) r
    | _ => (EmptyString, rest)
    end in
  let '(p, _) :=
    break_at (fun c => existsb (Ascii.eqb c) ["?"; "#"]%char) rest' in
  Ret {| netloc := host; path := p |}.

(** Position of the last dot, counting from [i]. *)
Fixpoint rfind_dot (s : string) (i : nat) : option nat :=
  match s with
  | EmptyString => None
  | String c s' =>
      match rfind_dot s' (S i) with
      | Some j => Some j
      | None => if Ascii.eqb c "." then Some i else None
      end
  end.

Definition path_stem_ref (name : string) : string :=
  match rfind_dot name 0 with
  | Some i =>
      if (0 <? i)%nat && (i <? String.length name - 1)%nat
      then take_str i name else name
  | None => name
  end.

Fixpoint join_with (sep : string) (l : list string) : string :=
  match l with
  | [] => EmptyString
  | [x] => x
  | x :: rest => x +:+ sep +:+ join_with sep rest
  end.

Definition quoted (s : string) : string := "'" +:+ s +:+ "'".

Fixpoint py_repr (v : json) : string :=
  match v with
  | JNull => "None"
  | JBool b => if b then "True" else "False"
  | JInt n => DecimalString.NilZero.string_of_int (Z.to_int n)
  | JStr s => quoted s
  | JList l => "[" +:+ join_with ", " (map py_repr l) +:+ "]"
  | JDict d =>
      "{" +:+ join_with ", "
                (map (fun kv => quoted (fst kv) +:+ ": " +:+ py_repr (snd kv)) d)
          +:+ "}"
  end.

Definition reference_lib : PyLib :=
  {| urlparse := urlparse_ref;
     path_stem := path_stem_ref;
     py_str := py_repr;
     send_depth := 975%nat;
     handle_depth := fun r => match r with
                              | RespHTTPError _ => 975%nat
                              | _ => 974%nat
                              end |}.

(** ** Data used by the examples *)

(** [ScraperConfig(subreddit)] with the dataclass defaults. *)
Definition default_config (name : string) : ScraperConfig :=
  {| cfg_subreddit := name; cfg_output_dir := "downloads"; cfg_limit := 25;
     cfg_sort := "hot"; cfg_time_filter := "week"; cfg_min_width := 0;
     cfg_min_height := 0; cfg_min_score := 0; cfg_include_nsfw := false;
     cfg_max_workers := 5; cfg_delay := 1 # 2; cfg_skip_existing := true;
     cfg_verbose := true |}.

Definition with_limit (cfg : ScraperConfig) (n : Z) : ScraperConfig :=
  {| cfg_subreddit := cfg_subreddit cfg; cfg_output_dir := cfg_output_dir cfg;
     cfg_limit := n; cfg_sort := cfg_sort cfg;
     cfg_time_filter := cfg_time_filter cfg;
     cfg_min_width := cfg_min_width cfg; cfg_min_height := cfg_min_height cfg;
     cfg_min_score := cfg_min_score cfg;
     cfg_include_nsfw := cfg_include_nsfw cfg;
     cfg_max_workers := cfg_max_workers cfg; cfg_delay := cfg_delay cfg;
     cfg_skip_existing := cfg_skip_existing cfg;
     cfg_verbose := cfg_verbose cfg |}.

Definition with_min_score (cfg : ScraperConfig) (m : Z) : ScraperConfig :=
  {| cfg_subreddit := cfg_subreddit cfg; cfg_output_dir := cfg_output_dir cfg;
     cfg_limit := cfg_limit cfg; cfg_sort := cfg_sort cfg;
     cfg_time_filter := cfg_time_filter cfg;
     cfg_min_width := cfg_min_width cfg; cfg_min_height := cfg_min_height cfg;
     cfg_min_score := m;
     cfg_include_nsfw := cfg_include_nsfw cfg;
     cfg_max_workers := cfg_max_workers cfg; cfg_delay := cfg_delay cfg;
     cfg_skip_existing := cfg_skip_existing cfg;
     cfg_verbose := cfg_verbose cfg |}.

(** A listing page and a link entry as the endpoint serves them. *)
Definition listing_page (children : list json) (after : json) : json :=
  JDict [("kind", JStr "Listing");
         ("data", JDict [("after", after); ("children", JList children)])].

Definition link_entry (id title url : string) : json :=
  JDict [("kind", JStr "t3");
         ("data", JDict [("id", JStr id); ("title", JStr title);
                         ("url", JStr url); ("is_self", JBool false);
                         ("is_video", JBool false); ("over_18", JBool false);
                         ("score", JInt 10)])].

Definition image_post (id title url : string) : RedditPost :=
  {| post_id := JStr id; post_title := JStr title;
     post_author := JStr "unknown"; post_subreddit := JStr "pics";
     post_url := url; post_permalink := JStr ""; post_score := JInt 10;
     post_created_utc := JInt 0; post_is_nsfw := JBool false;
     post_width := JInt 0; post_height := JInt 0 |}.

(** * Vocabulary of the statements *)

(** The events of a trace that are requests. *)
Fixpoint requests (tr : list event) : list query :=
  match tr with
  | [] => []
  | EvRequest q :: tr' => q :: requests tr'
  | EvSleep _ :: tr' => requests tr'
  end.

(** What [_make_request] returns for an answer that is not a 429. *)
Definition body_of (r : response) : json :=
  match r with
  | Resp200 body => body
  | _ => JNull
  end.

Definition rate_limited (r : response) : bool :=
  match r with
  | RespHTTPError code => code =? 429
  | _ => false
  end.

(** A page of the listing: its entries and its continuation cursor. *)
Definition page : Type := (list json * json)%type.

Definition page_response (pg : page) : response :=
  Resp200 (listing_page (fst pg) (snd pg)).

#[global] Instance res_eq_dec {A} `{EqDecision A} : EqDecision (res A).
Proof. solve_decision. Defined.

(** The result and the final locals of a run that is known to end
    normally. *)
Definition result_of (o : option fetch_result) : fetch_result :=
  match o with
  | Some r => r
  | None => {| final := Crash; script_left := []; trace := [] |}
  end.

Definition state_of (r : fetch_result) : fetch_state :=
  match final r with
  | Ret st => st
  | Crash => {| posts := []; fetched := 0; skipped := 0 |}
  end.

(** No two requests follow each other without a pause. *)
Fixpoint polite (tr : list event) : bool :=
  match tr with
  | [] => true
  | EvRequest _ :: rest =>
      match rest with
      | EvRequest _ :: _ => false
      | _ => polite rest
      end
  | EvSleep _ :: rest => polite rest
  end.

(** Every pause has its reason and its length.  The requests of a trace
    are answered by the script in order; a request answered with 429 is
    followed by 60 seconds, a request answered otherwise by [delay],
    before the next request leaves; a trace starts with a request and has
    no other pause. *)
Fixpoint paced (delay : Q) (script : list response) (tr : list event)
    {struct tr} : Prop :=
  match tr with
  | [] => True
  | EvSleep _ :: _ => False
  | EvRequest _ :: rest =>
      match rest with
      | [] => True
      | EvRequest _ :: _ => False
      | EvSleep s :: rest' =>
          match script with
          | [] => False
          | r :: script' =>
              s = (if rate_limited r then 60%Q else delay)
              /\ paced delay script' rest'
          end
      end
  end.

Definition ends_with_request (tr : list event) : bool :=
  match List.last tr (EvSleep 0) with
  | EvRequest _ => true
  | EvSleep _ => false
  end.

Definition starts_with_request (tr : list event) : bool :=
  match tr with
  | EvRequest _ :: _ => true
  | _ => false
  end.

Section Vocabulary.

Context `{Lib : PyLib}.

(** The identifiers recovered from the regular files of a listing. *)
Definition recovered_ids (listing : list dir_entry) : list string :=
  map (fun f => recovered_id (entry_name f)) (List.filter entry_is_file listing).

(** An entry qualifies when it parses to a post whose identifier is not
    in the dedup index. *)
Definition qualifies (cfg : ScraperConfig) (downloaded : gset pykey)
    (child : json) : res (option RedditPost) :=
  let* post := _parse_post cfg child in
  match post with
  | Some p =>
      let* k := py_hash_key (post_id p) in
      if bool_decide (k ∈ downloaded) then Ret None else Ret (Some p)
  | None => Ret None
  end.

Definition kept (cfg : ScraperConfig) (downloaded : gset pykey)
    (child : json) : option RedditPost :=
  match qualifies cfg downloaded child with
  | Ret o => o
  | Crash => None
  end.

(** The qualifying entries of a list, in their order. *)
Definition qualifying (cfg : ScraperConfig) (downloaded : gset pykey)
    (children : list json) : list RedditPost :=
  omap (kept cfg downloaded) children.

(** The trace of a stretch of pages each followed by the politeness
    delay. *)
Fixpoint pages_trace (cfg : ScraperConfig) (after : json) (pages : list page)
  : list event :=
  match pages with
  | [] => []
  | pg :: rest =>
      EvRequest (_build_url cfg after) :: EvSleep (cfg_delay cfg)
      :: pages_trace cfg (snd pg) rest
  end.

(** The cursor in force after a stretch of pages. *)
Definition last_cursor (after : json) (pages : list page) : json :=
  List.last (map snd pages) after.

Definition entries (pages : list page) : list json := concat (map fst pages).

(** A page after which the loop goes on when the target is not reached:
    it has entries and a cursor. *)
Definition continues (pg : page) : Prop :=
  fst pg <> [] /\ truthy (snd pg) = true.

(** The tasks of [order] run one after the other. *)
Fixpoint exec_seq (env : download_env) (order : list RedditPost)
    (fs : gmap string (list Byte.byte))
  : list (RedditPost * res bool) * gmap string (list Byte.byte) :=
  match order with
  | [] => ([], fs)
  | post :: rest =>
      let '(outcome, fs1) := run_task env fs post in
      let '(outcomes, fs2) := exec_seq env rest fs1 in
      ((post, outcome) :: outcomes, fs2)
  end.

(** The futures of [done] collected one after the other. *)
Definition collect_all (done : list (RedditPost * res bool)) (rs : run_state)
  : run_state :=
  foldl (fun acc pr => collect (fst pr) (snd pr) acc) rs done.

(** What holds of a pool reached from the submission of [posts]: the
    tasks run so far ran in some order, and the futures collected so far
    were collected in some order. *)
Definition linearised (env : download_env) (posts : list RedditPost)
    (fs0 : gmap string (list Byte.byte)) (rs0 : run_state) (pl : pool) : Prop :=
  exists order collected,
    posts ≡ₚ pending pl ++ order
    /\ (exec_seq env order fs0).2 = files pl
    /\ (exec_seq env order fs0).1 ≡ₚ completed pl ++ collected
    /\ state pl = collect_all collected rs0.

(** What the transfer does when the target is not there yet: the verdict
    and the content written, if the file was opened. *)
Definition transfer (env : download_env) (name url : string)
  : bool * option (list Byte.byte) :=
  match serve env url with
  | DlError => (false, None)
  | DlOpened content_type body =>
      if negb (startswith (default "" content_type) "image/") then (false, None)
      else if negb (can_open env name) then (false, None)
      else match body with
           | ReadError => (false, Some [])
           | ReadOk b => (true, Some b)
           end
  end.

Definition written (name : string) (w : option (list Byte.byte))
    (fs : gmap string (list Byte.byte)) : gmap string (list Byte.byte) :=
  match w with
  | Some content => <[name := content]> fs
  | None => fs
  end.

(** The answer to the request of [p] has a content type that does not
    begin with [image/]. *)
Definition wrong_type (env : download_env) (p : RedditPost) : bool :=
  match serve env (post_url p) with
  | DlOpened content_type _ =>
      negb (startswith (default "" content_type) "image/")
  | DlError => false
  end.


(** The target of [p] is in the directory. *)
Definition pre_exists (fs : gmap string (list Byte.byte)) (p : RedditPost)
  : bool :=
  match filename p with
  | Ret name => bool_decide (is_Some (fs !! name))
  | Crash => false
  end.

(** The outcome of a task counts as a success. *)
Definition succeeded (pr : RedditPost * res bool) : Prop := pr.2 = Ret true.

#[global] Instance succeeded_dec pr : Decision (succeeded pr).
Proof. unfold succeeded. apply _. Defined.

Definition hashable (p : RedditPost) : Prop :=
  py_hash_key (post_id p) <> Crash.

End Vocabulary.

(** * Data of the examples *)

Definition filename_example_post : RedditPost :=
  image_post "abc" "A <b>: c/d   " "https://i.redd.it/x.PNG?s=1".


Definition entry_without_flags : json :=
  JDict [("kind", JStr "t3");
         ("data", JDict [("id", JStr "abc"); ("title", JStr "No flags");
                         ("url", JStr "https://i.redd.it/x.png")])].

Definition imgur_mobile_entry : json :=
  JDict [("url", JStr "https://m.imgur.com/abc123")].

(** A link whose path, not its host, mentions imgur. *)
Definition foreign_host_entry : json :=
  JDict [("url", JStr "https://example.com/imgur.com/pic")].

(** A file whose last dot comes before its first underscore. *)
Definition dotted_listing : list dir_entry :=
  [{| entry_name := "v1.0_final"; entry_is_file := true |}].

Definition config_five : ScraperConfig := with_limit (default_config "pics") 5.

Definition page_one : page :=
  ([link_entry "a1" "First" "https://i.redd.it/1.png";
    link_entry "a2" "Second" "https://i.redd.it/2.png";
    link_entry "a3" "Third" "https://i.redd.it/3.png"], JStr "t3_a3").

Definition page_two : page :=
  ([link_entry "b1" "Fourth" "https://i.redd.it/4.png";
    link_entry "b2" "Fifth" "https://i.redd.it/5.png";
    link_entry "b3" "Sixth" "https://i.redd.it/6.png"], JNull).

Definition page_three : page :=
  ([link_entry "c1" "Seventh" "https://i.redd.it/7.png"], JNull).

Definition png_body : list Byte.byte := [Byte.x89; Byte.x50; Byte.x4e; Byte.x47].
Definition html_body : list Byte.byte := [Byte.x3c; Byte.x68; Byte.x74; Byte.x6d].

Definition five_posts : list RedditPost :=
  [image_post "p1" "One" "https://i.redd.it/1.png";
   image_post "p2" "Two" "https://i.redd.it/2.png";
   image_post "p3" "Three" "https://i.redd.it/3.png";
   image_post "p4" "Four" "https://i.redd.it/4.png";
   image_post "p5" "Five" "https://i.redd.it/5.png"].

Definition five_env : download_env :=
  {| serve := fun url =>
       if String.eqb url "https://i.redd.it/3.png"
       then DlOpened (Some "text/html") (ReadOk html_body)
       else DlOpened (Some "image/png") (ReadOk png_body);
     can_stat := fun _ => true;
     can_open := fun _ => true |}.

Definition fresh_state : run_state :=
  {| downloaded := ∅; failed := ∅; stat_downloaded := 0; stat_failed := 0 |}.

(** The run of the five candidates with one worker. *)
Definition five_run : gmap string (list Byte.byte) * run_state :=
  download_all_seq (Lib := reference_lib) five_env five_posts ∅ fresh_state.



(** Two candidates with the same file name, the first answered with an
    image and the second with an HTML page. *)
Definition same_target_posts : list RedditPost :=
  [image_post "p3" "Three" "https://i.redd.it/4.png";
   image_post "p3" "Three" "https://i.redd.it/3.png"].

(** A file system that refuses names of more than 255 characters. *)
Definition short_names_env : download_env :=
  {| serve := fun _ => DlOpened (Some "image/png") (ReadOk png_body);
     can_stat := fun name => (String.length name <=? 255)%nat;
     can_open := fun _ => true |}.

(** A post whose identifier has 300 characters. *)
Definition long_id_post : RedditPost :=
  image_post (string_of_list_ascii (repeat "a"%char 300)) "Long"
    "https://i.redd.it/1.png".

(** A server whose image bodies cannot be read to the end. *)
Definition broken_transfer_env : download_env :=
  {| serve := fun _ => DlOpened (Some "image/png") ReadError;
     can_stat := fun _ => true;
     can_open := fun _ => true |}.

(** A directory that already holds the file of the first candidate. *)
Definition directory_with_first : gmap string (list Byte.byte) :=
  {[ "p1_One.png" := png_body ]}.

(** An entry with a score and a preview that gives its dimensions. *)
Definition sized_entry : json :=
  JDict [("kind", JStr "t3");
         ("data",
          JDict [("id", JStr "s1"); ("title", JStr "Sized");
                 ("url", JStr "https://i.redd.it/s1.jpg");
                 ("is_self", JBool false); ("is_video", JBool false);
                 ("over_18", JBool false); ("score", JInt 250);
                 ("preview",
                  JDict [("images",
                          JList [JDict [("source",
                            JDict [("url", JStr "https://preview.redd.it/s1.jpg");
                                   ("width", JInt 1920);
                                   ("height", JInt 1080)])]])])])].

Definition sized_post : RedditPost :=
  {| post_id := JStr "s1"; post_title := JStr "Sized";
     post_author := JStr "unknown"; post_subreddit := JStr "pics";
     post_url := "https://i.redd.it/s1.jpg"; post_permalink := JStr "";
     post_score := JInt 250; post_created_utc := JInt 0;
     post_is_nsfw := JBool false; post_width := JInt 1920;
     post_height := JInt 1080 |}.

(** A configuration with minimum score 100 and minimum size 1280x720. *)
Definition strict_config : ScraperConfig :=
  {| cfg_subreddit := "pics"; cfg_output_dir := "downloads"; cfg_limit := 25;
     cfg_sort := "hot"; cfg_time_filter := "week"; cfg_min_width := 1280;
     cfg_min_height := 720; cfg_min_score := 100; cfg_include_nsfw := false;
     cfg_max_workers := 5; cfg_delay := 1 # 2; cfg_skip_existing := true;
     cfg_verbose := true |}.

(** The run over the two pages, and the same run when the second entry
    is already on disk. *)
Definition two_pages_run : fetch_result :=
  result_of (fetch_posts (Lib := reference_lib) config_five ∅
               [page_response page_one; page_response page_two]).

Definition seeded_listing : list dir_entry :=
  [{| entry_name := "a2_Second.png"; entry_is_file := true |}].

Definition seeded_run : fetch_result :=
  result_of (fetch_posts (Lib := reference_lib) config_five
               (init_downloaded (Lib := reference_lib) config_five
                  seeded_listing)
               [page_response page_one; page_response page_two]).

(** A run that is told 429 once before it gets its two pages. *)
Definition limited_script : list response :=
  [RespHTTPError 429; page_response page_one; page_response page_two].

Definition limited_run : fetch_result :=
  result_of (fetch_posts (Lib := reference_lib) config_five ∅ limited_script).

(** A link entry whose [url] is [null]. *)
Definition null_url_entry : json :=
  JDict [("kind", JStr "t3");
         ("data", JDict [("id", JStr "n1"); ("title", JStr "No link");
                         ("url", JNull); ("is_self", JBool false);
                         ("is_video", JBool false); ("over_18", JBool false);
                         ("score", JInt 10)])].

(** The directory after an interrupted transfer of the first candidate. *)
Definition directory_with_empty_first : gmap string (list Byte.byte) :=
  {[ "p1_One.png" := [] ]}.

(** A whole run: the two pages of the listing, then the download of the
    five posts found, of which the third is answered with an HTML page. *)
Definition example_run_posts : list RedditPost := posts (state_of two_pages_run).

Definition example_run_end : gmap string (list Byte.byte) * run_state :=
  download_all_seq (Lib := reference_lib) five_env example_run_posts ∅
    (init_state (Lib := reference_lib) config_five []).

Definition example_run_summary : summary :=
  {| sum_found := Z.of_nat (length example_run_posts);
     sum_downloaded := stat_downloaded example_run_end.2;
     sum_skipped := skipped (state_of two_pages_run);
     sum_failed := stat_failed example_run_end.2 |}.

Definition example_args : cli_args :=
  {| arg_subreddit := "r/wallpapers"; arg_output := "downloads";
     arg_limit := 50; arg_sort := "top"; arg_time := "all";
     arg_min_score := 0; arg_min_width := 0; arg_min_height := 0;
     arg_nsfw := false; arg_no_skip := false; arg_workers := 5;
     arg_quiet := false |}.

(** * Properties *)

(** ** Strings *)

Example unescape_amp_ex : unescape_amp "a&amp;b&amp;amp;c" = "a&b&amp;c".
Proof. reflexivity. Qed.

Example strip_ex : strip "  a b  " = "a b".
Proof. reflexivity. Qed.

Example lower_ex : lower "/X.JPG" = "/x.jpg".
Proof. reflexivity. Qed.

Example split_head_ex : split_head "_" "abc_de_f" = "abc".
Proof. reflexivity. Qed.












(** ** [RedditPost.filename] *)

Section FilenameProps.

Context `{Lib : PyLib}.




Lemma find_extension_in p e :
  find (endswith p) FILE_EXTENSIONS = Some e -> In e FILE_EXTENSIONS.
Proof. intros F. apply find_some in F. tauto. Qed.


End FilenameProps.


(** ** [_parse_post]: the content flags *)

(** Case analysis on the next test of a run that ended in a known way. *)
Ltac step_in H :=
  match type of H with
  | context [rbind ?m _] =>
      let E := fresh "E" in
      destruct m eqn:E; cbn [rbind] in H; try discriminate H
  | context [if ?b then _ else _] =>
      let E := fresh "E" in
      destruct b eqn:E; try discriminate H
  | context [match ?x with _ => _ end] =>
      let E := fresh "E" in
      destruct x eqn:E; try discriminate H
  end.

Section ParseProps.

Context `{Lib : PyLib}.

Lemma py_get_lacks obj k default :
  lacks obj k -> py_get obj k default = Ret default.
Proof. destruct obj; cbn; try tauto. intros ->. reflexivity. Qed.

Lemma lacks_dict obj k : lacks obj k -> exists d, obj = JDict d.
Proof. destruct obj; cbn; try tauto. eauto. Qed.

(** C5.  A field [is_self], [is_video] or [over_18] missing from the
    entry's record reads as [True].  An entry lacking [is_self] or
    [is_video] is not turned into a post; an entry lacking [over_18] is
    not turned into a post unless [include_nsfw] is set, and the post it
    then gives is flagged as sensitive. *)
Theorem parse_post_missing_flags (cfg : ScraperConfig) (entry data : json) :
  py_get entry "data" (JDict []) = Ret data ->
  (lacks data "is_self" -> py_get data "is_self" (JBool true) = Ret (JBool true)
                           /\ _parse_post cfg entry = Ret None) /\
  (lacks data "is_video" -> py_get data "is_video" (JBool true) = Ret (JBool true)
                            /\ _parse_post cfg entry = Ret None) /\
  (lacks data "over_18" ->
     py_get data "over_18" (JBool true) = Ret (JBool true) /\
     (cfg_include_nsfw cfg = false -> _parse_post cfg entry = Ret None) /\
     (forall p, _parse_post cfg entry = Ret (Some p) ->
                cfg_include_nsfw cfg = true /\ post_is_nsfw p = JBool true)).
Proof.
  intros Hdata. unfold _parse_post. rewrite Hdata. cbn [rbind].
  split; [|split].
  - intros L. rewrite (py_get_lacks _ _ _ L). cbn. auto.
  - intros L. rewrite (py_get_lacks _ _ _ L).
    destruct (lacks_dict _ _ L) as [d ->]. cbn.
    split; [reflexivity|]. destruct (truthy _); reflexivity.
  - intros L. split; [exact (py_get_lacks _ _ _ L)|]. split.
    + intros ->. rewrite (py_get_lacks _ _ _ L).
      destruct (lacks_dict _ _ L) as [d ->]. cbn.
      repeat (destruct (truthy _); try reflexivity).
    + intros p Hp.
      destruct (cfg_include_nsfw cfg); cbn [negb] in Hp.
      * split; [reflexivity|].
        repeat step_in Hp.
        injection Hp as <-. cbn [post_is_nsfw].
        match goal with
        | G : py_get data "over_18" _ = Ret _ |- _ =>
            rewrite (py_get_lacks _ _ _ L) in G; injection G as <-
        end.
        reflexivity.
      * exfalso.
        destruct (py_get data "is_self" (JBool true)); cbn [rbind] in Hp;
          [|discriminate Hp].
        destruct (truthy _); [discriminate Hp|].
        destruct (py_get data "is_video" (JBool true)); cbn [rbind] in Hp;
          [|discriminate Hp].
        destruct (truthy _); [discriminate Hp|].
        rewrite (py_get_lacks _ _ _ L) in Hp. cbn in Hp. discriminate Hp.
Qed.

End ParseProps.

Lemma parse_post_missing_flags_witness :
  _parse_post (Lib := reference_lib) (default_config "pics") entry_without_flags
  = Ret None.
Proof.
  refine (proj2 (proj1 (parse_post_missing_flags (Lib := reference_lib)
            (default_config "pics") entry_without_flags
            (JDict [("id", JStr "abc"); ("title", JStr "No flags");
                    ("url", JStr "https://i.redd.it/x.png")]) _) _)).
  - reflexivity.
  - reflexivity.
Defined.

(** With the other two flags present and [include_nsfw] set, an entry
    without [over_18] does give a post, flagged as sensitive. *)
Example parse_post_missing_over_18 :
  exists p,
    _parse_post (Lib := reference_lib)
      {| cfg_subreddit := "pics"; cfg_output_dir := "downloads";
         cfg_limit := 25; cfg_sort := "hot"; cfg_time_filter := "week";
         cfg_min_width := 0; cfg_min_height := 0; cfg_min_score := 0;
         cfg_include_nsfw := true; cfg_max_workers := 5;
         cfg_delay := 1 # 2; cfg_skip_existing := true;
         cfg_verbose := true |}
      (JDict [("data", JDict [("id", JStr "abc"); ("is_self", JBool false);
                              ("is_video", JBool false);
                              ("url", JStr "https://i.redd.it/x.png")])])
    = Ret (Some p) /\ post_is_nsfw p = JBool true.
Proof. eexists. split; vm_compute; reflexivity. Qed.

(** ** [_is_image_url] and [_extract_image_url] *)

Section ResolverProps.

Context `{Lib : PyLib}.

Lemma existsb_eqb_In (x : string) (l : list string) :
  In x l -> existsb (String.eqb x) l = true.
Proof.
  intros Hin. apply existsb_exists. exists x. split; [exact Hin|].
  apply String.eqb_refl.
Qed.

(** A non-empty URL whose host is in the allow-list, or whose lower-cased
    path ends in an image extension, is an image URL. *)
Lemma is_image_url_direct (u : string) (parts : url_parts) :
  u <> "" ->
  urlparse u = Ret parts ->
  In (netloc parts) IMAGE_DOMAINS \/
  (exists e, In e IMAGE_EXTENSIONS /\ endswith (lower (path parts)) e = true) ->
  _is_image_url (JStr u) = Ret true.
Proof.
  intros Hne Hparse Hmatch. unfold _is_image_url. cbn [truthy].
  destruct (String.eqb_spec u ""); [contradiction|]. cbn [negb].
  rewrite Hparse. cbn [rbind].
  destruct (existsb (String.eqb (netloc parts)) IMAGE_DOMAINS) eqn:D;
    [reflexivity|].
  destruct Hmatch as [Hin|(e & Hin & He)].
  - rewrite (existsb_eqb_In _ _ Hin) in D. discriminate.
  - f_equal. apply existsb_exists. eauto.
Qed.

(** C4, as the code has it.  The strategies are tried in the order direct
    image URL, first gallery item, rendered preview, [.jpg] guess, and the
    first that yields decides.  A direct URL whose host is in the
    allow-list or whose path ends in an image extension is returned
    unchanged.  The [.jpg] guess looks at the text of the whole URL, not at
    its host: [.jpg] is appended when [imgur.com] occurs in the URL and
    neither [/a/] nor [/gallery/] does.  Otherwise no URL results. *)
Theorem extract_image_url_strategies (post_data url : json) :
  py_get post_data "url" (JStr "") = Ret url ->
  (forall u parts,
      url = JStr u -> u <> "" -> urlparse u = Ret parts ->
      In (netloc parts) IMAGE_DOMAINS \/
      (exists e, In e IMAGE_EXTENSIONS /\
                 endswith (lower (path parts)) e = true) ->
      _extract_image_url post_data = Ret (Some u)) /\
  (_is_image_url url = Ret false ->
   (forall g, gallery_first post_data = Ret (Some g) ->
              _extract_image_url post_data = Ret (Some g)) /\
   (gallery_first post_data = Ret None ->
    (forall p, preview_image post_data = Ret (Some p) ->
               _extract_image_url post_data = Ret (Some p)) /\
    (preview_image post_data = Ret None ->
     forall u, url = JStr u ->
       (contains "imgur.com" u = true -> contains "/a/" u = false ->
        contains "/gallery/" u = false ->
        _extract_image_url post_data = Ret (Some (u +:+ ".jpg"))) /\
       (contains "imgur.com" u = false \/ contains "/a/" u = true \/
        contains "/gallery/" u = true ->
        _extract_image_url post_data = Ret None)))).
Proof.
  intros Hurl. unfold _extract_image_url. rewrite Hurl. cbn [rbind].
  split.
  - intros u parts -> Hne Hparse Hmatch.
    rewrite (is_image_url_direct u parts Hne Hparse Hmatch). reflexivity.
  - intros Himg. rewrite Himg. cbn [rbind]. split.
    + intros g ->. reflexivity.
    + intros ->. cbn [rbind]. split.
      * intros p ->. reflexivity.
      * intros ->. cbn [rbind]. intros u ->. unfold imgur_guess.
        rewrite Himg. cbn [py_in py_add_str rbind negb]. split.
        -- intros -> -> ->. reflexivity.
        -- intros [->|[->| ->]]; cbn; try reflexivity;
             repeat (destruct (contains _ u); cbn; try reflexivity).
Qed.

End ResolverProps.

Lemma extract_image_url_strategies_witness :
  _extract_image_url (Lib := reference_lib) imgur_mobile_entry
  = Ret (Some "https://m.imgur.com/abc123.jpg").
Proof.
  destruct (extract_image_url_strategies (Lib := reference_lib)
              imgur_mobile_entry (JStr "https://m.imgur.com/abc123")
              eq_refl) as [_ Hrest].
  destruct (Hrest eq_refl) as [_ Hgallery].
  destruct (Hgallery eq_refl) as [_ Hpreview].
  destruct (Hpreview eq_refl "https://m.imgur.com/abc123" eq_refl)
    as [Hguess _].
  exact (Hguess eq_refl eq_refl eq_refl).
Defined.

(** The specification places the [.jpg] guess on the host.  The entry
    [foreign_host_entry] has a host that names no image service and is
    not in the allow-list, a path without image extension, no gallery and
    no preview: by the specification it matches no strategy and resolves
    to no URL.  The code resolves it. *)
Lemma extract_image_url_host_counterexample :
  urlparse (PyLib := reference_lib) "https://example.com/imgur.com/pic"
  = Ret {| netloc := "example.com"; path := "/imgur.com/pic" |}
  /\ contains "imgur.com" "example.com" = false
  /\ _is_image_url (Lib := reference_lib)
       (JStr "https://example.com/imgur.com/pic") = Ret false
  /\ gallery_first foreign_host_entry = Ret None
  /\ preview_image foreign_host_entry = Ret None
  /\ _extract_image_url (Lib := reference_lib) foreign_host_entry
     = Ret (Some "https://example.com/imgur.com/pic.jpg")
  /\ _extract_image_url (Lib := reference_lib) foreign_host_entry <> Ret None.
Proof. repeat split; try (vm_compute; reflexivity). vm_compute. discriminate. Qed.

(** The order matters: a gallery entry with a preview resolves to the
    gallery item, and a gallery item without rendition yields the empty
    string although a preview is there. *)
Example gallery_before_preview :
  _extract_image_url (Lib := reference_lib)
    (JDict [("url", JStr "https://www.reddit.com/gallery/xyz");
            ("is_gallery", JBool true);
            ("media_metadata",
             JDict [("m1", JDict [("s", JDict [("u",
                JStr "https://preview.redd.it/m1.jpg?a=1&amp;b=2")])])]);
            ("preview",
             JDict [("images", JList [JDict [("source",
                JDict [("url", JStr "https://external/p.jpg")])]])])])
  = Ret (Some "https://preview.redd.it/m1.jpg?a=1&b=2").
Proof. vm_compute. reflexivity. Qed.

(** ** The dedup index *)

Section DedupProps.

Context `{Lib : PyLib}.

Lemma load_existing_files_union (listing : list dir_entry) (acc : gset pykey) :
  _load_existing_files listing acc
  = acc ∪ list_to_set (KStr <$> recovered_ids listing).
Proof.
  unfold _load_existing_files, recovered_ids. revert acc.
  induction listing as [|f listing IH]; intros acc; cbn [foldl List.filter].
  - cbn. set_solver.
  - rewrite IH. destruct (entry_is_file f); cbn; set_solver.
Qed.

Lemma load_existing_files_elem (listing : list dir_entry) (k : pykey) :
  k ∈ _load_existing_files listing ∅ <->
  exists f, In f listing /\ entry_is_file f = true
            /\ k = KStr (recovered_id (entry_name f)).
Proof.
  rewrite load_existing_files_union, elem_of_union, elem_of_list_to_set,
    list_elem_of_fmap.
  unfold recovered_ids. split.
  - intros [Hk|(id & -> & Hid)]; [set_solver|].
    apply list_elem_of_In, in_map_iff in Hid as (f & <- & Hf).
    apply filter_In in Hf as [Hf Hfile]. eauto.
  - intros (f & Hf & Hfile & ->). right. eexists. split; [reflexivity|].
    apply list_elem_of_In, in_map_iff. exists f. split; [reflexivity|].
    apply filter_In. auto.
Qed.

#[local] Instance KStr_inj : Inj (=) (=) KStr.
Proof. intros a b E. congruence. Qed.

Lemma load_existing_files_size (listing : list dir_entry) :
  size (_load_existing_files listing ∅)
  = length (remove_dups (recovered_ids listing)).
Proof.
  rewrite load_existing_files_union.
  assert (E : (∅ ∪ list_to_set (KStr <$> recovered_ids listing) : gset pykey)
              = list_to_set (KStr <$> remove_dups (recovered_ids listing))).
  { apply set_eq. intros k.
    rewrite elem_of_union, !elem_of_list_to_set, !list_elem_of_fmap.
    setoid_rewrite elem_of_remove_dups. set_solver. }
  rewrite E, size_list_to_set, length_fmap; [reflexivity|].
  apply NoDup_fmap_2; [apply _|apply NoDup_remove_dups].
Qed.

(** C7, as the code has it.  Seeding from the entries of the output
    directory records, for every regular file, the text of the file's stem
    (its name without the last extension) before the first underscore, and
    nothing else: an identifier is known exactly when it is recovered so
    from one of the files, and the number of known identifiers is the
    number of distinct recovered ones. *)
Theorem load_existing_files_known (listing : list dir_entry) :
  (forall k, k ∈ _load_existing_files listing ∅ <->
             exists f, In f listing /\ entry_is_file f = true
                       /\ k = KStr (split_head "_" (path_stem (entry_name f))))
  /\ size (_load_existing_files listing ∅)
     = length (remove_dups (recovered_ids listing)).
Proof.
  split.
  - intros k. apply load_existing_files_elem.
  - apply load_existing_files_size.
Qed.

End DedupProps.

(** The specification takes the identifier from the file name itself.
    For a file whose last dot comes before its first underscore the two
    differ: the text of the name before the first underscore is not known
    after seeding, the text of the stem is. *)
Lemma load_existing_files_name_counterexample :
  split_head "_" "v1.0_final" = "v1.0"
  /\ (KStr "v1.0" ∉ _load_existing_files (Lib := reference_lib) dotted_listing ∅)
  /\ (KStr "v1" ∈ _load_existing_files (Lib := reference_lib) dotted_listing ∅).
Proof.
  split; [reflexivity|].
  rewrite !(load_existing_files_elem (Lib := reference_lib)). split.
  - intros (f & Hf & _ & E). destruct Hf as [<-|[]].
    vm_compute in E. discriminate E.
  - eexists. split; [left; reflexivity|]. split; reflexivity.
Qed.

(** Files named as the program names them are recovered as the
    specification says. *)
Example load_existing_files_program_names :
  recovered_ids (Lib := reference_lib)
    [{| entry_name := "abc_A b cd.png"; entry_is_file := true |};
     {| entry_name := "abc_Other title.jpg"; entry_is_file := true |};
     {| entry_name := "thumbs"; entry_is_file := false |};
     {| entry_name := "x9z_v1.0 release.jpg"; entry_is_file := true |}]
  = ["abc"; "abc"; "x9z"].
Proof. vm_compute. reflexivity. Qed.

(** ** The listing phase *)

Lemma requests_app tr1 tr2 : requests (tr1 ++ tr2) = requests tr1 ++ requests tr2.
Proof.
  induction tr1 as [|[q|s] tr1 IH]; cbn; [reflexivity| |exact IH].
  rewrite IH. reflexivity.
Qed.

Section RequestProps.

Context `{Lib : PyLib}.

Lemma make_request_unfold level url script :
  _make_request level url script
  = if (send_depth <? level)%nat then (JNull, script, [])
    else
      match script with
      | [] => (JNull, [], [EvRequest url])
      | r :: rest =>
          if (handle_depth r <? level)%nat then (JNull, rest, [EvRequest url])
          else
            match r with
            | Resp200 body => (body, rest, [EvRequest url])
            | RespHTTPError code =>
                if code =? 429 then
                  let '(data, rest', evs) := _make_request (S level) url rest in
                  (data, rest', EvRequest url :: EvSleep 60 :: evs)
                else (JNull, rest, [EvRequest url])
            | _ => (JNull, rest, [EvRequest url])
            end
      end.
Proof. destruct script; reflexivity. Qed.

(** An answer that is not a 429, at a nesting that has room for it. *)
Lemma make_request_not_limited level url r rest :
  (level <= send_depth)%nat ->
  (level <= handle_depth r)%nat ->
  rate_limited r = false ->
  _make_request level url (r :: rest) = (body_of r, rest, [EvRequest url]).
Proof.
  intros Hs Hh Hr. rewrite make_request_unfold.
  rewrite (proj2 (Nat.ltb_ge _ _) Hs), (proj2 (Nat.ltb_ge _ _) Hh).
  destruct r; cbn in Hr |- *; try reflexivity. rewrite Hr. reflexivity.
Qed.

(** An answer without data that is not a 429 ends the request in the
    same way whether or not the nesting has room for it. *)
Lemma make_request_no_data level url r rest :
  (level <= send_depth)%nat ->
  rate_limited r = false ->
  truthy (body_of r) = false ->
  exists data,
    _make_request level url (r :: rest) = (data, rest, [EvRequest url])
    /\ truthy data = false.
Proof.
  intros Hs Hr Hb. rewrite make_request_unfold.
  rewrite (proj2 (Nat.ltb_ge _ _) Hs).
  destruct (handle_depth r <? level)%nat; [exists JNull; auto|].
  destruct r; cbn in Hr, Hb |- *; try (exists JNull; auto; fail).
  - exists body. auto.
  - rewrite Hr. exists JNull. auto.
Qed.

(** The chain of retries: one step. *)
Lemma make_request_429 level url rest :
  (level <= send_depth)%nat ->
  (level <= handle_depth (RespHTTPError 429))%nat ->
  _make_request level url (RespHTTPError 429 :: rest)
  = let '(data, rest', evs) := _make_request (S level) url rest in
    (data, rest', EvRequest url :: EvSleep 60 :: evs).
Proof.
  intros Hs Hh. rewrite make_request_unfold.
  rewrite (proj2 (Nat.ltb_ge _ _) Hs), (proj2 (Nat.ltb_ge _ _) Hh).
  reflexivity.
Qed.

(** Every 429 costs one request and one cooldown of 60 seconds, and the
    same URL is asked again, as long as the nesting has room. *)
Lemma make_request_retries level url k r rest :
  (level + k <= send_depth)%nat ->
  (level + k <= S (handle_depth (RespHTTPError 429)))%nat ->
  (level + k <= handle_depth r)%nat ->
  rate_limited r = false ->
  _make_request level url (repeat (RespHTTPError 429) k ++ r :: rest)
  = (body_of r, rest,
     concat (repeat [EvRequest url; EvSleep 60] k) ++ [EvRequest url]).
Proof.
  revert level. induction k as [|k IH]; intros level Hs Hh Hroom Hr.
  - rewrite Nat.add_0_r in *. apply make_request_not_limited; assumption.
  - cbn [repeat app]. rewrite make_request_429 by lia.
    rewrite IH by (assumption || lia). reflexivity.
Qed.

(** The same when the last answer carries no data. *)
Lemma make_request_retries_no_data level url k r rest :
  (level + k <= send_depth)%nat ->
  (level + k <= S (handle_depth (RespHTTPError 429)))%nat ->
  rate_limited r = false ->
  truthy (body_of r) = false ->
  exists data,
    _make_request level url (repeat (RespHTTPError 429) k ++ r :: rest)
    = (data, rest,
       concat (repeat [EvRequest url; EvSleep 60] k) ++ [EvRequest url])
    /\ truthy data = false.
Proof.
  revert level. induction k as [|k IH]; intros level Hs Hh Hr Hb.
  - rewrite Nat.add_0_r in *. apply make_request_no_data; assumption.
  - cbn [repeat app]. rewrite make_request_429 by lia.
    destruct (IH (S level)) as (data & -> & Hdata); try assumption; try lia.
    exists data. auto.
Qed.

(** Beyond the nesting at which a request still leaves, a chain of 429s
    ends without data. *)
Lemma make_request_exhausted level url n script :
  (send_depth < level + n)%nat ->
  (_make_request level url (repeat (RespHTTPError 429) n ++ script)).1.1
  = JNull.
Proof.
  revert level. induction n as [|n IH]; intros level Hn.
  - rewrite make_request_unfold.
    rewrite (proj2 (Nat.ltb_lt send_depth level)) by lia. reflexivity.
  - cbn [repeat app]. rewrite make_request_unfold.
    destruct (send_depth <? level)%nat; [reflexivity|].
    destruct (handle_depth (RespHTTPError 429) <? level)%nat; [reflexivity|].
    change (429 =? 429) with true. cbv iota.
    specialize (IH (S level)).
    destruct (_make_request (S level) url
                (repeat (RespHTTPError 429) n ++ script)) as [[d rest] evs].
    cbn [fst] in *. apply IH. lia.
Qed.

(** A chain of 429s followed by an answer without data ends without
    data, whatever room the nesting has. *)
Lemma make_request_chain_no_data level url k r rest :
  rate_limited r = false ->
  truthy (body_of r) = false ->
  truthy (_make_request level url
            (repeat (RespHTTPError 429) k ++ r :: rest)).1.1 = false.
Proof.
  intros Hr Hb. revert level. induction k as [|k IH]; intros level.
  - cbn [repeat app]. rewrite make_request_unfold.
    destruct (send_depth <? level)%nat; [reflexivity|].
    destruct (handle_depth r <? level)%nat; [reflexivity|].
    destruct r; cbn in Hr, Hb |- *; try reflexivity; [exact Hb|].
    rewrite Hr. reflexivity.
  - cbn [repeat app]. rewrite make_request_unfold.
    destruct (send_depth <? level)%nat; [reflexivity|].
    destruct (handle_depth (RespHTTPError 429) <? level)%nat; [reflexivity|].
    change (429 =? 429) with true. cbv iota.
    specialize (IH (S level)).
    destruct (_make_request (S level) url
                (repeat (RespHTTPError 429) k ++ r :: rest)) as [[d rest'] evs].
    exact IH.
Qed.

Lemma make_request_requests level url script :
  Forall (eq url) (requests (snd (_make_request level url script))).
Proof.
  revert level. induction script as [|r script IH]; intros level;
    rewrite make_request_unfold;
    (destruct (send_depth <? level)%nat; [constructor|]).
  - repeat constructor.
  - destruct (handle_depth r <? level)%nat; [repeat constructor|].
    destruct r; cbn; try (repeat constructor).
    destruct (code =? 429); [|repeat constructor].
    specialize (IH (S level)).
    destruct (_make_request (S level) url script) as [[d rest] evs]. cbn in *.
    constructor; [reflexivity|exact IH].
Qed.

End RequestProps.

Section ListingProps.

Context `{Lib : PyLib}.

Lemma qualifying_app cfg dl l1 l2 :
  qualifying cfg dl (l1 ++ l2) = qualifying cfg dl l1 ++ qualifying cfg dl l2.
Proof. apply omap_app. Qed.

Lemma qualifying_cons cfg dl c cs :
  qualifying cfg dl (c :: cs)
  = match kept cfg dl c with
    | Some p => p :: qualifying cfg dl cs
    | None => qualifying cfg dl cs
    end.
Proof. reflexivity. Qed.

(** The [for] loop appends the qualifying entries of the page until the
    target is reached. *)
Lemma scan_children_take cfg dl children :
  forall st,
    Forall (fun c => qualifies cfg dl c <> Crash) children ->
    exists sk,
      scan_children cfg dl children st
      = Ret {| posts := posts st
                        ++ take (Z.to_nat (cfg_limit cfg - fetched st))
                                (qualifying cfg dl children);
               fetched := fetched st
                          + Z.of_nat (length
                              (take (Z.to_nat (cfg_limit cfg - fetched st))
                                    (qualifying cfg dl children)));
               skipped := sk |}.
Proof.
  induction children as [|c cs IH]; intros st Hok.
  - exists (skipped st). cbn. rewrite take_nil, app_nil_r. cbn.
    rewrite Z.add_0_r. destruct st; reflexivity.
  - apply Forall_cons in Hok as [Hc Hcs]. cbn [scan_children].
    destruct (Z.geb_spec (fetched st) (cfg_limit cfg)) as [Hge|Hlt].
    + exists (skipped st).
      replace (Z.to_nat (cfg_limit cfg - fetched st)) with 0%nat by lia.
      cbn. rewrite app_nil_r, Z.add_0_r. destruct st; reflexivity.
    + rewrite qualifying_cons. unfold kept. unfold qualifies in Hc |- *.
      destruct (_parse_post cfg c) as [[p|]|]; cbn [rbind] in Hc |- *;
        [|apply IH, Hcs|contradiction].
      destruct (py_hash_key (post_id p)) as [k|]; cbn [rbind] in Hc |- *;
        [|contradiction].
      destruct (bool_decide (k ∈ dl)).
      * destruct (IH {| posts := posts st; fetched := fetched st;
                        skipped := skipped st + 1 |} Hcs) as [sk Hsk].
        exists sk. exact Hsk.
      * destruct (IH {| posts := posts st ++ [p]; fetched := fetched st + 1;
                        skipped := skipped st |} Hcs) as [sk Hsk].
        exists sk. rewrite Hsk. cbn [posts fetched].
        replace (Z.to_nat (cfg_limit cfg - fetched st))
          with (S (Z.to_nat (cfg_limit cfg - (fetched st + 1)))) by lia.
        cbn [take length]. rewrite <- app_assoc. cbn [app].
        do 2 f_equal. lia.
Qed.

End ListingProps.

Section ListingRuns.

Context `{Lib : PyLib}.

(** One iteration of the [while] loop on a page served with status 200. *)
Lemma fetch_loop_page fuel cfg dl children cursor rest after st tr :
  fetched st < cfg_limit cfg ->
  fetch_loop (S fuel) cfg dl
    (page_response (children, cursor) :: rest) after st tr
  = match children with
    | [] => finish st rest (tr ++ [EvRequest (_build_url cfg after)])
    | _ :: _ =>
        match scan_children cfg dl children st with
        | Crash => crashed rest (tr ++ [EvRequest (_build_url cfg after)])
        | Ret st' =>
            if negb (truthy cursor)
            then finish st' rest (tr ++ [EvRequest (_build_url cfg after)])
            else fetch_loop fuel cfg dl rest cursor st'
                   ((tr ++ [EvRequest (_build_url cfg after)])
                    ++ [EvSleep (cfg_delay cfg)])
        end
    end.
Proof.
  intros Hlt. cbn [fetch_loop].
  destruct (Z.ltb_spec (fetched st) (cfg_limit cfg)) as [_|]; [|lia].
  unfold page_response.
  rewrite make_request_not_limited by (reflexivity || lia). cbn [body_of].
  destruct children as [|c cs]; [reflexivity|].
  cbn -[scan_children _build_url fetch_loop].
  destruct (scan_children cfg dl (c :: cs) st) as [st'|]; reflexivity.
Qed.

(** One iteration on an answer that carries no data: an error that is not
    a 429, possibly after some 429s.  The loop ends with what it has. *)
Lemma fetch_loop_failure fuel cfg dl k r rest after st tr :
  fetched st < cfg_limit cfg ->
  (k <= send_depth)%nat ->
  (k <= S (handle_depth (RespHTTPError 429)))%nat ->
  rate_limited r = false ->
  truthy (body_of r) = false ->
  fetch_loop (S fuel) cfg dl
    (repeat (RespHTTPError 429) k ++ r :: rest) after st tr
  = finish st rest
      (tr ++ concat (repeat [EvRequest (_build_url cfg after); EvSleep 60] k)
          ++ [EvRequest (_build_url cfg after)]).
Proof.
  intros Hlt Hs Hh Hr Hbody. cbn [fetch_loop].
  destruct (Z.ltb_spec (fetched st) (cfg_limit cfg)) as [_|]; [|lia].
  destruct (make_request_retries_no_data 0 (_build_url cfg after) k r rest
              Hs Hh Hr Hbody) as (data & -> & ->).
  reflexivity.
Qed.

(** One iteration on a chain of 429s longer than the nesting allows: the
    request is given up and the loop ends with what it has. *)
Lemma fetch_loop_exhausted fuel cfg dl n script after st tr :
  (send_depth < n)%nat ->
  exists script' tr',
    fetch_loop (S fuel) cfg dl
      (repeat (RespHTTPError 429) n ++ script) after st tr
    = finish st script' tr'.
Proof.
  intros Hn. cbn [fetch_loop].
  destruct (fetched st <? cfg_limit cfg); [|eauto].
  pose proof (make_request_exhausted 0 (_build_url cfg after) n script Hn)
    as Hdata.
  destruct (_make_request 0 (_build_url cfg after)
              (repeat (RespHTTPError 429) n ++ script))
    as [[data script'] evs].
  cbn [fst] in Hdata. subst data. cbn [truthy negb]. eauto.
Qed.

(** One iteration on a chain of 429s followed by an answer without data:
    the loop ends with what it has, whatever room the nesting has. *)
Lemma fetch_loop_chain_no_data fuel cfg dl k r rest after st tr :
  rate_limited r = false ->
  truthy (body_of r) = false ->
  exists script' tr',
    fetch_loop (S fuel) cfg dl
      (repeat (RespHTTPError 429) k ++ r :: rest) after st tr
    = finish st script' tr'.
Proof.
  intros Hr Hbody. cbn [fetch_loop].
  destruct (fetched st <? cfg_limit cfg); [|eauto].
  pose proof (make_request_chain_no_data 0 (_build_url cfg after) k r rest
                Hr Hbody) as Hdata.
  destruct (_make_request 0 (_build_url cfg after)
              (repeat (RespHTTPError 429) k ++ r :: rest))
    as [[data script'] evs].
  cbn [fst] in Hdata. rewrite Hdata. cbn [negb]. eauto.
Qed.

Lemma last_default_irrelevant (l : list json) (x d d' : json) :
  List.last (x :: l) d = List.last (x :: l) d'.
Proof.
  revert x. induction l as [|y l IH]; intros x; [reflexivity|].
  change (List.last (y :: l) d = List.last (y :: l) d'). apply IH.
Qed.

Lemma last_cursor_cons after pg pages :
  last_cursor after (pg :: pages) = last_cursor (snd pg) pages.
Proof.
  unfold last_cursor. cbn [map].
  destruct (map snd pages) as [|y l]; [reflexivity|].
  change (List.last (y :: l) after = List.last (y :: l) (snd pg)).
  apply last_default_irrelevant.
Qed.

Lemma requests_pages_trace cfg after pages :
  length (requests (pages_trace cfg after pages)) = length pages.
Proof.
  revert after. induction pages as [|pg pages IH]; intros after; cbn;
    [reflexivity|].
  rewrite IH. reflexivity.
Qed.

(** A stretch of pages that neither ends the listing nor reaches the
    target is consumed whole; the loop then stands before the rest of the
    script with all their qualifying entries appended. *)
Lemma fetch_loop_pages cfg dl pages :
  forall fuel rest after st tr,
    Forall continues pages ->
    Forall (fun c => qualifies cfg dl c <> Crash) (entries pages) ->
    fetched st + Z.of_nat (length (qualifying cfg dl (entries pages)))
      < cfg_limit cfg ->
    exists sk,
      fetch_loop (length pages + fuel) cfg dl
        (map page_response pages ++ rest) after st tr
      = fetch_loop fuel cfg dl rest (last_cursor after pages)
          {| posts := posts st ++ qualifying cfg dl (entries pages);
             fetched := fetched st
                        + Z.of_nat (length (qualifying cfg dl (entries pages)));
             skipped := sk |}
          (tr ++ pages_trace cfg after pages).
Proof.
  induction pages as [|[children cursor] pages IH];
    intros fuel rest after st tr Hcont Hok Hlt.
  - exists (skipped st). cbn. rewrite !app_nil_r, Z.add_0_r.
    destruct st; reflexivity.
  - apply Forall_cons in Hcont as [[Hne Hcur] Hcont]. cbn in Hne, Hcur.
    unfold entries in Hok, Hlt |- *. cbn [map concat fst] in Hok, Hlt |- *.
    fold (entries pages) in Hok, Hlt |- *.
    apply Forall_app in Hok as [Hok1 Hok2].
    rewrite qualifying_app, length_app, Nat2Z.inj_add in Hlt.
    cbn [length Nat.add map app].
    rewrite fetch_loop_page by lia.
    destruct children as [|c cs]; [contradiction|].
    destruct (scan_children_take cfg dl (c :: cs) st Hok1) as [sk1 Hscan].
    rewrite Hscan, Hcur. cbn [negb].
    rewrite take_ge in * by lia.
    match goal with
    | |- context [fetch_loop _ _ _ _ cursor ?s ?t] =>
        destruct (IH fuel rest cursor s t Hcont Hok2) as [sk Hsk];
          [cbn [fetched]; lia|]
    end.
    exists sk. rewrite Hsk. cbn [posts fetched pages_trace snd].
    rewrite qualifying_app, length_app, Nat2Z.inj_add.
    rewrite <- !app_assoc, Z.add_assoc. cbn [app].
    rewrite last_cursor_cons. reflexivity.
Qed.

End ListingRuns.

Section ListingResults.

Context `{Lib : PyLib}.

(** Once the target is reached the loop is left, whatever the fuel. *)
Lemma fetch_loop_done fuel cfg dl script after st tr :
  cfg_limit cfg <= fetched st ->
  fetch_loop fuel cfg dl script after st tr = finish st script tr.
Proof.
  intros Hge.
  destruct fuel; cbn [fetch_loop];
    destruct (Z.ltb_spec (fetched st) (cfg_limit cfg)); (lia || reflexivity).
Qed.

(** [fetch_posts] over a script that starts with a stretch of pages which
    neither end the listing nor reach the target. *)
Lemma fetch_posts_pages cfg dl pages rest :
  Forall continues pages ->
  Forall (fun c => qualifies cfg dl c <> Crash) (entries pages) ->
  Z.of_nat (length (qualifying cfg dl (entries pages))) < cfg_limit cfg ->
  exists sk,
    fetch_posts cfg dl (map page_response pages ++ rest)
    = fetch_loop (S (length rest)) cfg dl rest (last_cursor JNull pages)
        {| posts := qualifying cfg dl (entries pages);
           fetched := Z.of_nat (length (qualifying cfg dl (entries pages)));
           skipped := sk |}
        (pages_trace cfg JNull pages).
Proof.
  intros Hcont Hok Hlt. unfold fetch_posts.
  replace (S (length (map page_response pages ++ rest)))
    with (length pages + S (length rest))%nat
    by (rewrite length_app, length_map; lia).
  destruct (fetch_loop_pages cfg dl pages (S (length rest)) rest JNull
              {| posts := []; fetched := 0; skipped := 0 |} []
              Hcont Hok) as [sk Hsk]; [cbn [fetched]; lia|].
  exists sk. rewrite Hsk. reflexivity.
Qed.

Lemma entries_app pages1 pages2 :
  entries (pages1 ++ pages2) = entries pages1 ++ entries pages2.
Proof. unfold entries. rewrite map_app, concat_app. reflexivity. Qed.

Lemma entries_single pg : entries [pg] = fst pg.
Proof. unfold entries. cbn. apply app_nil_r. Qed.

(** C3.  Let the server serve a sequence of pages of which all but the
    last have entries and a cursor and together hold fewer than the target
    of qualifying entries, and let the last page be one at which the loop
    must stop: it has no entry, or no cursor, or completes the target.
    Then [fetch_posts] returns the first [limit] qualifying entries of
    these pages in their order, has issued exactly one request per page,
    and leaves the rest of the script unasked. *)
Theorem fetch_posts_first_n (cfg : ScraperConfig) (dl : gset pykey)
    (before : list page) (last : page) (rest : list response) :
  Forall continues before ->
  Forall (fun c => qualifies cfg dl c <> Crash) (entries (before ++ [last])) ->
  Z.of_nat (length (qualifying cfg dl (entries before))) < cfg_limit cfg ->
  fst last = [] \/ truthy (snd last) = false \/
  cfg_limit cfg
    <= Z.of_nat (length (qualifying cfg dl (entries (before ++ [last])))) ->
  exists r st,
    fetch_posts cfg dl (map page_response (before ++ [last]) ++ rest)
    = Some r
    /\ final r = Ret st
    /\ posts st = take (Z.to_nat (cfg_limit cfg))
                       (qualifying cfg dl (entries (before ++ [last])))
    /\ length (requests (trace r)) = length (before ++ [last])
    /\ script_left r = rest.
Proof.
  intros Hcont Hok Hlt Hstop.
  rewrite entries_app, entries_single in Hok, Hstop |- *.
  apply Forall_app in Hok as [Hok1 Hok2].
  rewrite map_app, <- app_assoc. cbn [map app].
  destruct (fetch_posts_pages cfg dl before (page_response last :: rest)
              Hcont Hok1 Hlt) as [sk ->].
  set (qb := qualifying cfg dl (entries before)) in *.
  destruct last as [children cursor]. cbn [fst snd] in *.
  rewrite fetch_loop_page by (cbn [fetched]; lia).
  rewrite qualifying_app, length_app in *. fold qb in Hstop |- *.
  assert (Hreq : forall tail,
             length (requests
               ((pages_trace cfg JNull before
                 ++ [EvRequest (_build_url cfg (last_cursor JNull before))])
                ++ tail))
             = (length before + 1 + length (requests tail))%nat).
  { intros tail. rewrite !requests_app, !length_app, requests_pages_trace.
    reflexivity. }
  destruct children as [|c cs].
  - do 2 eexists. split; [reflexivity|]. split; [reflexivity|].
    cbn [posts trace script_left].
    split; [|split; [|reflexivity]].
    + change (qualifying cfg dl []) with (@nil RedditPost).
      rewrite app_nil_r, take_ge by lia. reflexivity.
    + rewrite <- (app_nil_r (_ ++ [_])), Hreq. cbn. lia.
  - match goal with
    | |- context [scan_children cfg dl (c :: cs) ?s] =>
        destruct (scan_children_take cfg dl (c :: cs) s Hok2) as [sk' ->]
    end.
    cbn [posts fetched].
    set (qc := qualifying cfg dl (c :: cs)) in *.
    assert (Htake : take (Z.to_nat (cfg_limit cfg)) (qb ++ qc)
                    = qb ++ take (Z.to_nat (cfg_limit cfg
                                            - Z.of_nat (length qb))) qc).
    { rewrite take_app, (take_ge qb) by lia. f_equal. f_equal. lia. }
    destruct (truthy cursor) eqn:Hcur; cbn [negb].
    + destruct Hstop as [Hstop|[Hstop|Hstop]]; try discriminate.
      rewrite fetch_loop_done
        by (cbn [fetched]; rewrite length_take; lia).
      do 2 eexists. split; [reflexivity|]. split; [reflexivity|].
      cbn [trace script_left posts].
      split; [symmetry; exact Htake|]. split; [|reflexivity].
      rewrite Hreq. cbn. lia.
    + do 2 eexists. split; [reflexivity|]. split; [reflexivity|].
      cbn [posts trace script_left].
      split; [symmetry; exact Htake|]. split; [|reflexivity].
      rewrite <- (app_nil_r (_ ++ [_])), Hreq. cbn. lia.
Qed.

End ListingResults.

Section ListingTotal.

Context `{Lib : PyLib}.

(** A request uses up at least one answer of a non-empty script, and
    gets no data from an empty one. *)
Lemma make_request_consumes level url script :
  let '(data, script', _) := _make_request level url script in
  (length script' < length script)%nat
  \/ ((length script' <= length script)%nat /\ data = JNull).
Proof.
  revert level. induction script as [|r script IH]; intros level;
    rewrite make_request_unfold;
    (destruct (send_depth <? level)%nat; [right; auto|]).
  - right. auto.
  - destruct (handle_depth r <? level)%nat; [left; cbn; lia|].
    destruct r; cbn; try (left; lia).
    destruct (code =? 429); [|left; cbn; lia].
    specialize (IH (S level)).
    destruct (_make_request (S level) url script) as [[d rest] evs].
    left. cbn. destruct IH as [Hlt|[Hle _]]; lia.
Qed.

(** The page-size parameter of a built URL. *)
Lemma build_url_limit cfg after :
  assoc "limit" (q_params (_build_url cfg after))
  = Some (JInt (Z.min 100 (cfg_limit cfg))).
Proof. reflexivity. Qed.

(** With more fuel than answers in the script the loop ends, and every
    request it makes is for a URL built by [_build_url]. *)
Lemma fetch_loop_total fuel :
  forall cfg dl script after st tr,
    (length script < fuel)%nat ->
    Forall (fun q => exists a, q = _build_url cfg a) (requests tr) ->
    exists r,
      fetch_loop fuel cfg dl script after st tr = Some r
      /\ Forall (fun q => exists a, q = _build_url cfg a) (requests (trace r)).
Proof.
  induction fuel as [|fuel IH]; intros cfg dl script after st tr Hfuel Htr;
    [lia|].
  cbn [fetch_loop].
  destruct (fetched st <? cfg_limit cfg); [|eexists; split; [reflexivity|exact Htr]].
  pose proof (make_request_consumes 0 (_build_url cfg after) script) as Hlen.
  pose proof (make_request_requests 0 (_build_url cfg after) script) as Hreq.
  destruct (_make_request 0 (_build_url cfg after) script) as [[data script'] evs].
  cbn [snd] in Hreq.
  assert (Htr' : Forall (fun q => exists a, q = _build_url cfg a)
                   (requests (tr ++ evs))).
  { rewrite requests_app. apply Forall_app. split; [exact Htr|].
    eapply Forall_impl; [exact Hreq|]. intros q <-. eauto. }
  destruct (truthy data) eqn:Hdata; cbn [negb];
    [|eexists; split; [reflexivity|exact Htr']].
  destruct Hlen as [Hlen|[_ ->]]; [|discriminate Hdata].
  destruct (let* inner := py_get data "data" (JDict []) in
            py_get inner "children" (JList [])) as [children|];
    [|eexists; split; [reflexivity|exact Htr']].
  destruct (negb (truthy children));
    [eexists; split; [reflexivity|exact Htr']|].
  match goal with
  | |- context [match ?m with Ret _ => _ | Crash => _ end] =>
      destruct m as [[st' after']|]
  end; [|eexists; split; [reflexivity|exact Htr']].
  destruct (negb (truthy after'));
    [eexists; split; [reflexivity|exact Htr']|].
  apply IH; [lia|].
  rewrite requests_app. cbn. rewrite app_nil_r. exact Htr'.
Qed.

(** [fetch_posts] always ends. *)
Lemma fetch_posts_total cfg dl script :
  exists r, fetch_posts cfg dl script = Some r
            /\ Forall (fun q => exists a, q = _build_url cfg a)
                      (requests (trace r)).
Proof.
  unfold fetch_posts. apply fetch_loop_total; [lia|]. constructor.
Qed.

(** C2, as the code has it.  Whatever the server answers, the listing
    phase ends, and every request it has issued carries the page-size
    parameter [min(100, limit)], where [limit] is the configured target;
    what has been accumulated does not enter. *)
Theorem page_limit_constant (cfg : ScraperConfig) (dl : gset pykey)
    (script : list response) :
  exists r,
    fetch_posts cfg dl script = Some r
    /\ Forall (fun q => assoc "limit" (q_params q)
                        = Some (JInt (Z.min 100 (cfg_limit cfg))))
              (requests (trace r)).
Proof.
  destruct (fetch_posts_total cfg dl script) as (r & Hr & Hreq).
  exists r. split; [exact Hr|].
  eapply Forall_impl; [exact Hreq|].
  intros q [a ->]. apply build_url_limit.
Qed.

(** C1, as the code has it.  A 429 makes the client sleep 60 seconds and
    ask the same URL again by calling itself, and so on after every
    further 429; the code counts no retries.  After [k] of them, [k]
    within the nesting that the interpreter allows, the next answer
    decides.  Nothing else is retried: when that answer carries no data
    (a connection error, a body that is not JSON, another HTTP error) the
    listing phase ends at once and returns the qualifying entries of the
    pages read before.  A chain of 429s longer than the nesting at which
    a request still leaves is given up in the same way. *)
Theorem rate_limit_retry (cfg : ScraperConfig) (dl : gset pykey)
    (pages : list page) (k : nat) (r : response) (rest : list response) :
  rate_limited r = false ->
  truthy (body_of r) = false ->
  Forall continues pages ->
  Forall (fun c => qualifies cfg dl c <> Crash) (entries pages) ->
  Z.of_nat (length (qualifying cfg dl (entries pages))) < cfg_limit cfg ->
  (k <= send_depth)%nat ->
  (k <= S (handle_depth (RespHTTPError 429)))%nat ->
  (forall url answer,
      rate_limited answer = false ->
      (k <= handle_depth answer)%nat ->
      _make_request 0 url (repeat (RespHTTPError 429) k ++ answer :: rest)
      = (body_of answer, rest,
         concat (repeat [EvRequest url; EvSleep 60] k) ++ [EvRequest url]))
  /\ (exists result st,
       fetch_posts cfg dl
         (map page_response pages ++ repeat (RespHTTPError 429) k ++ r :: rest)
       = Some result
       /\ final result = Ret st
       /\ posts st = qualifying cfg dl (entries pages)
       /\ script_left result = rest
       /\ trace result
          = pages_trace cfg JNull pages
            ++ concat (repeat [EvRequest (_build_url cfg (last_cursor JNull pages));
                               EvSleep 60] k)
            ++ [EvRequest (_build_url cfg (last_cursor JNull pages))])
  /\ (forall n script,
       (send_depth < n)%nat ->
       (forall url,
           (_make_request 0 url (repeat (RespHTTPError 429) n ++ script)).1.1
           = JNull)
       /\ exists result st,
            fetch_posts cfg dl
              (map page_response pages ++ repeat (RespHTTPError 429) n ++ script)
            = Some result
            /\ final result = Ret st
            /\ posts st = qualifying cfg dl (entries pages)).
Proof.
  intros Hr Hbody Hcont Hok Hlt Hs Hh. split; [|split].
  - intros url answer Ha Hroom. apply make_request_retries; assumption.
  - destruct (fetch_posts_pages cfg dl pages
                (repeat (RespHTTPError 429) k ++ r :: rest) Hcont Hok Hlt)
      as [sk ->].
    rewrite fetch_loop_failure by (cbn [fetched]; auto; lia).
    do 2 eexists. split; [reflexivity|]. split; [reflexivity|].
    cbn [posts script_left trace]. auto.
  - intros n script Hn. split.
    + intros url. apply make_request_exhausted. lia.
    + destruct (fetch_posts_pages cfg dl pages
                  (repeat (RespHTTPError 429) n ++ script) Hcont Hok Hlt)
        as [sk ->].
      match goal with
      | |- context [fetch_loop (S ?f) cfg dl _ ?a ?s ?t] =>
          destruct (fetch_loop_exhausted f cfg dl n script a s t Hn)
            as (script' & tr' & ->)
      end.
      do 2 eexists. split; [reflexivity|]. split; reflexivity.
Qed.

End ListingTotal.

Section ListingHashable.

Context `{Lib : PyLib}.

(** A post enters the list only after its identifier went through the
    membership test of the dedup set, so it is hashable. *)
Lemma scan_children_hashable cfg dl children :
  forall st st',
    Forall hashable (posts st) ->
    scan_children cfg dl children st = Ret st' ->
    Forall hashable (posts st').
Proof.
  induction children as [|c cs IH]; intros st st' Hst Hscan;
    cbn [scan_children] in Hscan.
  - injection Hscan as <-. exact Hst.
  - destruct (fetched st >=? cfg_limit cfg); [injection Hscan as <-; exact Hst|].
    destruct (_parse_post cfg c) as [[p|]|]; cbn [rbind] in Hscan;
      [|eauto|discriminate].
    destruct (py_hash_key (post_id p)) as [k|] eqn:Hk; cbn [rbind] in Hscan;
      [|discriminate].
    destruct (bool_decide (k ∈ dl)); eapply IH; try exact Hscan; cbn [posts];
      [exact Hst|].
    apply Forall_app. split; [exact Hst|]. constructor; [|constructor].
    unfold hashable. rewrite Hk. discriminate.
Qed.

Lemma fetch_loop_hashable fuel :
  forall cfg dl script after st tr r st',
    Forall hashable (posts st) ->
    fetch_loop fuel cfg dl script after st tr = Some r ->
    final r = Ret st' ->
    Forall hashable (posts st').
Proof.
  induction fuel as [|fuel IH]; intros cfg dl script after st tr r st' Hst Hrun Hfin;
    cbn [fetch_loop] in Hrun.
  - destruct (fetched st <? cfg_limit cfg); [discriminate|].
    injection Hrun as <-. injection Hfin as <-. exact Hst.
  - destruct (fetched st <? cfg_limit cfg);
      [|injection Hrun as <-; injection Hfin as <-; exact Hst].
    destruct (_make_request 0 (_build_url cfg after) script)
      as [[data script'] evs].
    destruct (negb (truthy data));
      [injection Hrun as <-; injection Hfin as <-; exact Hst|].
    destruct (let* inner := py_get data "data" (JDict []) in
              py_get inner "children" (JList [])) as [children|];
      [|injection Hrun as <-; discriminate Hfin].
    destruct (negb (truthy children));
      [injection Hrun as <-; injection Hfin as <-; exact Hst|].
    destruct (py_iter children) as [items|]; cbn [rbind] in Hrun;
      [|injection Hrun as <-; discriminate Hfin].
    destruct (scan_children cfg dl items st) as [st1|] eqn:Hscan;
      cbn [rbind] in Hrun; [|injection Hrun as <-; discriminate Hfin].
    pose proof (scan_children_hashable cfg dl items st st1 Hst Hscan) as Hst1.
    destruct (let* inner := py_get data "data" (JDict []) in
              let* after' := py_get inner "after" JNull in
              Ret (st1, after')) as [[st2 after']|] eqn:Hafter;
      [|injection Hrun as <-; discriminate Hfin].
    assert (st2 = st1) as ->.
    { destruct (py_get data "data" (JDict [])) as [inner|];
        cbn [rbind] in Hafter; [|discriminate].
      destruct (py_get inner "after" JNull); cbn [rbind] in Hafter;
        [|discriminate].
      congruence. }
    destruct (negb (truthy after'));
      [injection Hrun as <-; injection Hfin as <-; exact Hst1|].
    exact (IH _ _ _ _ _ _ _ _ Hst1 Hrun Hfin).
Qed.

(** The candidates that [fetch_posts] hands to [download_all] have
    hashable identifiers. *)
Lemma fetch_posts_hashable cfg dl script r st :
  fetch_posts cfg dl script = Some r ->
  final r = Ret st ->
  Forall hashable (posts st).
Proof.
  unfold fetch_posts. intros Hrun Hfin.
  eapply fetch_loop_hashable; [|exact Hrun|exact Hfin]. constructor.
Qed.

End ListingHashable.

(** ** The listing phase on a concrete listing

    Two pages of three image links each, the first with a cursor, the
    second ending the listing, and a target of five. *)

Lemma fetch_posts_first_n_witness :
  exists r st,
    fetch_posts (Lib := reference_lib) config_five ∅
      (map page_response ([page_one] ++ [page_two])
       ++ [page_response page_three])
    = Some r
    /\ final r = Ret st
    /\ posts st = take (Z.to_nat (cfg_limit config_five))
                       (qualifying (Lib := reference_lib) config_five ∅
                          (entries ([page_one] ++ [page_two])))
    /\ length (requests (trace r)) = length ([page_one] ++ [page_two])
    /\ script_left r = [page_response page_three].
Proof.
  apply (fetch_posts_first_n (Lib := reference_lib) config_five ∅
           [page_one] page_two [page_response page_three]).
  - repeat constructor. discriminate.
  - repeat constructor; vm_compute; discriminate.
  - vm_compute. reflexivity.
  - right. left. reflexivity.
Defined.

Example fetch_posts_two_pages :
  exists r st,
    fetch_posts (Lib := reference_lib) config_five ∅
      [page_response page_one; page_response page_two;
       page_response page_three]
    = Some r
    /\ final r = Ret st
    /\ map post_id (posts st)
       = [JStr "a1"; JStr "a2"; JStr "a3"; JStr "b1"; JStr "b2"]
    /\ length (requests (trace r)) = 2%nat
    /\ script_left r = [page_response page_three].
Proof. do 2 eexists. repeat split; vm_compute; reflexivity. Qed.

Lemma rate_limit_retry_witness :
  (exists result st,
    fetch_posts (Lib := reference_lib) config_five ∅
      (map page_response [page_one]
       ++ repeat (RespHTTPError 429) 1 ++ RespURLError
       :: [page_response page_two])
    = Some result
    /\ final result = Ret st
    /\ posts st = qualifying (Lib := reference_lib) config_five ∅
                    (entries [page_one])
    /\ script_left result = [page_response page_two]
    /\ trace result
       = pages_trace config_five JNull [page_one]
         ++ concat (repeat
              [EvRequest (_build_url config_five (last_cursor JNull [page_one]));
               EvSleep 60] 1)
         ++ [EvRequest (_build_url config_five (last_cursor JNull [page_one]))])
  /\ (_make_request (Lib := reference_lib) 0 (_build_url config_five JNull)
        (repeat (RespHTTPError 429) 1 ++ page_response page_two
         :: [page_response page_two])).1.1
     = listing_page (fst page_two) (snd page_two)
  /\ (_make_request (Lib := reference_lib) 0 (_build_url config_five JNull)
        (repeat (RespHTTPError 429) 976 ++ [page_response page_two])).1.1
     = JNull.
Proof.
  destruct (rate_limit_retry (Lib := reference_lib) config_five ∅
              [page_one] 1 RespURLError [page_response page_two])
    as (Hretry & Hrun & Hgiven_up).
  - reflexivity.
  - reflexivity.
  - repeat constructor. discriminate.
  - repeat constructor; vm_compute; discriminate.
  - vm_compute. reflexivity.
  - cbn. lia.
  - cbn. lia.
  - split; [exact Hrun|]. split.
    + rewrite (Hretry (_build_url config_five JNull) (page_response page_two));
        [reflexivity|reflexivity|cbn; lia].
    + apply (Hgiven_up 976%nat [page_response page_two]). cbn. lia.
Defined.

(** The specification allows one retry: after a second 429 in a row the
    request should fail, and a first page so refused should leave the
    result empty.  The code sleeps and asks again after every 429; here
    the third attempt succeeds and the page's entries are returned. *)
Lemma rate_limit_second_429_counterexample :
  _make_request (Lib := reference_lib) 0 (_build_url config_five JNull)
    [RespHTTPError 429; RespHTTPError 429; page_response page_two]
  = (listing_page (fst page_two) (snd page_two), [],
     [EvRequest (_build_url config_five JNull); EvSleep 60;
      EvRequest (_build_url config_five JNull); EvSleep 60;
      EvRequest (_build_url config_five JNull)])
  /\ exists r st,
       fetch_posts (Lib := reference_lib) config_five ∅
         [RespHTTPError 429; RespHTTPError 429; page_response page_two]
       = Some r
       /\ final r = Ret st
       /\ map post_id (posts st) = [JStr "b1"; JStr "b2"; JStr "b3"]
       /\ posts st <> [].
Proof.
  split; [reflexivity|].
  do 2 eexists. split; [vm_compute; reflexivity|].
  split; [reflexivity|]. split; [reflexivity|]. discriminate.
Qed.

(** The specification ties the page size to what is still missing.  With
    a target of five, the first page brings three entries, so the second
    request should ask for [min(100, 5 - 3) = 2]; it asks for five. *)
Lemma page_limit_remaining_counterexample :
  exists st1 r q1 q2,
    scan_children (Lib := reference_lib) config_five ∅ (fst page_one)
      {| posts := []; fetched := 0; skipped := 0 |} = Ret st1
    /\ length (posts st1) = 3%nat
    /\ fetch_posts (Lib := reference_lib) config_five ∅
         [page_response page_one; page_response page_two] = Some r
    /\ requests (trace r) = [q1; q2]
    /\ assoc "limit" (q_params q2) = Some (JInt 5)
    /\ assoc "limit" (q_params q2)
       <> Some (JInt (Z.min 100 (cfg_limit config_five
                                 - Z.of_nat (length (posts st1))))).
Proof.
  do 4 eexists. split; [vm_compute; reflexivity|].
  split; [reflexivity|]. split; [vm_compute; reflexivity|].
  split; [reflexivity|]. split; [reflexivity|]. vm_compute. discriminate.
Qed.

(** ** The download phase *)

Section PoolRuns.

Context `{Lib : PyLib}.

Lemma exec_seq_snoc env order post fs :
  exec_seq env (order ++ [post]) fs
  = ((exec_seq env order fs).1
       ++ [(post, (run_task env (exec_seq env order fs).2 post).1)],
     (run_task env (exec_seq env order fs).2 post).2).
Proof.
  revert fs. induction order as [|p order IH]; intros fs; cbn.
  - destruct (run_task env fs post); reflexivity.
  - destruct (run_task env fs p) as [o fs1]. rewrite IH.
    destruct (exec_seq env order fs1) as [os fs2]. reflexivity.
Qed.

Lemma exec_seq_posts env order fs : (exec_seq env order fs).1.*1 = order.
Proof.
  revert fs. induction order as [|p order IH]; intros fs; cbn; [reflexivity|].
  destruct (run_task env fs p) as [o fs1]. specialize (IH fs1).
  destruct (exec_seq env order fs1) as [os fs2]. cbn in *. congruence.
Qed.

Lemma linearised_step env posts fs0 rs0 pl pl' :
  pool_step env pl pl' ->
  linearised env posts fs0 rs0 pl -> linearised env posts fs0 rs0 pl'.
Proof.
  intros Hstep (order & collected & Hposts & Hfiles & Hdone & Hstate).
  destruct Hstep as [before post after done fs rs
                    |todo before post outcome after fs rs];
    cbn [pending completed files state] in *.
  - exists (order ++ [post]), collected.
    cbn [pending completed files state].
    rewrite exec_seq_snoc, Hfiles. cbn [fst snd].
    split; [|split; [reflexivity|split; [|exact Hstate]]].
    + rewrite Hposts, <- !app_assoc. apply Permutation_app_head.
      cbn [app]. rewrite (app_assoc after). apply Permutation_cons_append.
    + rewrite Hdone, <- !app_assoc.
      apply Permutation_app_head, Permutation_app_comm.
  - exists order, (collected ++ [(post, outcome)]).
    cbn [pending completed files state].
    split; [exact Hposts|split; [exact Hfiles|split]].
    + rewrite Hdone, <- !app_assoc. apply Permutation_app_head.
      cbn [app]. rewrite (app_assoc after). apply Permutation_cons_append.
    + unfold collect_all. rewrite foldl_snoc. cbn [fst snd].
      f_equal. exact Hstate.
Qed.

(** Every run of [download_all] is the run of its tasks in some order
    followed by the collection of their futures in some order. *)
Lemma download_all_linearised env posts fs rs fs' rs' :
  download_all env posts fs rs fs' rs' ->
  exists order collected,
    order ≡ₚ posts
    /\ collected ≡ₚ (exec_seq env order fs).1
    /\ fs' = (exec_seq env order fs).2
    /\ rs' = collect_all collected rs.
Proof.
  unfold download_all. intros Hrun.
  assert (Hend : linearised env posts fs rs
                   {| pending := []; completed := []; files := fs';
                      state := rs' |}).
  { assert (Hstart : linearised env posts fs rs
                       {| pending := posts; completed := []; files := fs;
                          state := rs |}).
    { exists [], []. cbn. rewrite app_nil_r. auto. }
    revert Hstart. generalize dependent Hrun.
    generalize ({| pending := posts; completed := []; files := fs;
                   state := rs |}) as start.
    generalize ({| pending := []; completed := []; files := fs';
                   state := rs' |}) as stop.
    intros stop start Hrun. induction Hrun as [|x y z Hxy Hyz IH]; [auto|].
    intros Hx. apply IH. exact (linearised_step _ _ _ _ _ _ Hxy Hx). }
  destruct Hend as (order & collected & Hposts & Hfiles & Hdone & Hstate).
  cbn in *. exists order, collected. repeat split; auto; symmetry; assumption.
Qed.

(** The sequential schedule is one of the runs. *)
Lemma download_all_seq_run env posts fs rs :
  download_all env posts fs rs
    (download_all_seq env posts fs rs).1 (download_all_seq env posts fs rs).2.
Proof.
  unfold download_all. revert fs rs.
  induction posts as [|p posts IH]; intros fs rs; cbn [download_all_seq].
  - cbn. apply rtc_refl.
  - destruct (run_task env fs p) as [o fs1] eqn:E.
    eapply rtc_l.
    { exact (step_run env [] p posts [] fs rs). }
    cbn [app]. rewrite E. cbn [fst snd].
    eapply rtc_l.
    { exact (step_collect env posts [] p o [] fs1 rs). }
    cbn [app]. apply IH.
Qed.

End PoolRuns.

Section DownloadProps.

Context `{Lib : PyLib}.

Lemma download_image_unfold env fs p name :
  filename p = Ret name ->
  _download_image env fs p
  = if bool_decide (is_Some (fs !! name)) then Ret (true, fs)
    else if negb (can_stat env name) then Crash
    else Ret ((transfer env name (post_url p)).1,
              written name (transfer env name (post_url p)).2 fs).
Proof.
  intros Hname. unfold _download_image, transfer. rewrite Hname. cbn [rbind].
  destruct (bool_decide (is_Some (fs !! name))); [reflexivity|].
  destruct (negb (can_stat env name)); [reflexivity|].
  destruct (serve env (post_url p)) as [|ct body]; [reflexivity|].
  destruct (negb (startswith _ _)); [reflexivity|].
  destruct (negb (can_open env name)); [reflexivity|].
  destruct body; reflexivity.
Qed.

Lemma run_task_unfold env fs p name :
  filename p = Ret name ->
  run_task env fs p
  = if bool_decide (is_Some (fs !! name)) then (Ret true, fs)
    else if negb (can_stat env name) then (Crash, fs)
    else (Ret (transfer env name (post_url p)).1,
          written name (transfer env name (post_url p)).2 fs).
Proof.
  intros Hname. unfold run_task. rewrite (download_image_unfold _ _ _ _ Hname).
  destruct (bool_decide _); [reflexivity|].
  destruct (negb (can_stat env name)); reflexivity.
Qed.

Lemma run_task_crash env fs p :
  filename p = Crash -> run_task env fs p = (Crash, fs).
Proof.
  intros Hname. unfold run_task, _download_image. rewrite Hname. reflexivity.
Qed.

(** A task touches no path but its own target. *)
Lemma run_task_other env fs p m :
  filename p <> Ret m -> (run_task env fs p).2 !! m = fs !! m.
Proof.
  intros Hm. destruct (filename p) as [name|] eqn:Hname.
  - rewrite (run_task_unfold _ _ _ _ Hname).
    destruct (bool_decide _); [reflexivity|].
    destruct (negb (can_stat env name)); [reflexivity|]. cbn [snd].
    destruct (transfer env name (post_url p)).2; cbn [written]; [|reflexivity].
    apply lookup_insert_ne. congruence.
  - rewrite (run_task_crash _ _ _ Hname). reflexivity.
Qed.

(** A task never removes a file. *)
Lemma run_task_mono env fs p m :
  is_Some (fs !! m) -> is_Some ((run_task env fs p).2 !! m).
Proof.
  intros Hm. destruct (filename p) as [name|] eqn:Hname.
  - rewrite (run_task_unfold _ _ _ _ Hname).
    destruct (bool_decide _); [exact Hm|].
    destruct (negb (can_stat env name)); [exact Hm|]. cbn [snd].
    destruct (transfer env name (post_url p)).2; cbn [written]; [|exact Hm].
    destruct (decide (name = m)) as [->|Hne].
    + rewrite lookup_insert_eq. eauto.
    + rewrite lookup_insert_ne by exact Hne. exact Hm.
  - rewrite (run_task_crash _ _ _ Hname). exact Hm.
Qed.

(** The verdict of a task and the state of its target depend on the
    directory only through the target. *)
Lemma run_task_agree env fs cur p name :
  filename p = Ret name ->
  cur !! name = fs !! name ->
  (run_task env cur p).1 = (run_task env fs p).1
  /\ (run_task env cur p).2 !! name = (run_task env fs p).2 !! name.
Proof.
  intros Hname Hsame. rewrite !(run_task_unfold _ _ _ _ Hname), Hsame.
  destruct (bool_decide (is_Some (fs !! name))); [auto|].
  destruct (negb (can_stat env name)); [auto|]. cbn [fst snd].
  split; [reflexivity|].
  destruct (transfer env name (post_url p)).2; cbn [written]; [|exact Hsame].
  rewrite !lookup_insert_eq. reflexivity.
Qed.

Lemma run_task_pre_exists env fs p :
  pre_exists fs p = true -> run_task env fs p = (Ret true, fs).
Proof.
  unfold pre_exists. destruct (filename p) as [name|] eqn:Hname; [|discriminate].
  intros Hex. rewrite (run_task_unfold _ _ _ _ Hname), Hex. reflexivity.
Qed.

Lemma pre_exists_mono fs cur p :
  (forall m, is_Some (fs !! m) -> is_Some (cur !! m)) ->
  pre_exists fs p = true -> pre_exists cur p = true.
Proof.
  unfold pre_exists. intros Hmono. destruct (filename p); [|auto].
  rewrite !bool_decide_eq_true. apply Hmono.
Qed.

(** A task whose target was in the directory at the start succeeds in
    every order of execution. *)
Lemma exec_seq_pre_exists env order :
  forall fs cur,
    (forall m, is_Some (fs !! m) -> is_Some (cur !! m)) ->
    forall p r, (p, r) ∈ (exec_seq env order cur).1 ->
                pre_exists fs p = true -> r = Ret true.
Proof.
  induction order as [|q order IH]; intros fs cur Hmono p r Hin Hpre;
    cbn [exec_seq] in Hin.
  - cbn in Hin. inversion Hin.
  - destruct (run_task env cur q) as [o fs1] eqn:E.
    destruct (exec_seq env order fs1) as [os fs2] eqn:E2. cbn [fst] in Hin.
    apply elem_of_cons in Hin as [Heq|Hin].
    + injection Heq as -> ->.
      rewrite (run_task_pre_exists env cur q) in E
        by (eapply pre_exists_mono; eauto).
      congruence.
    + eapply (IH fs fs1); [| |exact Hpre].
      * intros m Hm. replace fs1 with (run_task env cur q).2 by (rewrite E; auto).
        apply run_task_mono, Hmono, Hm.
      * rewrite E2. exact Hin.
Qed.


(** What the collection of one future changes. *)
Lemma collect_cases q o rs kq :
  py_hash_key (post_id q) = Ret kq ->
  (o = Ret true /\ stat_downloaded (collect q o rs) = stat_downloaded rs + 1
     /\ stat_failed (collect q o rs) = stat_failed rs
     /\ downloaded (collect q o rs) = downloaded rs ∪ {[ kq ]}
     /\ failed (collect q o rs) = failed rs)
  \/ (o <> Ret true /\ stat_downloaded (collect q o rs) = stat_downloaded rs
      /\ stat_failed (collect q o rs) = stat_failed rs + 1
      /\ downloaded (collect q o rs) = downloaded rs
      /\ failed rs ⊆ failed (collect q o rs)
      /\ (o = Ret false -> kq ∈ failed (collect q o rs))).
Proof.
  intros Hkq. destruct o as [[|]|]; unfold collect; rewrite ?Hkq; cbn.
  - left. auto.
  - right. repeat split; try discriminate; set_solver.
  - right. repeat split; try discriminate; set_solver.
Qed.

Lemma collect_mono q o rs :
  downloaded rs ⊆ downloaded (collect q o rs)
  /\ failed rs ⊆ failed (collect q o rs).
Proof.
  unfold collect.
  destruct o as [[|]|]; destruct (py_hash_key (post_id q)); cbn;
    split; set_solver.
Qed.

Lemma collect_all_cons q o done rs :
  collect_all ((q, o) :: done) rs = collect_all done (collect q o rs).
Proof. reflexivity. Qed.

Lemma collect_all_mono done :
  forall rs,
    downloaded rs ⊆ downloaded (collect_all done rs)
    /\ failed rs ⊆ failed (collect_all done rs).
Proof.
  induction done as [|[q o] done IH]; intros rs; [split; reflexivity|].
  rewrite collect_all_cons.
  destruct (IH (collect q o rs)) as [Hd Hf].
  destruct (collect_mono q o rs) as [Hd1 Hf1].
  split; etrans; eassumption.
Qed.

(** The counters after the collection of [done]. *)
Lemma collect_all_counts done :
  forall rs,
    Forall (fun pr => hashable pr.1) done ->
    stat_downloaded (collect_all done rs)
    = stat_downloaded rs + Z.of_nat (length (filter succeeded done))
    /\ stat_failed (collect_all done rs)
       = stat_failed rs
         + Z.of_nat (length (filter (fun pr => ~ succeeded pr) done)).
Proof.
  induction done as [|[q o] done IH]; intros rs Hhash.
  - cbn. rewrite !Z.add_0_r. split; reflexivity.
  - apply Forall_cons in Hhash as [Hq Hhash]. cbn in Hq. unfold hashable in Hq.
    rewrite collect_all_cons.
    destruct (IH (collect q o rs) Hhash) as [-> ->].
    destruct (py_hash_key (post_id q)) as [kq|] eqn:Hkq; [|contradiction].
    rewrite !filter_cons.
    destruct (collect_cases q o rs kq Hkq)
      as [(-> & -> & -> & _)|(Hne & -> & -> & _)].
    + rewrite decide_True by reflexivity.
      rewrite decide_False by (intros N; apply N; reflexivity).
      cbn [length]. lia.
    + rewrite decide_False by exact Hne.
      rewrite decide_True by exact Hne.
      cbn [length]. lia.
Qed.

(** The identifier of every future collected as a success is in the
    dedup set, that of every future collected as a plain failure in the
    set of failures. *)
Lemma collect_all_sets done :
  forall rs p k,
    py_hash_key (post_id p) = Ret k ->
    ((p, Ret true) ∈ done -> k ∈ downloaded (collect_all done rs))
    /\ ((p, Ret false) ∈ done -> k ∈ failed (collect_all done rs)).
Proof.
  induction done as [|[q o] done IH]; intros rs p k Hk.
  - split; intros Hin; inversion Hin.
  - rewrite collect_all_cons.
    destruct (IH (collect q o rs) p k Hk) as [IHd IHf].
    destruct (collect_all_mono done (collect q o rs)) as [Hd Hf].
    split; intros Hin; apply elem_of_cons in Hin as [Heq|Hin]; auto.
    + injection Heq as <- <-. apply Hd.
      destruct (collect_cases p (Ret true) rs k Hk)
        as [(_ & _ & _ & -> & _)|(Hne & _)]; [set_solver|congruence].
    + injection Heq as <- <-. apply Hf.
      destruct (collect_cases p (Ret false) rs k Hk)
        as [(Hne & _)|(_ & _ & _ & _ & _ & Hin)]; [discriminate|auto].
Qed.

End DownloadProps.

Section DownloadResults.

Context `{Lib : PyLib}.

(** C10.  Whatever the schedule of the pool, when [download_all] is
    through with candidates whose identifiers are hashable, the candidates
    fall into successes and failures: [stats['downloaded']] has grown by
    the number of successes and [stats['failed']] by the number of
    failures, so that the two increments add up to the number of
    candidates ([stats['skipped']] is not touched by this phase).  No
    candidate whose target file was there at the start is among the
    failures, and the identifier of every success is in the dedup set. *)
Theorem download_all_classifies (env : download_env) (posts : list RedditPost)
    (fs fs' : gmap string (list Byte.byte)) (rs rs' : run_state) :
  download_all env posts fs rs fs' rs' ->
  Forall hashable posts ->
  exists successes failures,
    posts ≡ₚ successes ++ failures
    /\ stat_downloaded rs' = stat_downloaded rs + Z.of_nat (length successes)
    /\ stat_failed rs' = stat_failed rs + Z.of_nat (length failures)
    /\ (stat_downloaded rs' - stat_downloaded rs)
       + (stat_failed rs' - stat_failed rs) = Z.of_nat (length posts)
    /\ (forall p, p ∈ failures -> pre_exists fs p = false)
    /\ (forall p k, p ∈ successes -> py_hash_key (post_id p) = Ret k ->
                    k ∈ downloaded rs')
    /\ downloaded rs ⊆ downloaded rs'.
Proof.
  intros Hrun Hhash.
  destruct (download_all_linearised env posts fs rs fs' rs' Hrun)
    as (order & collected & Horder & Hcoll & -> & ->).
  assert (Hposts : posts ≡ₚ collected.*1).
  { rewrite <- Horder, Hcoll, exec_seq_posts. reflexivity. }
  assert (Hhash' : Forall (fun pr => hashable pr.1) collected).
  { rewrite Hposts in Hhash. rewrite Forall_fmap in Hhash.
    eapply Forall_impl; [exact Hhash|]. intros pr Hpr. exact Hpr. }
  destruct (collect_all_counts collected rs Hhash') as [Hd Hf].
  exists (filter succeeded collected).*1,
         (filter (fun pr => ~ succeeded pr) collected).*1.
  assert (Hsplit : posts ≡ₚ (filter succeeded collected).*1
                     ++ (filter (fun pr => ~ succeeded pr) collected).*1).
  { rewrite Hposts, <- fmap_app. apply fmap_Permutation. symmetry.
    apply filter_app_complement. }
  rewrite !length_fmap.
  split; [exact Hsplit|]. split; [exact Hd|]. split; [exact Hf|].
  split; [|split; [|split]].
  - rewrite Hd, Hf, (Permutation_length Hsplit), length_app, !length_fmap. lia.
  - intros p Hp. apply list_elem_of_fmap in Hp as ([q o] & -> & Hq).
    apply list_elem_of_filter in Hq as [Hfail Hq]. cbn [fst].
    destruct (pre_exists fs q) eqn:Hpre; [|reflexivity].
    exfalso. apply Hfail. unfold succeeded. cbn [snd].
    rewrite Hcoll in Hq.
    exact (exec_seq_pre_exists env order fs fs (fun m Hm => Hm) q o Hq Hpre).
  - intros p k Hp Hk. apply list_elem_of_fmap in Hp as ([q o] & -> & Hq).
    apply list_elem_of_filter in Hq as [Hok Hq]. unfold succeeded in Hok.
    cbn [fst snd] in *. subst o.
    exact (proj1 (collect_all_sets collected rs q k Hk) Hq).
  - apply collect_all_mono.
Qed.

(** A path that the file system refuses makes the existence test raise:
    the call ends with the exception, before any request. *)
Lemma download_image_refused env fs post name :
  filename post = Ret name ->
  fs !! name = None ->
  can_stat env name = false ->
  _download_image env fs post = Crash.
Proof.
  intros Hname Hfree Hstat. rewrite (download_image_unfold env fs post name Hname).
  rewrite bool_decide_eq_false_2 by (rewrite Hfree; apply is_Some_None).
  rewrite Hstat. reflexivity.
Qed.


End DownloadResults.

Section Isolation.

Context `{Lib : PyLib}.

Lemma exec_seq_other env order :
  forall cur m,
    (forall p, p ∈ order -> filename p <> Ret m) ->
    (exec_seq env order cur).2 !! m = cur !! m.
Proof.
  induction order as [|q order IH]; intros cur m Hm; cbn [exec_seq];
    [reflexivity|].
  destruct (run_task env cur q) as [o fs1] eqn:E.
  specialize (IH fs1 m).
  destruct (exec_seq env order fs1) as [os fs2]. cbn [snd] in *.
  rewrite IH by (intros p Hp; apply Hm; set_solver).
  replace fs1 with (run_task env cur q).2 by (rewrite E; reflexivity).
  apply run_task_other, Hm. set_solver.
Qed.

(** With pairwise distinct targets the tasks do not see each other: in
    every order each task returns what it returns when run alone on the
    directory of the start, and leaves its target as it then leaves it. *)
Lemma exec_seq_independent env order :
  forall fs cur,
    NoDup (filename <$> order) ->
    Forall (fun p => filename p <> Crash) order ->
    (forall p n, p ∈ order -> filename p = Ret n -> cur !! n = fs !! n) ->
    (exec_seq env order cur).1
    = (fun p => (p, (run_task env fs p).1)) <$> order
    /\ (forall p n, p ∈ order -> filename p = Ret n ->
          (exec_seq env order cur).2 !! n = (run_task env fs p).2 !! n).
Proof.
  induction order as [|q order IH]; intros fs cur Hnodup Hnames Hsame.
  - split; [reflexivity|]. intros p n Hp. inversion Hp.
  - rewrite fmap_cons in Hnodup. apply NoDup_cons in Hnodup as [Hq Hnodup].
    apply Forall_cons in Hnames as [Hqname Hnames].
    destruct (filename q) as [nq|] eqn:Hnq; [|contradiction].
    destruct (run_task_agree env fs cur q nq Hnq) as [Hres Hfile].
    { apply (Hsame q nq); [set_solver|exact Hnq]. }
    assert (Hothers : forall p, p ∈ order -> filename p <> Ret nq).
    { intros p Hp Heq. apply Hq. rewrite <- Heq.
      apply list_elem_of_fmap. eauto. }
    pose proof (exec_seq_other env order (run_task env cur q).2 nq Hothers)
      as Hkeep.
    destruct (IH fs (run_task env cur q).2 Hnodup Hnames) as [IH1 IH2].
    { intros p n Hp Hn. rewrite run_task_other.
      - apply (Hsame p n); [set_solver|exact Hn].
      - rewrite Hnq. intros Heq. injection Heq as ->.
        exact (Hothers p Hp Hn). }
    cbn [exec_seq]. destruct (run_task env cur q) as [o fs1] eqn:E.
    cbn [fst snd] in *.
    destruct (exec_seq env order fs1) as [os fs2] eqn:E2. cbn [fst snd] in *.
    split.
    + rewrite fmap_cons. congruence.
    + intros p n Hp Hn. apply elem_of_cons in Hp as [->|Hp]; [|eauto].
      rewrite Hnq in Hn. injection Hn as <-. congruence.
Qed.

Lemma length_filter_outcomes (g : RedditPost -> res bool) (l : list RedditPost) :
  length (filter succeeded ((fun p => (p, g p)) <$> l))
  = length (filter (fun p => g p = Ret true) l)
  /\ length (filter (fun pr => ~ succeeded pr) ((fun p => (p, g p)) <$> l))
     = length (filter (fun p => g p <> Ret true) l).
Proof.
  induction l as [|p l [IH1 IH2]]; [split; reflexivity|].
  rewrite fmap_cons, !filter_cons.
  repeat case_decide; unfold succeeded in *; cbn [snd] in *;
    try tauto; cbn [length]; auto.
Qed.

(** Every run of [download_all] over candidates with hashable
    identifiers and pairwise distinct file names ends as if each candidate
    had been downloaded alone. *)
Lemma download_all_independent env posts fs fs' rs rs' :
  download_all env posts fs rs fs' rs' ->
  Forall hashable posts ->
  Forall (fun p => filename p <> Crash) posts ->
  NoDup (filename <$> posts) ->
  stat_downloaded rs'
  = stat_downloaded rs
    + Z.of_nat (length (filter (fun p => (run_task env fs p).1 = Ret true) posts))
  /\ stat_failed rs'
     = stat_failed rs
       + Z.of_nat (length (filter (fun p => (run_task env fs p).1 <> Ret true)
                                  posts))
  /\ (forall p n, p ∈ posts -> filename p = Ret n ->
        fs' !! n = (run_task env fs p).2 !! n)
  /\ (forall p k, p ∈ posts -> (run_task env fs p).1 = Ret false ->
        py_hash_key (post_id p) = Ret k -> k ∈ failed rs').
Proof.
  intros Hrun Hhash Hnames Hnodup.
  destruct (download_all_linearised env posts fs rs fs' rs' Hrun)
    as (order & collected & Horder & Hcoll & -> & ->).
  rewrite <- Horder in Hhash, Hnames, Hnodup.
  destruct (exec_seq_independent env order fs fs Hnodup Hnames)
    as [Hres Hfiles]; [reflexivity|].
  rewrite Hres in Hcoll.
  assert (Hhash' : Forall (fun pr => hashable pr.1) collected).
  { rewrite Hcoll, Forall_fmap. exact Hhash. }
  destruct (collect_all_counts collected rs Hhash') as [-> ->].
  destruct (length_filter_outcomes (fun p => (run_task env fs p).1) order)
    as [L1 L2].
  rewrite Hcoll, L1, L2, Horder.
  split; [reflexivity|]. split; [reflexivity|]. split.
  - intros p n Hp. rewrite <- Horder in Hp. apply Hfiles, Hp.
  - intros p k Hp Hfalse Hk.
    apply (proj2 (collect_all_sets collected rs p k Hk)).
    rewrite Hcoll. apply list_elem_of_fmap. exists p.
    rewrite Hfalse, Horder. auto.
Qed.

(** A task whose answer has the wrong content type writes nothing and
    fails unless its target is already there. *)
Lemma run_task_content_type env cur p n content_type body :
  filename p = Ret n ->
  can_stat env n = true ->
  serve env (post_url p) = DlOpened content_type body ->
  startswith (default "" content_type) "image/" = false ->
  run_task env cur p = (Ret (bool_decide (is_Some (cur !! n))), cur).
Proof.
  intros Hn Hstat Hserve Htype. rewrite (run_task_unfold env cur p n Hn).
  unfold transfer. rewrite Hstat, Hserve, Htype. cbn.
  destruct (bool_decide _); reflexivity.
Qed.















End Isolation.

(** ** The download phase on five candidates

    Five image links with distinct names; the server answers the third
    with an HTML page and the others with an image. *)

Lemma five_posts_hashable : Forall hashable five_posts.
Proof. repeat constructor; discriminate. Qed.

Lemma five_posts_named :
  Forall (fun p => filename (Lib := reference_lib) p <> Crash) five_posts.
Proof. repeat constructor; vm_compute; discriminate. Qed.

Lemma five_posts_distinct :
  NoDup (filename (Lib := reference_lib) <$> five_posts).
Proof. apply (bool_decide_unpack _). vm_compute. exact I. Qed.


(** The condition on the targets cannot be dropped.  A candidate whose
    target was written by another candidate makes no request and gets no
    answer: it is counted as downloaded, whatever the server would have
    answered. *)
Example same_target_no_request :
  wrong_type five_env (image_post "p3" "Three" "https://i.redd.it/3.png")
  = true
  /\ stat_downloaded
       (download_all_seq (Lib := reference_lib) five_env same_target_posts
          ∅ fresh_state).2 = 2
  /\ stat_failed
       (download_all_seq (Lib := reference_lib) five_env same_target_posts
          ∅ fresh_state).2 = 0.
Proof. repeat split; vm_compute; reflexivity. Qed.

(** A name that the file system refuses: the existence test raises, no
    request is made, the failure is counted and the identifier is not
    recorded in the set of failures. *)
Example refused_name_counts_as_failure :
  _download_image (Lib := reference_lib) short_names_env ∅ long_id_post
  = Crash
  /\ stat_failed
       (download_all_seq (Lib := reference_lib) short_names_env
          [long_id_post] ∅ fresh_state).2 = 1
  /\ failed
       (download_all_seq (Lib := reference_lib) short_names_env
          [long_id_post] ∅ fresh_state).2 = ∅
  /\ (download_all_seq (Lib := reference_lib) short_names_env
        [long_id_post] ∅ fresh_state).1 = ∅.
Proof. repeat split; vm_compute; reflexivity. Qed.

(** One failure and four successes, in every schedule, and no file for
    the candidate that failed. *)
Example five_candidates_any_schedule fs' rs' :
  download_all (Lib := reference_lib) five_env five_posts ∅ fresh_state fs' rs' ->
  stat_downloaded rs' = 4 /\ stat_failed rs' = 1
  /\ fs' !! "p3_Three.png" = None
  /\ fs' !! "p4_Four.png" = Some png_body
  /\ KStr "p3" ∈ failed rs'.
Proof.
  intros Hrun.
  destruct (download_all_independent (Lib := reference_lib) five_env
              five_posts ∅ fs' fresh_state rs' Hrun five_posts_hashable
              five_posts_named five_posts_distinct)
    as (Hd & Hf & Hfiles & Hfailed).
  split; [rewrite Hd; vm_compute; reflexivity|].
  split; [rewrite Hf; vm_compute; reflexivity|].
  split; [|split].
  - rewrite (Hfiles (image_post "p3" "Three" "https://i.redd.it/3.png")
               "p3_Three.png"); [vm_compute; reflexivity| |vm_compute; reflexivity].
    unfold five_posts. set_solver.
  - rewrite (Hfiles (image_post "p4" "Four" "https://i.redd.it/4.png")
               "p4_Four.png"); [vm_compute; reflexivity| |vm_compute; reflexivity].
    unfold five_posts. set_solver.
  - apply (Hfailed (image_post "p3" "Three" "https://i.redd.it/3.png"));
      [unfold five_posts; set_solver|vm_compute; reflexivity|reflexivity].
Qed.

Example five_candidates_one_worker :
  stat_downloaded five_run.2 = 4 /\ stat_failed five_run.2 = 1
  /\ five_run.1 !! "p3_Three.png" = None.
Proof. repeat split; vm_compute; reflexivity. Qed.



(** In [directory_with_first] the first target is already there: the
    candidate is counted as downloaded, without transfer. *)
Lemma download_all_classifies_witness :
  exists successes failures,
    five_posts ≡ₚ successes ++ failures
    /\ stat_downloaded
         (download_all_seq (Lib := reference_lib) five_env five_posts
            directory_with_first fresh_state).2
       = stat_downloaded fresh_state + Z.of_nat (length successes)
    /\ stat_failed
         (download_all_seq (Lib := reference_lib) five_env five_posts
            directory_with_first fresh_state).2
       = stat_failed fresh_state + Z.of_nat (length failures)
    /\ (stat_downloaded
          (download_all_seq (Lib := reference_lib) five_env five_posts
             directory_with_first fresh_state).2
        - stat_downloaded fresh_state)
       + (stat_failed
            (download_all_seq (Lib := reference_lib) five_env five_posts
               directory_with_first fresh_state).2
          - stat_failed fresh_state)
       = Z.of_nat (length five_posts)
    /\ (forall p, p ∈ failures ->
                  pre_exists (Lib := reference_lib) directory_with_first p = false)
    /\ (forall p k, p ∈ successes -> py_hash_key (post_id p) = Ret k ->
          k ∈ downloaded
                (download_all_seq (Lib := reference_lib) five_env five_posts
                   directory_with_first fresh_state).2)
    /\ downloaded fresh_state
       ⊆ downloaded
           (download_all_seq (Lib := reference_lib) five_env five_posts
              directory_with_first fresh_state).2.
Proof.
  apply (download_all_classifies (Lib := reference_lib) five_env five_posts
           directory_with_first
           (download_all_seq (Lib := reference_lib) five_env five_posts
              directory_with_first fresh_state).1).
  - apply download_all_seq_run.
  - exact five_posts_hashable.
Defined.

Example existing_target_counts_as_downloaded :
  pre_exists (Lib := reference_lib) directory_with_first
    (image_post "p1" "One" "https://i.redd.it/1.png") = true
  /\ stat_downloaded
       (download_all_seq (Lib := reference_lib) five_env five_posts
          directory_with_first fresh_state).2 = 4
  /\ stat_failed
       (download_all_seq (Lib := reference_lib) five_env five_posts
          directory_with_first fresh_state).2 = 1.
Proof. repeat split; vm_compute; reflexivity. Qed.

(** * Further properties of the code *)

(** ** [_parse_post]: what a post that passed the filter satisfies *)

Section ParseInvariants.

Context `{Lib : PyLib}.

(** The tests a post went through, read back from the post. *)
Lemma parse_post_inversion cfg entry p :
  _parse_post cfg entry = Ret (Some p) ->
  exists data is_self is_video over_18,
    py_get entry "data" (JDict []) = Ret data
    /\ py_get data "is_self" (JBool true) = Ret is_self
    /\ truthy is_self = false
    /\ py_get data "is_video" (JBool true) = Ret is_video
    /\ truthy is_video = false
    /\ py_get data "over_18" (JBool true) = Ret over_18
    /\ (truthy over_18 = true -> cfg_include_nsfw cfg = true)
    /\ post_is_nsfw p = over_18
    /\ _extract_image_url data = Ret (Some (post_url p))
    /\ post_url p <> ""
    /\ py_get data "score" (JInt 0) = Ret (post_score p)
    /\ py_lt (post_score p) (cfg_min_score cfg) = Ret false
    /\ below_minimum (post_width p) (cfg_min_width cfg) = Ret false
    /\ below_minimum (post_height p) (cfg_min_height cfg) = Ret false.
Proof.
  intros Hp. unfold _parse_post in Hp.
  destruct (py_get entry "data" (JDict [])) as [data|] eqn:Hdata;
    cbn [rbind] in Hp; [|discriminate].
  destruct (py_get data "is_self" (JBool true)) as [is_self|] eqn:Hself;
    cbn [rbind] in Hp; [|discriminate].
  destruct (truthy is_self) eqn:Tself; [discriminate|].
  destruct (py_get data "is_video" (JBool true)) as [is_video|] eqn:Hvideo;
    cbn [rbind] in Hp; [|discriminate].
  destruct (truthy is_video) eqn:Tvideo; [discriminate|].
  destruct (py_get data "over_18" (JBool true)) as [over_18|] eqn:Hover;
    cbn [rbind] in Hp; [|discriminate].
  destruct (truthy over_18 && negb (cfg_include_nsfw cfg)) eqn:Tover;
    [discriminate|].
  destruct (_extract_image_url data) as [[[|c u]|]|] eqn:Hurl;
    cbn [rbind] in Hp; try discriminate.
  destruct (py_get data "score" (JInt 0)) as [score|] eqn:Hscore;
    cbn [rbind] in Hp; [|discriminate].
  destruct (py_lt score (cfg_min_score cfg)) as [[|]|] eqn:Hlow;
    cbn [rbind] in Hp; try discriminate.
  destruct (preview_source data) as [src|]; cbn [rbind] in Hp; [|discriminate].
  match type of Hp with
  | context [rbind ?m _] => destruct m as [dims|]; cbn [rbind] in Hp;
                            [|discriminate]
  end.
  destruct (below_minimum dims.1 (cfg_min_width cfg)) as [[|]|] eqn:Hw;
    cbn [rbind] in Hp; try discriminate.
  destruct (below_minimum dims.2 (cfg_min_height cfg)) as [[|]|] eqn:Hh;
    cbn [rbind] in Hp; try discriminate.
  repeat match type of Hp with
         | context [rbind ?m _] => destruct m; cbn [rbind] in Hp;
                                   [|discriminate]
         end.
  injection Hp as <-. cbn [post_url post_score post_width post_height
                           post_is_nsfw].
  exists data, is_self, is_video, over_18.
  repeat split; auto; try discriminate.
  intros T. rewrite T in Tover. destruct (cfg_include_nsfw cfg);
    [reflexivity|discriminate].
Qed.

End ParseInvariants.

Section ParseExtras.

Context `{Lib : PyLib}.

(** X1.  A post never comes without the URL the resolver found for its entry,
    and that URL is not empty. *)
Theorem parse_post_url_resolved (cfg : ScraperConfig) (entry : json)
    (p : RedditPost) :
  _parse_post cfg entry = Ret (Some p) ->
  post_url p <> ""
  /\ exists data,
       py_get entry "data" (JDict []) = Ret data
       /\ _extract_image_url data = Ret (Some (post_url p)).
Proof.
  intros Hp.
  destruct (parse_post_inversion cfg entry p Hp)
    as (data & is_self & is_video & over_18 & Hdata & _ & _ & _ & _ & _ & _
        & _ & Hurl & Hne & _).
  split; [exact Hne|]. exists data. auto.
Qed.

(** X2.  The thresholds: the score of a post is not below [min_score], and a
    known (non-zero) width or height is not below a non-zero minimum. *)
Theorem parse_post_thresholds (cfg : ScraperConfig) (entry : json)
    (p : RedditPost) :
  _parse_post cfg entry = Ret (Some p) ->
  (forall s, post_score p = JInt s -> cfg_min_score cfg <= s)
  /\ (forall w, post_width p = JInt w -> w <> 0 -> cfg_min_width cfg <> 0 ->
                cfg_min_width cfg <= w)
  /\ (forall h, post_height p = JInt h -> h <> 0 -> cfg_min_height cfg <> 0 ->
                cfg_min_height cfg <= h).
Proof.
  intros Hp.
  destruct (parse_post_inversion cfg entry p Hp)
    as (data & is_self & is_video & over_18 & _ & _ & _ & _ & _ & _ & _
        & _ & _ & _ & _ & Hscore & Hw & Hh).
  assert (Hdim : forall v m d, below_minimum v m = Ret false -> v = JInt d ->
                               d <> 0 -> m <> 0 -> m <= d).
  { intros v m d Hb -> Hd Hm. unfold below_minimum in Hb. cbn in Hb.
    destruct (Z.eqb_spec d 0); [contradiction|].
    destruct (Z.eqb_spec m 0); [contradiction|]. cbn in Hb.
    injection Hb as Hb. lia. }
  split; [|split].
  - intros s Hs. rewrite Hs in Hscore. cbn in Hscore. injection Hscore as Hs'.
    lia.
  - intros w. apply Hdim, Hw.
  - intros h. apply Hdim, Hh.
Qed.

(** X3.  The content flags: a post never comes from an entry flagged as self
    post or as video, comes from a sensitive entry only when
    [include_nsfw] is set, and carries the entry's [over_18] value. *)
Theorem parse_post_content_flags (cfg : ScraperConfig) (entry : json)
    (p : RedditPost) :
  _parse_post cfg entry = Ret (Some p) ->
  exists data is_self is_video,
    py_get entry "data" (JDict []) = Ret data
    /\ py_get data "is_self" (JBool true) = Ret is_self
    /\ truthy is_self = false
    /\ py_get data "is_video" (JBool true) = Ret is_video
    /\ truthy is_video = false
    /\ py_get data "over_18" (JBool true) = Ret (post_is_nsfw p)
    /\ (truthy (post_is_nsfw p) = true -> cfg_include_nsfw cfg = true).
Proof.
  intros Hp.
  destruct (parse_post_inversion cfg entry p Hp)
    as (data & is_self & is_video & over_18 & Hdata & Hself & Tself & Hvideo
        & Tvideo & Hover & Hnsfw & -> & _).
  exists data, is_self, is_video. auto 10.
Qed.

(** X4.  Lowering [min_score] never loses a post: an entry accepted under a
    threshold is accepted, as the same post, under every lower one. *)
Theorem parse_post_min_score_monotone (cfg : ScraperConfig) (m : Z)
    (entry : json) (p : RedditPost) :
  cfg_min_score cfg <= m ->
  _parse_post (with_min_score cfg m) entry = Ret (Some p) ->
  _parse_post cfg entry = Ret (Some p).
Proof.
  intros Hle Hp. unfold _parse_post in Hp |- *.
  cbn [with_min_score cfg_include_nsfw cfg_min_score cfg_min_width
       cfg_min_height cfg_subreddit] in Hp.
  destruct (py_get entry "data" (JDict [])) as [data|];
    cbn [rbind] in Hp |- *; [|discriminate].
  destruct (py_get data "is_self" (JBool true)) as [is_self|];
    cbn [rbind] in Hp |- *; [|discriminate].
  destruct (truthy is_self); [discriminate|].
  destruct (py_get data "is_video" (JBool true)) as [is_video|];
    cbn [rbind] in Hp |- *; [|discriminate].
  destruct (truthy is_video); [discriminate|].
  destruct (py_get data "over_18" (JBool true)) as [over_18|];
    cbn [rbind] in Hp |- *; [|discriminate].
  destruct (truthy over_18 && negb (cfg_include_nsfw cfg)); [discriminate|].
  destruct (_extract_image_url data) as [[[|c u]|]|];
    cbn [rbind] in Hp |- *; try discriminate.
  destruct (py_get data "score" (JInt 0)) as [score|];
    cbn [rbind] in Hp |- *; [|discriminate].
  destruct (py_lt score m) as [[|]|] eqn:Hlow;
    cbn [rbind] in Hp; try discriminate.
  assert (Hlow' : py_lt score (cfg_min_score cfg) = Ret false).
  { destruct score; cbn in Hlow |- *; try discriminate;
      injection Hlow as Hlow; f_equal; lia. }
  rewrite Hlow'. cbn [rbind]. exact Hp.
Qed.

End ParseExtras.

Lemma parse_post_url_resolved_witness :
  post_url sized_post <> ""
  /\ exists data,
       py_get sized_entry "data" (JDict []) = Ret data
       /\ _extract_image_url (Lib := reference_lib) data
          = Ret (Some (post_url sized_post)).
Proof.
  apply (parse_post_url_resolved (Lib := reference_lib) strict_config
           sized_entry sized_post).
  vm_compute. reflexivity.
Defined.

Lemma parse_post_thresholds_witness :
  (forall s, post_score sized_post = JInt s -> cfg_min_score strict_config <= s)
  /\ (forall w, post_width sized_post = JInt w -> w <> 0 ->
                cfg_min_width strict_config <> 0 ->
                cfg_min_width strict_config <= w)
  /\ (forall h, post_height sized_post = JInt h -> h <> 0 ->
                cfg_min_height strict_config <> 0 ->
                cfg_min_height strict_config <= h).
Proof.
  apply (parse_post_thresholds (Lib := reference_lib) strict_config
           sized_entry sized_post).
  vm_compute. reflexivity.
Defined.

Lemma parse_post_content_flags_witness :
  exists data is_self is_video,
    py_get sized_entry "data" (JDict []) = Ret data
    /\ py_get data "is_self" (JBool true) = Ret is_self
    /\ truthy is_self = false
    /\ py_get data "is_video" (JBool true) = Ret is_video
    /\ truthy is_video = false
    /\ py_get data "over_18" (JBool true) = Ret (post_is_nsfw sized_post)
    /\ (truthy (post_is_nsfw sized_post) = true ->
        cfg_include_nsfw strict_config = true).
Proof.
  apply (parse_post_content_flags (Lib := reference_lib) strict_config
           sized_entry sized_post).
  vm_compute. reflexivity.
Defined.

Lemma parse_post_min_score_monotone_witness :
  _parse_post (Lib := reference_lib) strict_config sized_entry
  = Ret (Some sized_post).
Proof.
  apply (parse_post_min_score_monotone (Lib := reference_lib) strict_config
           200 sized_entry sized_post).
  - vm_compute. discriminate.
  - vm_compute. reflexivity.
Defined.

(** The filter does reject: a score below the minimum, or a known width
    below the minimum, gives no post. *)
Example parse_post_rejects :
  _parse_post (Lib := reference_lib) (with_min_score strict_config 251)
    sized_entry = Ret None
  /\ _parse_post (Lib := reference_lib)
       {| cfg_subreddit := "pics"; cfg_output_dir := "downloads";
          cfg_limit := 25; cfg_sort := "hot"; cfg_time_filter := "week";
          cfg_min_width := 2560; cfg_min_height := 0; cfg_min_score := 0;
          cfg_include_nsfw := false; cfg_max_workers := 5;
          cfg_delay := 1 # 2; cfg_skip_existing := true;
          cfg_verbose := true |}
       sized_entry = Ret None.
Proof. split; vm_compute; reflexivity. Qed.

(** ** [fetch_posts]: what holds of every run *)

Section FetchInvariants.

Context `{Lib : PyLib}.

(** A property of the loop locals that the two updates of the [for] loop
    keep is kept by the whole loop. *)
Lemma scan_children_invariant (I : fetch_state -> Prop) cfg dl :
  (forall st child p k,
      I st -> fetched st < cfg_limit cfg ->
      _parse_post cfg child = Ret (Some p) ->
      py_hash_key (post_id p) = Ret k ->
      (k ∈ dl -> I {| posts := posts st; fetched := fetched st;
                      skipped := skipped st + 1 |})
      /\ (k ∉ dl -> I {| posts := posts st ++ [p];
                         fetched := fetched st + 1;
                         skipped := skipped st |})) ->
  forall children st st',
    I st -> scan_children cfg dl children st = Ret st' -> I st'.
Proof.
  intros Hstep. induction children as [|c cs IH]; intros st st' Hst Hscan;
    cbn [scan_children] in Hscan.
  - injection Hscan as <-. exact Hst.
  - destruct (Z.geb_spec (fetched st) (cfg_limit cfg)) as [|Hlt];
      [injection Hscan as <-; exact Hst|].
    destruct (_parse_post cfg c) as [[p|]|] eqn:Hp; cbn [rbind] in Hscan;
      [|eauto|discriminate].
    destruct (py_hash_key (post_id p)) as [k|] eqn:Hk; cbn [rbind] in Hscan;
      [|discriminate].
    destruct (Hstep st c p k Hst Hlt Hp Hk) as [Hin Hout].
    destruct (bool_decide (k ∈ dl)) eqn:Hdec.
    + apply bool_decide_eq_true in Hdec. eapply IH; [|exact Hscan]. auto.
    + apply bool_decide_eq_false in Hdec. eapply IH; [|exact Hscan]. auto.
Qed.

Lemma fetch_loop_invariant (I : fetch_state -> Prop) cfg dl :
  (forall children st st',
      I st -> scan_children cfg dl children st = Ret st' -> I st') ->
  forall fuel script after st tr r st',
    I st ->
    fetch_loop fuel cfg dl script after st tr = Some r ->
    final r = Ret st' ->
    I st'.
Proof.
  intros Hscan. induction fuel as [|fuel IH];
    intros script after st tr r st' Hst Hrun Hfin; cbn [fetch_loop] in Hrun.
  - destruct (fetched st <? cfg_limit cfg); [discriminate|].
    injection Hrun as <-. injection Hfin as <-. exact Hst.
  - destruct (fetched st <? cfg_limit cfg);
      [|injection Hrun as <-; injection Hfin as <-; exact Hst].
    destruct (_make_request 0 (_build_url cfg after) script)
      as [[data script'] evs].
    destruct (negb (truthy data));
      [injection Hrun as <-; injection Hfin as <-; exact Hst|].
    destruct (let* inner := py_get data "data" (JDict []) in
              py_get inner "children" (JList [])) as [children|];
      [|injection Hrun as <-; discriminate Hfin].
    destruct (negb (truthy children));
      [injection Hrun as <-; injection Hfin as <-; exact Hst|].
    destruct (py_iter children) as [items|]; cbn [rbind] in Hrun;
      [|injection Hrun as <-; discriminate Hfin].
    destruct (scan_children cfg dl items st) as [st1|] eqn:Hitems;
      cbn [rbind] in Hrun; [|injection Hrun as <-; discriminate Hfin].
    pose proof (Hscan items st st1 Hst Hitems) as Hst1.
    destruct (let* inner := py_get data "data" (JDict []) in
              let* after' := py_get inner "after" JNull in
              Ret (st1, after')) as [[st2 after']|] eqn:Hafter;
      [|injection Hrun as <-; discriminate Hfin].
    assert (st2 = st1) as ->.
    { destruct (py_get data "data" (JDict [])) as [inner|];
        cbn [rbind] in Hafter; [|discriminate].
      destruct (py_get inner "after" JNull); cbn [rbind] in Hafter;
        [|discriminate].
      congruence. }
    destruct (negb (truthy after'));
      [injection Hrun as <-; injection Hfin as <-; exact Hst1|].
    exact (IH _ _ _ _ _ _ Hst1 Hrun Hfin).
Qed.

Lemma fetch_posts_invariant (I : fetch_state -> Prop) cfg dl script r st :
  (forall st child p k,
      I st -> fetched st < cfg_limit cfg ->
      _parse_post cfg child = Ret (Some p) ->
      py_hash_key (post_id p) = Ret k ->
      (k ∈ dl -> I {| posts := posts st; fetched := fetched st;
                      skipped := skipped st + 1 |})
      /\ (k ∉ dl -> I {| posts := posts st ++ [p];
                         fetched := fetched st + 1;
                         skipped := skipped st |})) ->
  I {| posts := []; fetched := 0; skipped := 0 |} ->
  fetch_posts cfg dl script = Some r ->
  final r = Ret st ->
  I st.
Proof.
  intros Hstep Hinit Hrun Hfin. unfold fetch_posts in Hrun.
  eapply (fetch_loop_invariant I cfg dl); [|exact Hinit|exact Hrun|exact Hfin].
  apply scan_children_invariant, Hstep.
Qed.

(** X5.  Whatever the server answers, [fetch_posts] returns at most [limit]
    posts, none for a limit that is not positive, and its counter
    [fetched] is the length of the list. *)
Theorem fetch_posts_bounded (cfg : ScraperConfig) (dl : gset pykey)
    (script : list response) (r : fetch_result) (st : fetch_state) :
  fetch_posts cfg dl script = Some r ->
  final r = Ret st ->
  Z.of_nat (length (posts st)) <= Z.max 0 (cfg_limit cfg)
  /\ fetched st = Z.of_nat (length (posts st)).
Proof.
  intros Hrun Hfin.
  assert (H : fetched st = Z.of_nat (length (posts st))
              /\ fetched st <= Z.max 0 (cfg_limit cfg)).
  { apply (fetch_posts_invariant
             (fun s => fetched s = Z.of_nat (length (posts s))
                       /\ fetched s <= Z.max 0 (cfg_limit cfg))
             cfg dl script r st); [| |exact Hrun|exact Hfin].
    - intros s child p k [Hlen Hmax] Hlt _ _. cbn [posts fetched]. split.
      + auto.
      + intros _. rewrite length_app. cbn [length]. lia.
    - cbn. lia. }
  destruct H as [Hlen Hmax]. split; [lia|exact Hlen].
Qed.

(** X6.  Every post that [fetch_posts] returns is the parse of an entry, and
    its identifier is not in the dedup set. *)
Theorem fetch_posts_fresh (cfg : ScraperConfig) (dl : gset pykey)
    (script : list response) (r : fetch_result) (st : fetch_state) :
  fetch_posts cfg dl script = Some r ->
  final r = Ret st ->
  Forall (fun p => (exists child, _parse_post cfg child = Ret (Some p))
                   /\ exists k, py_hash_key (post_id p) = Ret k /\ k ∉ dl)
         (posts st).
Proof.
  intros Hrun Hfin.
  apply (fetch_posts_invariant
           (fun s => Forall (fun p =>
                       (exists child, _parse_post cfg child = Ret (Some p))
                       /\ exists k, py_hash_key (post_id p) = Ret k /\ k ∉ dl)
                     (posts s))
           cfg dl script r st); [| |exact Hrun|exact Hfin].
  - intros s child p k Hs _ Hp Hk. cbn [posts]. split; [auto|].
    intros Hout. apply Forall_app. split; [exact Hs|].
    constructor; [|constructor]. eauto.
  - constructor.
Qed.

(** X7.  The counter of skipped entries never goes below zero, and with
    [skip_existing] off nothing is skipped: the dedup set is empty and the
    counter is zero at the end. *)
Theorem fetch_posts_no_skip (cfg : ScraperConfig) (listing : list dir_entry)
    (script : list response) (r : fetch_result) (st : fetch_state) :
  fetch_posts cfg (init_downloaded cfg listing) script = Some r ->
  final r = Ret st ->
  0 <= skipped st
  /\ (cfg_skip_existing cfg = false -> skipped st = 0).
Proof.
  intros Hrun Hfin. split.
  - apply (fetch_posts_invariant (fun s => 0 <= skipped s)
             cfg (init_downloaded cfg listing) script r st);
      [| |exact Hrun|exact Hfin].
    + intros s child p k Hs _ _ _. cbn [skipped]. split; intros _; lia.
    + cbn. lia.
  - intros Hoff.
    apply (fetch_posts_invariant (fun s => skipped s = 0)
             cfg (init_downloaded cfg listing) script r st);
      [| |exact Hrun|exact Hfin].
    + intros s child p k Hs _ _ _. cbn [skipped]. split; [|auto].
      unfold init_downloaded. rewrite Hoff. intros Hin.
      apply not_elem_of_empty in Hin. contradiction.
    + reflexivity.
Qed.

End FetchInvariants.

Lemma fetch_posts_bounded_witness :
  Z.of_nat (length (posts (state_of two_pages_run)))
  <= Z.max 0 (cfg_limit config_five)
  /\ fetched (state_of two_pages_run)
     = Z.of_nat (length (posts (state_of two_pages_run))).
Proof.
  apply (fetch_posts_bounded (Lib := reference_lib) config_five ∅
           [page_response page_one; page_response page_two]
           two_pages_run (state_of two_pages_run));
    vm_compute; reflexivity.
Defined.

Lemma fetch_posts_fresh_witness :
  Forall (fun p =>
            (exists child,
                _parse_post (Lib := reference_lib) config_five child
                = Ret (Some p))
            /\ exists k, py_hash_key (post_id p) = Ret k
                         /\ k ∉ init_downloaded (Lib := reference_lib)
                                  config_five seeded_listing)
         (posts (state_of seeded_run)).
Proof.
  apply (fetch_posts_fresh (Lib := reference_lib) config_five
           (init_downloaded (Lib := reference_lib) config_five seeded_listing)
           [page_response page_one; page_response page_two]
           seeded_run (state_of seeded_run));
    vm_compute; reflexivity.
Defined.

Lemma fetch_posts_no_skip_witness :
  0 <= skipped (state_of seeded_run)
  /\ (cfg_skip_existing config_five = false ->
      skipped (state_of seeded_run) = 0).
Proof.
  apply (fetch_posts_no_skip (Lib := reference_lib) config_five seeded_listing
           [page_response page_one; page_response page_two]
           seeded_run (state_of seeded_run));
    vm_compute; reflexivity.
Defined.

(** With the second entry on disk, it is skipped and the sixth entry
    completes the five. *)
Example fetch_posts_skips_seeded :
  map post_id (posts (state_of seeded_run))
  = [JStr "a1"; JStr "a3"; JStr "b1"; JStr "b2"; JStr "b3"]
  /\ skipped (state_of seeded_run) = 1.
Proof. split; vm_compute; reflexivity. Qed.

(** ** [fetch_posts]: the requests it makes *)

Lemma polite_app tr1 tr2 :
  polite tr1 = true -> polite tr2 = true ->
  ends_with_request tr1 = false \/ starts_with_request tr2 = false ->
  polite (tr1 ++ tr2) = true.
Proof.
  induction tr1 as [|e tr1 IH]; intros H1 H2 Hjoin; [exact H2|].
  destruct e as [q|d].
  - cbn [app polite] in H1 |- *. destruct tr1 as [|e' tr1].
    + cbn [app]. destruct Hjoin as [Hj|Hj]; [discriminate Hj|].
      destruct tr2 as [|[q'|d'] tr2]; try discriminate; exact H2.
    + destruct e' as [q'|d']; [discriminate|]. cbn [app].
      apply IH; [exact H1|exact H2|].
      destruct Hjoin as [Hj|Hj]; [left|right; exact Hj].
      exact Hj.
  - cbn [app polite] in H1 |- *. apply IH; [exact H1|exact H2|].
    destruct Hjoin as [Hj|Hj]; [left|right; exact Hj].
    destruct tr1; [reflexivity|exact Hj].
Qed.

Lemma ends_with_request_snoc tr e :
  ends_with_request (tr ++ [e]) = match e with
                                  | EvRequest _ => true
                                  | EvSleep _ => false
                                  end.
Proof. unfold ends_with_request. rewrite last_last. reflexivity. Qed.

Section FetchRequests.

Context `{Lib : PyLib}.

(** The events of one [_make_request]: requests and cooldowns in turn. *)
Lemma make_request_polite level url script :
  polite (_make_request level url script).2 = true.
Proof.
  revert level. induction script as [|r script IH]; intros level;
    rewrite make_request_unfold;
    (destruct (send_depth <? level)%nat; [reflexivity|]); [reflexivity|].
  destruct (handle_depth r <? level)%nat; [reflexivity|].
  destruct r; try reflexivity.
  destruct (code =? 429); [|reflexivity].
  specialize (IH (S level)).
  destruct (_make_request (S level) url script) as [[d rest] evs].
  cbn [snd] in *. cbn [polite]. exact IH.
Qed.

(** The call made by [fetch_posts] always gets its request out. *)
Lemma make_request_first url script :
  exists evs, (_make_request 0 url script).2 = EvRequest url :: evs.
Proof.
  rewrite make_request_unfold. cbn [Nat.ltb Nat.leb].
  destruct script as [|r script]; [eexists; reflexivity|].
  destruct r; try (eexists; reflexivity).
  destruct (code =? 429); [|eexists; reflexivity].
  destruct (_make_request 1 url script) as [[d rest] evs]. eexists. reflexivity.
Qed.

(** The pauses of one [_make_request] are cooldowns after a 429; when it
    brings data, the last request was answered by a page, after which the
    loop pauses for [delay]. *)
Lemma make_request_paced delay level url script :
  paced delay script (_make_request level url script).2
  /\ (truthy (_make_request level url script).1.1 = true ->
      forall evs,
        paced delay (_make_request level url script).1.2 evs ->
        paced delay script
          ((_make_request level url script).2 ++ EvSleep delay :: evs)).
Proof.
  revert level. induction script as [|r script IH]; intros level;
    rewrite make_request_unfold;
    (destruct (send_depth <? level)%nat;
     [split; [exact I|discriminate]|]).
  - split; [exact I|discriminate].
  - destruct (handle_depth r <? level)%nat; [split; [exact I|discriminate]|].
    destruct r; try (split; [exact I|discriminate]).
    + split; [exact I|]. intros _ evs Hevs. cbn. auto.
    + destruct (code =? 429) eqn:Hcode; [|split; [exact I|discriminate]].
      destruct (IH (S level)) as [IH1 IH2].
      destruct (_make_request (S level) url script) as [[d rest] evs1].
      cbn [fst snd] in *. split.
      * cbn [paced rate_limited]. rewrite Hcode. auto.
      * intros Hd evs Hevs. cbn [app paced rate_limited]. rewrite Hcode.
        auto.
Qed.

Lemma fetch_loop_polite fuel :
  forall cfg dl script after st tr r,
    polite tr = true -> ends_with_request tr = false ->
    fetch_loop fuel cfg dl script after st tr = Some r ->
    polite (trace r) = true.
Proof.
  induction fuel as [|fuel IH]; intros cfg dl script after st tr r Hp He Hrun;
    cbn [fetch_loop] in Hrun.
  - destruct (fetched st <? cfg_limit cfg); [discriminate|].
    injection Hrun as <-. exact Hp.
  - destruct (fetched st <? cfg_limit cfg); [|injection Hrun as <-; exact Hp].
    pose proof (make_request_polite 0 (_build_url cfg after) script) as Hq.
    destruct (_make_request 0 (_build_url cfg after) script)
      as [[data script'] evs]. cbn [snd] in Hq.
    assert (Hp' : polite (tr ++ evs) = true)
      by (apply polite_app; auto).
    destruct (negb (truthy data)); [injection Hrun as <-; exact Hp'|].
    destruct (let* inner := py_get data "data" (JDict []) in
              py_get inner "children" (JList [])) as [children|];
      [|injection Hrun as <-; exact Hp'].
    destruct (negb (truthy children)); [injection Hrun as <-; exact Hp'|].
    match type of Hrun with
    | context [match ?m with Ret _ => _ | Crash => _ end] =>
        destruct m as [[st' after']|]
    end; [|injection Hrun as <-; exact Hp'].
    destruct (negb (truthy after')); [injection Hrun as <-; exact Hp'|].
    eapply IH; [| |exact Hrun].
    + apply polite_app; [exact Hp'|reflexivity|right; reflexivity].
    + apply ends_with_request_snoc.
Qed.

(** The pauses of the loop: what has been emitted so far stays well
    paced whatever well-paced events follow. *)
Lemma fetch_loop_paced fuel :
  forall cfg dl script0 script after st tr r,
    (forall evs, paced (cfg_delay cfg) script evs ->
                 paced (cfg_delay cfg) script0 (tr ++ evs)) ->
    fetch_loop fuel cfg dl script after st tr = Some r ->
    paced (cfg_delay cfg) script0 (trace r).
Proof.
  induction fuel as [|fuel IH];
    intros cfg dl script0 script after st tr r Hinv Hrun;
    cbn [fetch_loop] in Hrun.
  - destruct (fetched st <? cfg_limit cfg); [discriminate|].
    injection Hrun as <-. cbn [trace].
    rewrite <- (app_nil_r tr). apply Hinv. exact I.
  - destruct (fetched st <? cfg_limit cfg);
      [|injection Hrun as <-; cbn [trace]; rewrite <- (app_nil_r tr);
        apply Hinv; exact I].
    destruct (make_request_paced (cfg_delay cfg) 0 (_build_url cfg after) script)
      as [Hnow Hnext].
    destruct (_make_request 0 (_build_url cfg after) script)
      as [[data script'] evs]. cbn [fst snd] in Hnow, Hnext.
    pose proof (Hinv evs Hnow) as Hstop.
    destruct (truthy data) eqn:Hdata; cbn [negb] in Hrun;
      [|injection Hrun as <-; exact Hstop].
    destruct (let* inner := py_get data "data" (JDict []) in
              py_get inner "children" (JList [])) as [children|];
      [|injection Hrun as <-; exact Hstop].
    destruct (negb (truthy children)); [injection Hrun as <-; exact Hstop|].
    match type of Hrun with
    | context [match ?m with Ret _ => _ | Crash => _ end] =>
        destruct m as [[st' after']|]
    end; [|injection Hrun as <-; exact Hstop].
    destruct (negb (truthy after')); [injection Hrun as <-; exact Hstop|].
    eapply IH; [|exact Hrun].
    intros evs' Hevs'. rewrite <- !app_assoc. apply Hinv.
    cbn [app]. apply Hnext; [reflexivity|exact Hevs'].
Qed.

(** X8.  In every run of the listing phase no two requests follow each
    other without a pause, and every pause has its reason: after a
    request answered with 429 the client sleeps 60 seconds before it asks
    again, after a page it sleeps the configured [delay] before it asks
    for the next one, and it sleeps at no other time. *)
Theorem fetch_posts_polite (cfg : ScraperConfig) (dl : gset pykey)
    (script : list response) (r : fetch_result) :
  fetch_posts cfg dl script = Some r ->
  polite (trace r) = true /\ paced (cfg_delay cfg) script (trace r).
Proof.
  intros Hr. unfold fetch_posts in Hr. split.
  - eapply fetch_loop_polite; [| |exact Hr]; reflexivity.
  - eapply fetch_loop_paced; [|exact Hr]. intros evs Hevs. exact Hevs.
Qed.

(** The parameters of a built URL besides the page size. *)
Lemma build_url_params cfg after :
  assoc "raw_json" (q_params (_build_url cfg after)) = Some (JInt 1)
  /\ assoc "t" (q_params (_build_url cfg after))
     = (if String.eqb (cfg_sort cfg) "top"
        then Some (JStr (cfg_time_filter cfg)) else None)
  /\ assoc "after" (q_params (_build_url cfg after))
     = (if truthy after then Some after else None).
Proof.
  unfold _build_url. cbn [q_params].
  destruct (String.eqb (cfg_sort cfg) "top"); destruct (truthy after);
    repeat split; reflexivity.
Qed.

(** X9.  Every request of the listing phase asks for between 1 and 100
    entries in raw JSON, on the listing of the configured subreddit and
    sort, with the time window exactly when the sort is [top]; a
    non-positive target makes no request at all. *)
Theorem fetch_posts_requests (cfg : ScraperConfig) (dl : gset pykey)
    (script : list response) :
  exists r,
    fetch_posts cfg dl script = Some r
    /\ (cfg_limit cfg <= 0 -> trace r = [])
    /\ Forall (fun q =>
         (exists n, assoc "limit" (q_params q) = Some (JInt n)
                    /\ 1 <= n <= 100)
         /\ assoc "raw_json" (q_params q) = Some (JInt 1)
         /\ assoc "t" (q_params q)
            = (if String.eqb (cfg_sort cfg) "top"
               then Some (JStr (cfg_time_filter cfg)) else None)
         /\ q_base q = "https://www.reddit.com/r/" +:+ cfg_subreddit cfg
                       +:+ "/" +:+ cfg_sort cfg +:+ ".json")
       (requests (trace r)).
Proof.
  destruct (fetch_posts_total cfg dl script) as (r & Hr & Hreq).
  exists r. split; [exact Hr|].
  assert (Hnone : cfg_limit cfg <= 0 -> trace r = []).
  { intros Hle. unfold fetch_posts in Hr.
    rewrite fetch_loop_done in Hr by (cbn [fetched]; lia).
    injection Hr as <-. reflexivity. }
  split; [exact Hnone|].
  destruct (Z.le_gt_cases (cfg_limit cfg) 0) as [Hle|Hgt].
  - rewrite (Hnone Hle). constructor.
  - eapply Forall_impl; [exact Hreq|]. intros q [a ->].
    destruct (build_url_params cfg a) as (Hraw & Ht & _).
    split; [|auto].
    exists (Z.min 100 (cfg_limit cfg)). split; [apply build_url_limit|lia].
Qed.

End FetchRequests.

Lemma fetch_posts_polite_witness :
  polite (trace limited_run) = true
  /\ paced (cfg_delay config_five) limited_script (trace limited_run).
Proof.
  apply (fetch_posts_polite (Lib := reference_lib) config_five ∅
           limited_script limited_run).
  vm_compute. reflexivity.
Defined.

(** The 429 costs a minute, the page half a second. *)
Example limited_run_trace :
  trace limited_run
  = [EvRequest (_build_url config_five JNull); EvSleep 60;
     EvRequest (_build_url config_five JNull); EvSleep (1 # 2);
     EvRequest (_build_url config_five (JStr "t3_a3"))].
Proof. vm_compute. reflexivity. Qed.

(** A chain of 429s within the nesting that the interpreter allows is
    waited out; a longer one is given up, and the page that follows is
    never asked for. *)
Example recursion_limit_reached :
  (_make_request (Lib := reference_lib) 0 (_build_url config_five JNull)
     (repeat (RespHTTPError 429) 974 ++ [page_response page_two])).1.1
  = listing_page (fst page_two) (snd page_two)
  /\ (_make_request (Lib := reference_lib) 0 (_build_url config_five JNull)
        (repeat (RespHTTPError 429) 975 ++ [page_response page_two])).1
     = (JNull, [])
  /\ (_make_request (Lib := reference_lib) 0 (_build_url config_five JNull)
        (repeat (RespHTTPError 429) 976 ++ [page_response page_two])).1
     = (JNull, [page_response page_two]).
Proof. repeat split; vm_compute; reflexivity. Qed.

Section FetchCursor.

Context `{Lib : PyLib}.

Lemma requests_pages_cursors cfg after pages :
  requests (pages_trace cfg after pages)
    ++ [_build_url cfg (last_cursor after pages)]
  = map (_build_url cfg) (after :: map snd pages).
Proof.
  revert after. induction pages as [|pg pages IH]; intros after;
    [reflexivity|].
  rewrite last_cursor_cons. cbn [pages_trace requests map app].
  rewrite IH. reflexivity.
Qed.

(** The loop only adds to the trace. *)
Lemma fetch_loop_extends fuel :
  forall cfg dl script after st tr r,
    fetch_loop fuel cfg dl script after st tr = Some r ->
    exists more, trace r = tr ++ more.
Proof.
  induction fuel as [|fuel IH]; intros cfg dl script after st tr r Hrun;
    cbn [fetch_loop] in Hrun.
  - destruct (fetched st <? cfg_limit cfg); [discriminate|].
    injection Hrun as <-. exists []. cbn. rewrite app_nil_r. reflexivity.
  - assert (Hstop : forall evs s,
               exists more, trace {| final := s; script_left := script;
                                     trace := tr ++ evs |} = tr ++ more)
      by (intros evs s; exists evs; reflexivity).
    destruct (fetched st <? cfg_limit cfg);
      [|injection Hrun as <-; exists []; cbn; rewrite app_nil_r; reflexivity].
    destruct (_make_request 0 (_build_url cfg after) script)
      as [[data script'] evs].
    destruct (negb (truthy data)); [injection Hrun as <-; eexists; reflexivity|].
    destruct (let* inner := py_get data "data" (JDict []) in
              py_get inner "children" (JList [])) as [children|];
      [|injection Hrun as <-; eexists; reflexivity].
    destruct (negb (truthy children));
      [injection Hrun as <-; eexists; reflexivity|].
    match type of Hrun with
    | context [match ?m with Ret _ => _ | Crash => _ end] =>
        destruct m as [[st' after']|]
    end; [|injection Hrun as <-; eexists; reflexivity].
    destruct (negb (truthy after'));
      [injection Hrun as <-; eexists; reflexivity|].
    destruct (IH _ _ _ _ _ _ _ Hrun) as [more Hmore].
    exists (evs ++ [EvSleep (cfg_delay cfg)] ++ more).
    rewrite Hmore, <- !app_assoc. reflexivity.
Qed.

Lemma fetch_loop_terminates fuel :
  forall cfg dl script after st tr,
    (length script < fuel)%nat ->
    exists r, fetch_loop fuel cfg dl script after st tr = Some r.
Proof.
  induction fuel as [|fuel IH]; intros cfg dl script after st tr Hfuel; [lia|].
  cbn [fetch_loop].
  destruct (fetched st <? cfg_limit cfg); [|eexists; reflexivity].
  pose proof (make_request_consumes 0 (_build_url cfg after) script) as Hlen.
  destruct (_make_request 0 (_build_url cfg after) script)
    as [[data script'] evs].
  destruct (truthy data) eqn:Hdata; cbn [negb]; [|eexists; reflexivity].
  destruct Hlen as [Hlen|[_ ->]]; [|discriminate Hdata].
  destruct (let* inner := py_get data "data" (JDict []) in
            py_get inner "children" (JList [])) as [children|];
    [|eexists; reflexivity].
  destruct (negb (truthy children)); [eexists; reflexivity|].
  match goal with
  | |- context [match ?m with Ret _ => _ | Crash => _ end] =>
      destruct m as [[st' after']|]
  end; [|eexists; reflexivity].
  destruct (negb (truthy after')); [eexists; reflexivity|].
  apply IH. lia.
Qed.

(** When the target is not reached the loop makes a request for the
    current cursor, whatever the script holds. *)
Lemma fetch_loop_next_request fuel cfg dl script after st tr :
  fetched st < cfg_limit cfg ->
  (length script < S fuel)%nat ->
  exists r more,
    fetch_loop (S fuel) cfg dl script after st tr = Some r
    /\ trace r = tr ++ EvRequest (_build_url cfg after) :: more.
Proof.
  intros Hlt Hfuel.
  destruct (fetch_loop_terminates (S fuel) cfg dl script after st tr Hfuel)
    as [r Hrun].
  exists r. rewrite Hrun. cbn [fetch_loop] in Hrun.
  destruct (Z.ltb_spec (fetched st) (cfg_limit cfg)) as [_|]; [|lia].
  destruct (make_request_first (_build_url cfg after) script) as [evs' Hevs].
  destruct (_make_request 0 (_build_url cfg after) script)
    as [[data script'] evs]. cbn [snd] in Hevs. subst evs.
  assert (Hnow : forall s l,
             exists more,
               trace {| final := s; script_left := l;
                        trace := tr ++ EvRequest (_build_url cfg after) :: evs' |}
               = tr ++ EvRequest (_build_url cfg after) :: more)
    by (intros s l; exists evs'; reflexivity).
  destruct (negb (truthy data));
    [injection Hrun as <-; destruct (Hnow (Ret st) script'); eauto|].
  destruct (let* inner := py_get data "data" (JDict []) in
            py_get inner "children" (JList [])) as [children|];
    [|injection Hrun as <-; destruct (Hnow (@Crash fetch_state) script'); eauto].
  destruct (negb (truthy children));
    [injection Hrun as <-; destruct (Hnow (Ret st) script'); eauto|].
  match type of Hrun with
  | context [match ?m with Ret _ => _ | Crash => _ end] =>
      destruct m as [[st' after']|]
  end; [|injection Hrun as <-; destruct (Hnow (@Crash fetch_state) script'); eauto].
  destruct (negb (truthy after'));
    [injection Hrun as <-; destruct (Hnow (Ret st') script'); eauto|].
  destruct (fetch_loop_extends _ _ _ _ _ _ _ _ Hrun) as [more Hmore].
  exists (evs' ++ [EvSleep (cfg_delay cfg)] ++ more).
  split; [reflexivity|]. rewrite Hmore, <- !app_assoc. reflexivity.
Qed.

(** X10.  Pagination: over a stretch of pages that each have entries and a
    cursor and do not complete the target, the first request carries no
    [after] parameter, every later request carries the cursor of the page
    before it, and one more request is made for the cursor of the last
    page of the stretch. *)
Theorem fetch_posts_cursor_chain (cfg : ScraperConfig) (dl : gset pykey)
    (pages : list page) (rest : list response) :
  Forall continues pages ->
  Forall (fun c => qualifies cfg dl c <> Crash) (entries pages) ->
  Z.of_nat (length (qualifying cfg dl (entries pages))) < cfg_limit cfg ->
  exists r more,
    fetch_posts cfg dl (map page_response pages ++ rest) = Some r
    /\ requests (trace r)
       = map (_build_url cfg) (JNull :: map snd pages) ++ more
    /\ assoc "after" (q_params (_build_url cfg JNull)) = None
    /\ Forall (fun pg => assoc "after" (q_params (_build_url cfg (snd pg)))
                         = Some (snd pg)) pages.
Proof.
  intros Hcont Hok Hlt.
  destruct (fetch_posts_pages cfg dl pages rest Hcont Hok Hlt) as [sk ->].
  match goal with
  | |- context [fetch_loop (S ?f) cfg dl rest ?a ?s ?t] =>
      destruct (fetch_loop_next_request f cfg dl rest a s t)
        as (r & more & Hr & Htrace)
  end.
  { cbn [fetched]. lia. }
  { lia. }
  exists r, (requests more). split; [exact Hr|]. split; [|split].
  - rewrite Htrace, requests_app. cbn [requests].
    rewrite <- requests_pages_cursors, <- app_assoc. reflexivity.
  - apply (build_url_params cfg JNull).
  - eapply Forall_impl; [exact Hcont|]. intros pg [_ Hcur].
    destruct (build_url_params cfg (snd pg)) as (_ & _ & Hafter).
    rewrite Hafter, Hcur. reflexivity.
Qed.

End FetchCursor.

Lemma fetch_posts_cursor_chain_witness :
  exists r more,
    fetch_posts (Lib := reference_lib) config_five ∅
      (map page_response [page_one] ++ [page_response page_two]) = Some r
    /\ requests (trace r)
       = map (_build_url config_five) (JNull :: map snd [page_one]) ++ more
    /\ assoc "after" (q_params (_build_url config_five JNull)) = None
    /\ Forall (fun pg =>
                 assoc "after" (q_params (_build_url config_five (snd pg)))
                 = Some (snd pg)) [page_one].
Proof.
  apply (fetch_posts_cursor_chain (Lib := reference_lib) config_five ∅
           [page_one] [page_response page_two]).
  - repeat constructor. discriminate.
  - repeat constructor; vm_compute; discriminate.
  - vm_compute. reflexivity.
Defined.

(** ** Exceptions of the resolver and what the listing phase does with
    them *)

Section ParseExceptions.

Context `{Lib : PyLib}.

(** X11.  A [url] field that is [null], [0] or [false] gets past
    [_is_image_url] as "not an image", and when neither gallery nor
    preview yields, the membership test of the imgur guess raises on it:
    the entry is not dropped, the resolver fails. *)
Theorem extract_image_url_null_url (post_data url : json) :
  py_get post_data "url" (JStr "") = Ret url ->
  url = JNull \/ url = JInt 0 \/ url = JBool false ->
  gallery_first post_data = Ret None ->
  preview_image post_data = Ret None ->
  _is_image_url url = Ret false /\ _extract_image_url post_data = Crash.
Proof.
  intros Hurl Hfalsy Hg Hp. unfold _extract_image_url.
  rewrite Hurl. cbn [rbind].
  assert (Himg : _is_image_url url = Ret false)
    by (destruct Hfalsy as [->|[->| ->]]; reflexivity).
  rewrite Himg, Hg, Hp. cbn [rbind]. split; [reflexivity|].
  destruct Hfalsy as [->|[->| ->]]; reflexivity.
Qed.

Lemma scan_children_app cfg dl l1 l2 :
  forall st,
    scan_children cfg dl (l1 ++ l2) st
    = let* st1 := scan_children cfg dl l1 st in scan_children cfg dl l2 st1.
Proof.
  induction l1 as [|c l1 IH]; intros st; [reflexivity|].
  cbn [app scan_children].
  destruct (fetched st >=? cfg_limit cfg) eqn:Hge.
  - cbn [rbind]. destruct l2 as [|c2 l2]; [reflexivity|].
    cbn [scan_children]. rewrite Hge. reflexivity.
  - destruct (_parse_post cfg c) as [[p|]|]; cbn [rbind]; [|apply IH|reflexivity].
    destruct (py_hash_key (post_id p)) as [k|]; cbn [rbind]; [|reflexivity].
    destruct (bool_decide (k ∈ dl)); apply IH.
Qed.

(** X12.  [fetch_posts] has no handler around [_parse_post].  When, after a
    stretch of pages and some entries of the next page that all parse, an
    entry is reached whose parse raises before the target is complete,
    the exception leaves [fetch_posts]: nothing is returned, also not the
    posts gathered so far, and no further request is made. *)
Theorem fetch_posts_parse_exception (cfg : ScraperConfig) (dl : gset pykey)
    (pages : list page) (good : list json) (bad : json) (others : list json)
    (cursor : json) (rest : list response) :
  Forall continues pages ->
  Forall (fun c => qualifies cfg dl c <> Crash) (entries pages ++ good) ->
  Z.of_nat (length (qualifying cfg dl (entries pages ++ good))) < cfg_limit cfg ->
  _parse_post cfg bad = Crash ->
  exists r,
    fetch_posts cfg dl
      (map page_response pages
       ++ page_response (good ++ bad :: others, cursor) :: rest) = Some r
    /\ final r = Crash
    /\ script_left r = rest
    /\ length (requests (trace r)) = S (length pages).
Proof.
  intros Hcont Hok Hlt Hbad.
  apply Forall_app in Hok as [Hok1 Hok2].
  rewrite qualifying_app, length_app, Nat2Z.inj_add in Hlt.
  destruct (fetch_posts_pages cfg dl pages
              (page_response (good ++ bad :: others, cursor) :: rest)
              Hcont Hok1) as [sk ->]; [lia|].
  rewrite fetch_loop_page by (cbn [fetched]; lia).
  assert (Hscan : forall st,
             fetched st + Z.of_nat (length (qualifying cfg dl good))
               < cfg_limit cfg ->
             scan_children cfg dl (good ++ bad :: others) st = Crash).
  { intros st Hst. rewrite scan_children_app.
    destruct (scan_children_take cfg dl good st Hok2) as [sk' ->].
    cbn [rbind scan_children fetched].
    rewrite take_ge by lia.
    destruct (Z.geb_spec (fetched st + Z.of_nat (length (qualifying cfg dl good)))
                (cfg_limit cfg)); [lia|].
    rewrite Hbad. reflexivity. }
  rewrite Hscan by (cbn [fetched]; lia).
  destruct (good ++ bad :: others) eqn:E; [destruct good; discriminate|].
  eexists. split; [reflexivity|]. cbn [final script_left trace].
  split; [reflexivity|]. split; [reflexivity|].
  rewrite requests_app, length_app, requests_pages_trace. cbn. lia.
Qed.

End ParseExceptions.

Lemma extract_image_url_null_url_witness :
  _is_image_url (Lib := reference_lib) JNull = Ret false
  /\ _extract_image_url (Lib := reference_lib)
       (JDict [("id", JStr "n1"); ("url", JNull)]) = Crash.
Proof.
  apply (extract_image_url_null_url (Lib := reference_lib)
           (JDict [("id", JStr "n1"); ("url", JNull)]) JNull);
    try reflexivity.
  left. reflexivity.
Defined.

Lemma fetch_posts_parse_exception_witness :
  exists r,
    fetch_posts (Lib := reference_lib) config_five ∅
      (map page_response [page_one]
       ++ page_response
            ([link_entry "b1" "Fourth" "https://i.redd.it/4.png"]
             ++ null_url_entry
             :: [link_entry "b3" "Sixth" "https://i.redd.it/6.png"], JNull)
       :: [page_response page_three]) = Some r
    /\ final r = Crash
    /\ script_left r = [page_response page_three]
    /\ length (requests (trace r)) = S (length [page_one]).
Proof.
  apply (fetch_posts_parse_exception (Lib := reference_lib) config_five ∅
           [page_one]
           [link_entry "b1" "Fourth" "https://i.redd.it/4.png"]
           null_url_entry
           [link_entry "b3" "Sixth" "https://i.redd.it/6.png"]
           JNull [page_response page_three]).
  - repeat constructor. discriminate.
  - repeat constructor; vm_compute; discriminate.
  - vm_compute. reflexivity.
  - vm_compute. reflexivity.
Defined.

(** ** The dedup index across runs *)

Section DedupExtras.

Context `{Lib : PyLib}.

(** X13.  The order in which [glob] lists the directory does not matter, and
    seeding only adds to the set it starts from. *)
Theorem load_existing_files_order (listing listing' : list dir_entry)
    (acc : gset pykey) :
  listing ≡ₚ listing' ->
  _load_existing_files listing acc = _load_existing_files listing' acc
  /\ acc ⊆ _load_existing_files listing acc.
Proof.
  intros Hperm. rewrite !load_existing_files_union. split; [|set_solver].
  f_equal. apply set_eq. intros k.
  rewrite !elem_of_list_to_set. unfold recovered_ids.
  assert (Hfilter : List.filter entry_is_file listing
                    ≡ₚ List.filter entry_is_file listing').
  { induction Hperm as [|x l l' _ IH|x y l|l1 l2 l3 _ IH1 _ IH2]; cbn.
    - reflexivity.
    - destruct (entry_is_file x); [constructor|]; exact IH.
    - destruct (entry_is_file x), (entry_is_file y);
        try reflexivity. apply perm_swap.
    - etrans; eassumption. }
  rewrite Hfilter. reflexivity.
Qed.

Lemma append_cons (c : ascii) (s t : string) :
  String c s +:+ t = String c (s +:+ t).
Proof. reflexivity. Qed.

Lemma append_nil (t : string) : "" +:+ t = t.
Proof. reflexivity. Qed.

Lemma append_assoc (a b c : string) : (a +:+ b) +:+ c = a +:+ (b +:+ c).
Proof.
  induction a as [|x a IH]; [reflexivity|].
  rewrite !append_cons, IH. reflexivity.
Qed.

Lemma split_head_prefix (sep : ascii) (a b : string) :
  contains (String sep EmptyString) a = false ->
  split_head sep (a +:+ String sep b) = a.
Proof.
  induction a as [|x a IH]; rewrite ?append_cons, ?append_nil;
    cbn [split_head contains prefixb].
  - rewrite Ascii.eqb_refl. reflexivity.
  - intros Hno. apply orb_false_elim in Hno as [Hx Ha].
    destruct (Ascii.eqb_spec sep x) as [->|Hne].
    + cbn in Hx. discriminate.
    + destruct (Ascii.eqb_spec x sep) as [->|_]; [contradiction|].
      rewrite IH by exact Ha. reflexivity.
Qed.

Lemma get_extension_in p ext :
  _get_extension p = Ret ext -> In ext FILE_EXTENSIONS.
Proof.
  unfold _get_extension.
  destruct (urlparse (post_url p)) as [parts|]; [|discriminate].
  unfold rbind. cbv zeta.
  pose proof (find_extension_in (lower (path parts))) as Hfound.
  destruct (find (endswith (lower (path parts))) FILE_EXTENSIONS) as [e|].
  - intros [= <-]. apply Hfound. reflexivity.
  - intros [= <-]. cbn. tauto.
Qed.

(** X14.  From a saved file back to the post.  When [Path.stem] removes the
    extension the program appended, the identifier recovered from the
    name of a file the program wrote is the identifier of the post,
    provided the identifier is a string without underscore: the next run
    finds it in its dedup set. *)
Theorem filename_recovered_id (p : RedditPost) (id name : string)
    (cfg : ScraperConfig) (listing : list dir_entry) :
  (forall s ext, s <> "" -> In ext FILE_EXTENSIONS ->
                 path_stem (s +:+ ext) = s) ->
  post_id p = JStr id ->
  contains "_" id = false ->
  filename p = Ret name ->
  cfg_skip_existing cfg = true ->
  In {| entry_name := name; entry_is_file := true |} listing ->
  recovered_id name = id
  /\ py_hash_key (post_id p) = Ret (KStr id)
  /\ KStr id ∈ init_downloaded cfg listing.
Proof.
  intros Hstem Hid Hno Hname Hskip Hin.
  assert (Hrec : recovered_id name = id).
  { unfold filename in Hname.
    destruct (post_title p) as [| | |title| |]; try discriminate.
    destruct (_get_extension p) as [ext|] eqn:Hext; [|discriminate].
    apply get_extension_in in Hext.
    unfold rbind in Hname. injection Hname as <-.
    rewrite Hid. unfold format_field, recovered_id.
    rewrite <- !append_assoc, Hstem; [| |exact Hext].
    - rewrite append_assoc. apply split_head_prefix, Hno.
    - destruct id; discriminate. }
  split; [exact Hrec|]. split; [rewrite Hid; reflexivity|].
  unfold init_downloaded. rewrite Hskip.
  apply load_existing_files_elem.
  eexists. split; [exact Hin|]. split; [reflexivity|].
  cbn [entry_name]. rewrite Hrec. reflexivity.
Qed.

End DedupExtras.

(** The reference stem removes an appended extension. *)
Lemma rfind_dot_append s ext i :
  In ext FILE_EXTENSIONS ->
  rfind_dot (s +:+ ext) i = Some (i + String.length s)%nat.
Proof.
  intros Hext. revert i. induction s as [|c s IH]; intros i.
  - rewrite append_nil. cbn [String.length]. rewrite Nat.add_0_r.
    unfold FILE_EXTENSIONS in Hext. cbn [In] in Hext.
    destruct_or!; try contradiction; subst; reflexivity.
  - rewrite append_cons. cbn [rfind_dot String.length]. rewrite IH.
    f_equal. lia.
Qed.

Lemma take_str_append s t : take_str (String.length s) (s +:+ t) = s.
Proof.
  induction s as [|c s IH]; [destruct t; reflexivity|].
  rewrite append_cons. cbn [String.length take_str]. rewrite IH. reflexivity.
Qed.

Lemma length_append s t :
  String.length (s +:+ t) = (String.length s + String.length t)%nat.
Proof.
  induction s as [|c s IH]; [reflexivity|].
  rewrite append_cons. cbn [String.length]. rewrite IH. reflexivity.
Qed.

Lemma path_stem_ref_append s ext :
  s <> "" -> In ext FILE_EXTENSIONS -> path_stem_ref (s +:+ ext) = s.
Proof.
  intros Hs Hext. unfold path_stem_ref.
  rewrite (rfind_dot_append s ext 0 Hext). cbn [Nat.add].
  rewrite length_append.
  assert (Hlen : (2 <= String.length ext)%nat).
  { unfold FILE_EXTENSIONS in Hext. cbn [In] in Hext.
    destruct_or!; try contradiction; subst; cbn; lia. }
  assert (Hpos : (0 < String.length s)%nat)
    by (destruct s; [contradiction|cbn; lia]).
  destruct (Nat.ltb_spec 0 (String.length s)); [|lia].
  destruct (Nat.ltb_spec (String.length s)
              (String.length s + String.length ext - 1)); [|lia].
  cbn [andb]. apply take_str_append.
Qed.

Lemma filename_recovered_id_witness :
  recovered_id (Lib := reference_lib) "abc_A b cd.png" = "abc"
  /\ py_hash_key (post_id filename_example_post) = Ret (KStr "abc")
  /\ KStr "abc" ∈ init_downloaded (Lib := reference_lib) config_five
                    [{| entry_name := "abc_A b cd.png"; entry_is_file := true |}].
Proof.
  apply (filename_recovered_id (Lib := reference_lib) filename_example_post
           "abc" "abc_A b cd.png" config_five
           [{| entry_name := "abc_A b cd.png"; entry_is_file := true |}]).
  - exact path_stem_ref_append.
  - reflexivity.
  - reflexivity.
  - vm_compute. reflexivity.
  - reflexivity.
  - left. reflexivity.
Defined.

Lemma load_existing_files_order_witness :
  _load_existing_files (Lib := reference_lib)
    [{| entry_name := "a1_First.png"; entry_is_file := true |};
     {| entry_name := "b2_Fifth.png"; entry_is_file := true |}] ∅
  = _load_existing_files (Lib := reference_lib)
      [{| entry_name := "b2_Fifth.png"; entry_is_file := true |};
       {| entry_name := "a1_First.png"; entry_is_file := true |}] ∅
  /\ (∅ : gset pykey)
     ⊆ _load_existing_files (Lib := reference_lib)
         [{| entry_name := "a1_First.png"; entry_is_file := true |};
          {| entry_name := "b2_Fifth.png"; entry_is_file := true |}] ∅.
Proof.
  apply (load_existing_files_order (Lib := reference_lib)).
  apply perm_swap.
Defined.

(** An identifier with an underscore is not recovered. *)
Example filename_underscore_id :
  filename (Lib := reference_lib)
    (image_post "ab_c" "Title" "https://i.redd.it/x.png")
  = Ret "ab_c_Title.png"
  /\ recovered_id (Lib := reference_lib) "ab_c_Title.png" = "ab".
Proof. split; vm_compute; reflexivity. Qed.

(** ** The download phase and the whole run *)

Section DownloadExtras.

Context `{Lib : PyLib}.

(** X15.  A second attempt.  Once a download has succeeded, or has left a file
    behind, every later download of the same post, whatever the server
    then answers, reports success and leaves the directory as it is: a
    good file is not fetched again, and an empty file left by an
    interrupted transfer is taken for the image. *)
Theorem download_image_repeat (env env' : download_env)
    (fs fs' : gmap string (list Byte.byte)) (post : RedditPost) (ok : bool) :
  _download_image env fs post = Ret (ok, fs') ->
  ok = true \/ fs' <> fs ->
  _download_image env' fs' post = Ret (true, fs').
Proof.
  intros Hfirst Hleft.
  destruct (filename post) as [name|] eqn:Hname.
  2: { unfold _download_image in Hfirst. rewrite Hname in Hfirst.
       discriminate. }
  rewrite (download_image_unfold env fs post name Hname) in Hfirst.
  rewrite (download_image_unfold env' fs' post name Hname).
  destruct (bool_decide (is_Some (fs !! name))) eqn:Hex.
  - injection Hfirst as <- <-. rewrite Hex. reflexivity.
  - destruct (negb (can_stat env name)); [discriminate|].
    injection Hfirst as Hok Hfs.
    destruct (transfer env name (post_url post)) as [ok1 [content|]] eqn:Ht;
      cbn [fst snd written] in Hok, Hfs.
    + subst fs'. rewrite bool_decide_eq_true_2; [reflexivity|].
      rewrite lookup_insert_eq. eauto.
    + exfalso. subst fs' ok1. destruct Hleft as [->|Hne]; [|contradiction].
      unfold transfer in Ht.
      destruct (serve env (post_url post)) as [|ct body]; [discriminate|].
      destruct (negb (startswith _ _)); [discriminate|].
      destruct (negb (can_open env name)); [discriminate|].
      destruct body; discriminate.
Qed.

Lemma run_task_keeps env fs p m content :
  fs !! m = Some content -> (run_task env fs p).2 !! m = Some content.
Proof.
  intros Hm. destruct (filename p) as [name|] eqn:Hname.
  - rewrite (run_task_unfold env fs p name Hname).
    destruct (bool_decide (is_Some (fs !! name))) eqn:Hex; [exact Hm|].
    destruct (negb (can_stat env name)); [exact Hm|].
    cbn [snd]. destruct (transfer env name (post_url p)).2; [|exact Hm].
    cbn [written]. rewrite lookup_insert_ne; [exact Hm|].
    intros ->. apply bool_decide_eq_false in Hex. apply Hex.
    rewrite Hm. eauto.
  - rewrite (run_task_crash env fs p Hname). exact Hm.
Qed.

Lemma exec_seq_keeps env order :
  forall fs m content,
    fs !! m = Some content -> (exec_seq env order fs).2 !! m = Some content.
Proof.
  induction order as [|p order IH]; intros fs m content Hm; [exact Hm|].
  cbn [exec_seq].
  pose proof (run_task_keeps env fs p m content Hm) as Hkeep.
  destruct (run_task env fs p) as [o fs1]. cbn [snd] in Hkeep.
  specialize (IH fs1 m content Hkeep).
  destruct (exec_seq env order fs1) as [os fs2]. exact IH.
Qed.

(** X16.  In every schedule, [download_all] leaves every file that was in the
    directory before with the content it had: nothing is overwritten,
    nothing is removed. *)
Theorem download_all_keeps_files (env : download_env)
    (posts : list RedditPost) (fs fs' : gmap string (list Byte.byte))
    (rs rs' : run_state) :
  download_all env posts fs rs fs' rs' ->
  forall name content, fs !! name = Some content -> fs' !! name = Some content.
Proof.
  intros Hrun name content Hname.
  destruct (download_all_linearised env posts fs rs fs' rs' Hrun)
    as (order & collected & _ & _ & -> & _).
  apply exec_seq_keeps, Hname.
Qed.

Lemma download_all_nil env fs fs' rs rs' :
  download_all env [] fs rs fs' rs' -> fs' = fs /\ rs' = rs.
Proof.
  intros Hrun.
  destruct (download_all_linearised env [] fs rs fs' rs' Hrun)
    as (order & collected & Horder & Hcoll & -> & ->).
  apply Permutation_nil_r in Horder. subst order. cbn [exec_seq fst snd] in *.
  apply Permutation_nil_r in Hcoll. subst collected. auto.
Qed.

(** X17.  With no candidate the download phase changes nothing, in no
    schedule: the directory, the counters and the two sets are as
    before. *)
Theorem download_all_empty (env : download_env)
    (fs fs' : gmap string (list Byte.byte)) (rs rs' : run_state) :
  download_all env [] fs rs fs' rs' -> fs' = fs /\ rs' = rs.
Proof. apply download_all_nil. Qed.

(** The two counters of the download phase add up to the number of
    candidates, in every schedule. *)
Lemma download_all_balance env posts fs fs' rs rs' :
  download_all env posts fs rs fs' rs' ->
  Forall hashable posts ->
  stat_downloaded rs' + stat_failed rs'
  = stat_downloaded rs + stat_failed rs + Z.of_nat (length posts)
  /\ stat_downloaded rs <= stat_downloaded rs'
  /\ stat_failed rs <= stat_failed rs'.
Proof.
  intros Hrun Hhash.
  destruct (download_all_linearised env posts fs rs fs' rs' Hrun)
    as (order & collected & Horder & Hcoll & -> & ->).
  assert (Hposts : posts ≡ₚ collected.*1).
  { rewrite <- Horder, Hcoll, exec_seq_posts. reflexivity. }
  assert (Hhash' : Forall (fun pr => hashable pr.1) collected).
  { rewrite Hposts in Hhash. rewrite Forall_fmap in Hhash.
    eapply Forall_impl; [exact Hhash|]. intros pr Hpr. exact Hpr. }
  destruct (collect_all_counts collected rs Hhash') as [-> ->].
  pose proof (filter_app_complement succeeded collected) as Hsplit.
  apply Permutation_length in Hsplit. rewrite length_app in Hsplit.
  rewrite (Permutation_length Hposts), length_fmap. lia.
Qed.

(** X18.  The summary of a run that reaches it is balanced: [downloaded] plus
    [failed] is [found], [found] is at most the target, and no counter is
    negative. *)
Theorem run_summary_balanced (cfg : ScraperConfig) (listing : list dir_entry)
    (script : list response) (env : download_env)
    (fs fs' : gmap string (list Byte.byte)) (s : summary) :
  run cfg listing script env fs (Ret (s, fs')) ->
  sum_downloaded s + sum_failed s = sum_found s
  /\ 0 <= sum_found s <= Z.max 0 (cfg_limit cfg)
  /\ 0 <= sum_downloaded s /\ 0 <= sum_failed s /\ 0 <= sum_skipped s.
Proof.
  intros (r & Hfetch & Hrest).
  destruct (final r) as [st|] eqn:Hfin; [|discriminate].
  destruct Hrest as (fs1 & rs' & Hdl & Hout). injection Hout as -> ->.
  cbn [sum_found sum_downloaded sum_failed sum_skipped].
  pose proof (fetch_posts_hashable cfg _ script r st Hfetch Hfin) as Hhash.
  destruct (download_all_balance env (posts st) fs fs1 _ rs' Hdl Hhash)
    as (Hsum & Hd & Hf).
  cbn [init_state stat_downloaded stat_failed] in Hsum, Hd, Hf.
  assert (Hbound : fetched st = Z.of_nat (length (posts st))
                   /\ fetched st <= Z.max 0 (cfg_limit cfg)).
  { apply (fetch_posts_invariant
             (fun x => fetched x = Z.of_nat (length (posts x))
                       /\ fetched x <= Z.max 0 (cfg_limit cfg))
             cfg (init_downloaded cfg listing) script r st);
      [| |exact Hfetch|exact Hfin].
    - intros x child p k [Hlen Hmax] Hlt _ _. cbn [posts fetched]. split.
      + auto.
      + intros _. rewrite length_app. cbn [length]. lia.
    - cbn. lia. }
  assert (Hskip : 0 <= skipped st).
  { apply (fetch_posts_invariant (fun x => 0 <= skipped x)
             cfg (init_downloaded cfg listing) script r st);
      [| |exact Hfetch|exact Hfin].
    - intros x child p k Hx _ _ _. cbn [skipped]. split; intros _; lia.
    - cbn. lia. }
  lia.
Qed.

(** A run does not reach its summary exactly when the listing phase
    raised. *)
Lemma run_outcome cfg listing script env fs :
  exists outcome, run cfg listing script env fs outcome.
Proof.
  destruct (fetch_posts_total cfg (init_downloaded cfg listing) script)
    as (r & Hr & _).
  destruct (final r) as [st|] eqn:Hfin.
  - eexists. exists r. split; [exact Hr|]. rewrite Hfin.
    do 2 eexists. split; [apply download_all_seq_run|reflexivity].
  - exists Crash, r. split; [exact Hr|]. rewrite Hfin. reflexivity.
Qed.

End DownloadExtras.

Lemma download_image_repeat_witness :
  _download_image (Lib := reference_lib) five_env directory_with_empty_first
    (image_post "p1" "One" "https://i.redd.it/1.png")
  = Ret (true, directory_with_empty_first).
Proof.
  apply (download_image_repeat (Lib := reference_lib) broken_transfer_env
           five_env ∅ directory_with_empty_first
           (image_post "p1" "One" "https://i.redd.it/1.png") false).
  - vm_compute. reflexivity.
  - right. intros E.
    apply (f_equal (fun m => m !! "p1_One.png")) in E.
    vm_compute in E. discriminate E.
Defined.

Lemma download_all_keeps_files_witness :
  (download_all_seq (Lib := reference_lib) five_env five_posts
     directory_with_first fresh_state).1 !! "p1_One.png" = Some png_body.
Proof.
  apply (download_all_keeps_files (Lib := reference_lib) five_env five_posts
           directory_with_first _ fresh_state
           (download_all_seq (Lib := reference_lib) five_env five_posts
              directory_with_first fresh_state).2).
  - apply download_all_seq_run.
  - reflexivity.
Defined.

Lemma download_all_empty_witness :
  directory_with_first = directory_with_first /\ fresh_state = fresh_state.
Proof.
  apply (download_all_empty (Lib := reference_lib) five_env
           directory_with_first directory_with_first fresh_state fresh_state).
  apply rtc_refl.
Defined.

Lemma example_run_runs :
  run (Lib := reference_lib) config_five []
    [page_response page_one; page_response page_two] five_env ∅
    (Ret (example_run_summary, example_run_end.1)).
Proof.
  exists two_pages_run. split; [vm_compute; reflexivity|].
  replace (final two_pages_run) with (Ret (state_of two_pages_run))
    by (vm_compute; reflexivity).
  exists example_run_end.1, example_run_end.2. split; [|reflexivity].
  apply download_all_seq_run.
Qed.

Lemma run_summary_balanced_witness :
  sum_downloaded example_run_summary + sum_failed example_run_summary
  = sum_found example_run_summary
  /\ 0 <= sum_found example_run_summary <= Z.max 0 (cfg_limit config_five)
  /\ 0 <= sum_downloaded example_run_summary
  /\ 0 <= sum_failed example_run_summary
  /\ 0 <= sum_skipped example_run_summary.
Proof.
  exact (run_summary_balanced (Lib := reference_lib) config_five []
           [page_response page_one; page_response page_two] five_env ∅
           example_run_end.1 example_run_summary example_run_runs).
Defined.

Example example_run_counts :
  example_run_summary
  = {| sum_found := 5; sum_downloaded := 4; sum_skipped := 0;
       sum_failed := 1 |}.
Proof. vm_compute. reflexivity. Qed.

(** ** [main] *)

Lemma replace_absent old new s :
  contains old s = false -> replace_from old new 0 s = s.
Proof.
  induction s as [|c s IH]; [reflexivity|].
  cbn [contains replace_from]. intros Hno.
  apply orb_false_elim in Hno as [Hhere Hlater].
  rewrite Hhere, IH by exact Hlater. reflexivity.
Qed.

(** X19.  The subreddit may be given with or without the prefix [r/]: for a
    name in which [r/] does not occur, both spellings give the
    configuration of that name; the two switches are negated and the
    other arguments are copied. *)
Theorem main_subreddit_prefix (args : cli_args) (name : string) :
  contains "r/" name = false ->
  arg_subreddit args = name \/ arg_subreddit args = "r/" +:+ name ->
  cfg_subreddit (config_of_args args) = name
  /\ cfg_skip_existing (config_of_args args) = negb (arg_no_skip args)
  /\ cfg_verbose (config_of_args args) = negb (arg_quiet args)
  /\ cfg_include_nsfw (config_of_args args) = arg_nsfw args
  /\ cfg_limit (config_of_args args) = arg_limit args.
Proof.
  intros Hno Hname. split; [|repeat split].
  unfold config_of_args, py_replace. cbn [cfg_subreddit].
  destruct Hname as [->| ->].
  - apply replace_absent, Hno.
  - change ("r/" +:+ name) with (String "r" (String "/" name)).
    cbn [replace_from prefixb Ascii.eqb Bool.eqb andb String.length Nat.sub].
    rewrite (replace_absent "r/" "" name Hno). reflexivity.
Qed.

Lemma main_subreddit_prefix_witness :
  cfg_subreddit (config_of_args example_args) = "wallpapers"
  /\ cfg_skip_existing (config_of_args example_args)
     = negb (arg_no_skip example_args)
  /\ cfg_verbose (config_of_args example_args) = negb (arg_quiet example_args)
  /\ cfg_include_nsfw (config_of_args example_args) = arg_nsfw example_args
  /\ cfg_limit (config_of_args example_args) = arg_limit example_args.
Proof.
  apply (main_subreddit_prefix example_args "wallpapers").
  - reflexivity.
  - right. reflexivity.
Defined.

(** Every [r/] goes, not only a prefix. *)
Example main_subreddit_inner :
  py_replace "r/" "" "car/r/s" = "cas".
Proof. reflexivity. Qed.

Section RunEdge.

Context `{Lib : PyLib}.

(** X20.  When the first listing request brings no data (the server cannot be
    reached, answers with an error other than 429 or with a body that is
    not JSON, possibly after some 429s), [run] still reaches its summary:
    all four counters are zero and the directory is as it was. *)
Theorem run_first_request_fails (cfg : ScraperConfig)
    (listing : list dir_entry) (k : nat) (r : response)
    (rest : list response) (env : download_env)
    (fs : gmap string (list Byte.byte))
    (outcome : res (summary * gmap string (list Byte.byte))) :
  rate_limited r = false ->
  truthy (body_of r) = false ->
  run cfg listing (repeat (RespHTTPError 429) k ++ r :: rest) env fs outcome ->
  outcome = Ret ({| sum_found := 0; sum_downloaded := 0; sum_skipped := 0;
                    sum_failed := 0 |}, fs).
Proof.
  intros Hr Hbody (res & Hfetch & Hrest). unfold fetch_posts in Hfetch.
  assert (Hfinal : final res = Ret {| posts := []; fetched := 0; skipped := 0 |}).
  { match type of Hfetch with
    | fetch_loop (S ?f) _ _ _ ?a ?s ?t = _ =>
        destruct (fetch_loop_chain_no_data f cfg (init_downloaded cfg listing)
                    k r rest a s t Hr Hbody) as (script' & tr' & E)
    end.
    rewrite E in Hfetch. injection Hfetch as <-. reflexivity. }
  rewrite Hfinal in Hrest. cbn [posts skipped length] in Hrest.
  destruct Hrest as (fs' & rs' & Hdl & ->).
  apply download_all_nil in Hdl as [-> ->]. reflexivity.
Qed.

End RunEdge.

Lemma unreachable_run_runs :
  run (Lib := reference_lib) config_five [] ([] ++ [RespURLError]) five_env
    directory_with_first
    (Ret ({| sum_found := 0; sum_downloaded := 0; sum_skipped := 0;
             sum_failed := 0 |}, directory_with_first)).
Proof.
  exists (result_of (fetch_posts (Lib := reference_lib) config_five ∅
                       [RespURLError])).
  split; [vm_compute; reflexivity|].
  replace (final _) with (Ret {| posts := []; fetched := 0; skipped := 0 |})
    by (vm_compute; reflexivity).
  exists directory_with_first, (init_state (Lib := reference_lib) config_five []).
  split; [apply rtc_refl|reflexivity].
Qed.

Lemma run_first_request_fails_witness :
  Ret ({| sum_found := 0; sum_downloaded := 0; sum_skipped := 0;
          sum_failed := 0 |}, directory_with_first)
  = Ret ({| sum_found := 0; sum_downloaded := 0; sum_skipped := 0;
            sum_failed := 0 |}, directory_with_first).
Proof.
  exact (run_first_request_fails (Lib := reference_lib) config_five [] 0
           RespURLError [] five_env directory_with_first _ eq_refl eq_refl
           unreachable_run_runs).
Defined.
